(** * ArdunixNix6: digit renderer and high-voltage PWM regulator

    A shallow embedding of the display state machine ([outputDisplay]) and
    of the boost-converter PWM bookkeeping ([setPWMTopTime], [setPWMOnTime],
    [checkHVVoltage], the second pass of [calibrateHVG]) found in
    [ardunixFade9_6_digit.ino], with the properties the specification states
    about them.

    Conventions.
    - [int] on the target (ATmega328) is a 16-bit two's-complement integer;
      every [int] sum or difference of the source is written with [int16].
    - [byte] is an 8-bit unsigned integer; every store into a [byte] array
      is written with [byte].
    - The sketch keeps its state in globals; the globals read or written by
      the renderer are gathered in the record [Display], those of the
      regulator in [HV], and each function is a state transformer.
    - [outputDisplay] declares its three timing variables without
      initialising them and keeps them across the six slot iterations; they
      are carried in [Locals], [None] standing for "not yet assigned".

    Besides these, the file embeds the display presets and number loaders,
    the buffered clock ([struct DateTime]), the push button
    ([struct Button]), the port writes that drive the decoder and the
    anodes, the EEPROM, settings-menu and I2C handling of the settings, and
    the whole of [calibrateHVG]. A read outside an array of the sketch has
    no result ([None]); what the hardware returns (sensor readings, pin
    levels, received bytes, the time stamp) is an argument. The floating
    point code ([setLeds], [getDimmingFromLDR], [getRawHVADCThreshold]) and
    the clock chip are not modelled. *)

From Stdlib Require Import ZArith Lia Bool.
From stdpp Require Import base list.

Local Open Scope Z_scope.

(** ** Machine integers *)

Definition int16 (z : Z) : Z := (z + 32768) mod 65536 - 32768.
Definition byte (z : Z) : Z := z mod 256.
Definition uint16 (z : Z) : Z := z mod 65536.

Definition in_int16 (z : Z) : Prop := -32768 <= z <= 32767.

(** ** Constants ([#define]s of the sketch) *)

Definition DIGIT_DISPLAY_COUNT : Z := 1000.
Definition DIGIT_ANTI_GHOST : Z := DIGIT_DISPLAY_COUNT + 10.
Definition DIGIT_DISPLAY_ON : Z := 0.
Definition DIGIT_DISPLAY_OFF : Z := 999.
Definition DIGIT_DISPLAY_NEVER : Z := -1.
Definition DIGIT_DISPLAY_MIN_DIM : Z := 100.
Definition DIM_VALUE : Z := Z.quot DIGIT_DISPLAY_COUNT 5.
Definition BLINK_COUNT_MAX : Z := 25.

Definition PWM_TOP_DEFAULT : Z := 1000.
Definition PWM_TOP_MIN : Z := 300.
Definition PWM_TOP_MAX : Z := 10000.
Definition PWM_PULSE_DEFAULT : Z := 200.
Definition PWM_PULSE_MIN : Z := 50.
Definition PWM_PULSE_MAX : Z := 500.
Definition PWM_OFF_MIN : Z := 50.

Definition SCROLL_STEPS_DEFAULT : Z := 4.
Definition SCROLL_STEPS_MIN : Z := 1.
Definition SCROLL_STEPS_MAX : Z := 40.
Definition FADE_STEPS_DEFAULT : Z := 50.
Definition FADE_STEPS_MAX : Z := 200.
Definition FADE_STEPS_MIN : Z := 20.

Definition BLANKED : Z := 0.
Definition DIMMED : Z := 1.
Definition FADE : Z := 2.
Definition NORMAL : Z := 3.
Definition BLINK : Z := 4.
Definition SCROLL : Z := 5.
Definition BRIGHT : Z := 6.

(** ** Arrays

    The four six-element [byte] arrays are lists; [rd] reads an element
    (the loop index never leaves [0..5], the default is never used on an
    array of length six) and stdpp's [<[i:=x]>] writes one. *)

Definition rd (a : list Z) (i : nat) : Z := default 0 (a !! i).

(** ** The renderer *)

Module Render.

(** The three timing variables local to [outputDisplay]. *)
Record Locals : Type := mkLocals {
  digitOnTime : option Z;
  digitOffTime : option Z;
  digitSwitchTime : option Z
}.

Definition uninitialised : Locals := mkLocals None None None.

(** The globals of the renderer. [fadeStep] is a [float] in the sketch; it
    only ever receives the quotient of two [int]s (an integer below 2^15),
    and the one product it enters is below 2^24, so every value it takes is
    an integer that [float] represents exactly: it is carried as [Z]. *)
Record Display : Type := mkDisplay {
  NumberArray : list Z;
  currNumberArray : list Z;
  displayType : list Z;
  fadeState : list Z;
  blanked : bool;
  scrollback : bool;
  fadeSteps : Z;
  fadeStep : Z;
  digitOffCount : Z;
  scrollSteps : Z;
  blinkCounter : Z;
  blinkState : bool
}.

Definition set_curr (v : list Z) (s : Display) : Display :=
  mkDisplay (NumberArray s) v (displayType s) (fadeState s) (blanked s)
    (scrollback s) (fadeSteps s) (fadeStep s) (digitOffCount s)
    (scrollSteps s) (blinkCounter s) (blinkState s).

Definition set_fade (v : list Z) (s : Display) : Display :=
  mkDisplay (NumberArray s) (currNumberArray s) (displayType s) v (blanked s)
    (scrollback s) (fadeSteps s) (fadeStep s) (digitOffCount s)
    (scrollSteps s) (blinkCounter s) (blinkState s).

Definition set_number (v : list Z) (s : Display) : Display :=
  mkDisplay v (currNumberArray s) (displayType s) (fadeState s) (blanked s)
    (scrollback s) (fadeSteps s) (fadeStep s) (digitOffCount s)
    (scrollSteps s) (blinkCounter s) (blinkState s).

Definition set_type (v : list Z) (s : Display) : Display :=
  mkDisplay (NumberArray s) (currNumberArray s) v (fadeState s) (blanked s)
    (scrollback s) (fadeSteps s) (fadeStep s) (digitOffCount s)
    (scrollSteps s) (blinkCounter s) (blinkState s).

Definition set_blink (c : Z) (b : bool) (s : Display) : Display :=
  mkDisplay (NumberArray s) (currNumberArray s) (displayType s) (fadeState s)
    (blanked s) (scrollback s) (fadeSteps s) (fadeStep s) (digitOffCount s)
    (scrollSteps s) c b.

(** Main loop, after the ambient light reading:
    [digitOffCount = getDimmingFromLDR(); fadeStep = digitOffCount / fadeSteps;]
    (the division is the [int] one, truncating). *)
Definition setDimming (dim : Z) (s : Display) : Display :=
  mkDisplay (NumberArray s) (currNumberArray s) (displayType s) (fadeState s)
    (blanked s) (scrollback s) (fadeSteps s) (Z.quot dim (fadeSteps s)) dim
    (scrollSteps s) (blinkCounter s) (blinkState s).

(** Conversion of the [float] product to [int]. The product is an integer;
    inside the [int] range the conversion is the identity (outside it the
    conversion is undefined in C and is modelled by wrap-around). *)
Definition int_of_float (z : Z) : Z := int16 z.

Definition setOnOff (on off : Z) (loc : Locals) : Locals :=
  mkLocals (Some on) (Some off) (digitSwitchTime loc).

Definition setSwitch (sw : Z) (loc : Locals) : Locals :=
  mkLocals (digitOnTime loc) (digitOffTime loc) (Some sw).

(** [tmpDispType]: the configured mode, or [BLANKED] under the global flag. *)
Definition resolveType (s : Display) (i : nat) : Z :=
  if blanked s then BLANKED else rd (displayType s) i.

(** The [switch (tmpDispType)] of [outputDisplay]; it has no [default]. *)
Definition modeTimes (s : Display) (tmpDispType : Z) (loc : Locals) : Locals :=
  if tmpDispType =? BLANKED then setOnOff DIGIT_DISPLAY_NEVER DIGIT_DISPLAY_ON loc
  else if tmpDispType =? DIMMED then setOnOff DIGIT_DISPLAY_ON DIM_VALUE loc
  else if tmpDispType =? BRIGHT then setOnOff DIGIT_DISPLAY_ON DIGIT_DISPLAY_OFF loc
  else if (tmpDispType =? FADE) || (tmpDispType =? NORMAL)
       then setOnOff DIGIT_DISPLAY_ON (digitOffCount s) loc
  else if tmpDispType =? BLINK then
         if blinkState s
         then setOnOff DIGIT_DISPLAY_ON (digitOffCount s) loc
         else setOnOff DIGIT_DISPLAY_NEVER DIGIT_DISPLAY_ON loc
  else if tmpDispType =? SCROLL then setOnOff DIGIT_DISPLAY_ON (digitOffCount s) loc
  else loc.

(** "Do scrollback when we are going to 0". *)
Definition scrollOverride (s : Display) (i : nat) : bool :=
  negb (rd (NumberArray s) i =? rd (currNumberArray s) i)
  && (rd (NumberArray s) i =? 0)
  && scrollback s.

Definition effectiveType (s : Display) (i : nat) : Z :=
  if scrollOverride s i then SCROLL else resolveType s i.

(** The [tmpDispType == SCROLL] branch. *)
Definition scrollBranch (i : nat) (s : Display) (loc : Locals) : Display * Locals :=
  let loc := setSwitch DIGIT_DISPLAY_OFF loc in
  if negb (rd (NumberArray s) i =? rd (currNumberArray s) i) then
    let s :=
      if rd (fadeState s) i =? 0
      then set_fade (<[i := byte (scrollSteps s)]> (fadeState s)) s
      else s in
    if rd (fadeState s) i =? 1 then
      let s := set_fade (<[i := 0]> (fadeState s)) s in
      (set_curr (<[i := byte (rd (currNumberArray s) i - 1)]> (currNumberArray s)) s, loc)
    else if rd (fadeState s) i >? 1 then
      (set_fade (<[i := byte (rd (fadeState s) i - 1)]> (fadeState s)) s, loc)
    else (s, loc)
  else (s, loc).

(** The [tmpDispType == FADE] branch. *)
Definition fadeBranch (i : nat) (s : Display) (loc : Locals) : Display * Locals :=
  let '(s, loc) :=
    if negb (rd (NumberArray s) i =? rd (currNumberArray s) i)
       && (rd (fadeState s) i =? 0)
    then
      let s := set_fade (<[i := byte (fadeSteps s)]> (fadeState s)) s in
      (s, setSwitch (int_of_float (rd (fadeState s) i * fadeStep s)) loc)
    else (s, loc) in
  if rd (fadeState s) i =? 1 then
    let s := set_fade (<[i := 0]> (fadeState s)) s in
    let s := set_curr (<[i := rd (NumberArray s) i]> (currNumberArray s)) s in
    (s, setSwitch DIGIT_DISPLAY_COUNT loc)
  else if rd (fadeState s) i >? 1 then
    let s := set_fade (<[i := byte (rd (fadeState s) i - 1)]> (fadeState s)) s in
    (s, setSwitch (int_of_float (rd (fadeState s) i * fadeStep s)) loc)
  else (s, loc).

(** Every other value of [tmpDispType]. *)
Definition snapBranch (i : nat) (s : Display) (loc : Locals) : Display * Locals :=
  (set_curr (<[i := rd (NumberArray s) i]> (currNumberArray s)) s,
   setSwitch DIGIT_DISPLAY_COUNT loc).

(** One iteration of the [for (i ...)] loop, up to the inner timer loop:
    the state after it and the timing variables the timer loop reads. *)
Definition slotStep (i : nat) (st : Display * Locals) : Display * Locals :=
  let '(s, loc) := st in
  let loc := modeTimes s (resolveType s i) loc in
  let tmpDispType := effectiveType s i in
  if tmpDispType =? SCROLL then scrollBranch i s loc
  else if tmpDispType =? FADE then fadeBranch i s loc
  else snapBranch i s loc.

(** Signals sent to the tube drivers by the inner timer loop. *)
Inductive Signal : Type :=
| SigDigitOn (digit : nat) (value : Z)
| SigSetSN74141Chip (value : Z)
| SigDigitOff.

Definition timerTick (i : nat) (s : Display) (on off sw timer : Z) : list Signal :=
  (if timer =? on then [SigDigitOn i (rd (currNumberArray s) i)] else [])
  ++ (if timer =? sw then [SigSetSN74141Chip (rd (NumberArray s) i)] else [])
  ++ (if timer =? off then [SigDigitOff] else []).

(** [for (timer = 0; timer < DIGIT_ANTI_GHOST; timer++)]; no result when a
    timing variable is read before it was ever assigned. *)
Definition timerLoop (i : nat) (s : Display) (loc : Locals) : option (list Signal) :=
  match digitOnTime loc, digitOffTime loc, digitSwitchTime loc with
  | Some on, Some off, Some sw =>
      Some (flat_map (fun t => timerTick i s on off sw (Z.of_nat t))
                     (seq 0 (Z.to_nat DIGIT_ANTI_GHOST)))
  | _, _, _ => None
  end.

(** The six iterations; the second component collects, slot by slot, the
    timing variables the timer loop of that slot used. *)
Fixpoint slotLoop (idx : list nat) (st : Display * Locals) (acc : list Locals)
  : Display * Locals * list Locals :=
  match idx with
  | [] => (st, acc)
  | i :: rest =>
      let st' := slotStep i st in
      slotLoop rest st' (acc ++ [snd st'])
  end.

(** "Deal with blink, calculate if we are on or off". *)
Definition blinkUpdate (s : Display) : Display :=
  let c := int16 (blinkCounter s + 1) in
  if c =? BLINK_COUNT_MAX then set_blink 0 (negb (blinkState s)) s
  else set_blink c (blinkState s) s.

Definition outputDisplayFull (s : Display) : Display * list Locals :=
  let '(st, timings) := slotLoop (seq 0 6) (s, uninitialised) [] in
  (blinkUpdate (fst st), timings).

(** [outputDisplay] as a state transformer, and the timing it used. *)
Definition outputDisplay (s : Display) : Display := fst (outputDisplayFull s).
Definition timings (s : Display) : list Locals := snd (outputDisplayFull s).

(** The switch step used for slot [i] by the call made in state [s]. *)
Definition switchStepOf (s : Display) (i : nat) : option Z :=
  t ← timings s !! i; digitSwitchTime t.

(** *** Slot-wise reading of the loop

    Iteration [i] reads and writes the arrays at index [i] only. The
    definitions below isolate what it does to that one slot; they are
    proved equal to [slotStep] ([slotStep_core]) and are used to reason
    about a slot across calls. *)

Record Slot : Type := mkSlot {
  target : Z;      (* NumberArray[i] *)
  current : Z;     (* currNumberArray[i] *)
  mode : Z;        (* displayType[i] *)
  fstate : Z       (* fadeState[i] *)
}.

Definition slotAt (s : Display) (i : nat) : Slot :=
  mkSlot (rd (NumberArray s) i) (rd (currNumberArray s) i)
         (rd (displayType s) i) (rd (fadeState s) i).

Definition writeSlot (i : nat) (v : Slot) (s : Display) : Display :=
  set_curr (<[i := current v]> (currNumberArray s))
    (set_fade (<[i := fstate v]> (fadeState s)) s).

Definition coreOverride (s : Display) (v : Slot) : bool :=
  negb (target v =? current v) && (target v =? 0) && scrollback s.

Definition coreType (s : Display) (v : Slot) : Z :=
  if coreOverride s v then SCROLL
  else if blanked s then BLANKED else mode v.

Definition scrollCore (s : Display) (v : Slot) (loc : Locals) : Slot * Locals :=
  let loc := setSwitch DIGIT_DISPLAY_OFF loc in
  if negb (target v =? current v) then
    let fs := if fstate v =? 0 then byte (scrollSteps s) else fstate v in
    if fs =? 1 then (mkSlot (target v) (byte (current v - 1)) (mode v) 0, loc)
    else if fs >? 1 then (mkSlot (target v) (current v) (mode v) (byte (fs - 1)), loc)
    else (mkSlot (target v) (current v) (mode v) fs, loc)
  else (v, loc).

Definition fadeCore (s : Display) (v : Slot) (loc : Locals) : Slot * Locals :=
  let start := negb (target v =? current v) && (fstate v =? 0) in
  let fs := if start then byte (fadeSteps s) else fstate v in
  let loc := if start then setSwitch (int_of_float (fs * fadeStep s)) loc else loc in
  if fs =? 1 then
    (mkSlot (target v) (target v) (mode v) 0, setSwitch DIGIT_DISPLAY_COUNT loc)
  else if fs >? 1 then
    (mkSlot (target v) (current v) (mode v) (byte (fs - 1)),
     setSwitch (int_of_float (byte (fs - 1) * fadeStep s)) loc)
  else (mkSlot (target v) (current v) (mode v) fs, loc).

Definition snapCore (v : Slot) (loc : Locals) : Slot * Locals :=
  (mkSlot (target v) (target v) (mode v) (fstate v),
   setSwitch DIGIT_DISPLAY_COUNT loc).

Definition coreStep (s : Display) (v : Slot) (loc : Locals) : Slot * Locals :=
  let loc := modeTimes s (if blanked s then BLANKED else mode v) loc in
  let t := coreType s v in
  if t =? SCROLL then scrollCore s v loc
  else if t =? FADE then fadeCore s v loc
  else snapCore v loc.

(** The slot after one call, and the state and timing variables at the
    head of iteration [i] of the call made in state [s]. *)
Definition nextSlot (s : Display) (v : Slot) : Slot := fst (coreStep s v uninitialised).

Definition atHead (s : Display) (i : nat) : Display * Locals :=
  fold_left (fun st k => slotStep k st) (seq 0 i) (s, uninitialised).

(** The arrays have six elements. *)
Definition wf (s : Display) : Prop :=
  length (NumberArray s) = 6%nat /\ length (currNumberArray s) = 6%nat
  /\ length (displayType s) = 6%nat /\ length (fadeState s) = 6%nat.

(** What no slot iteration writes. *)
Definition settings (s : Display)
  : list Z * list Z * bool * bool * Z * Z * Z * Z * Z * bool :=
  (NumberArray s, displayType s, blanked s, scrollback s, fadeSteps s,
   fadeStep s, digitOffCount s, scrollSteps s, blinkCounter s, blinkState s).

(** The configuration a slot iteration reads besides the slot itself and
    the blink phase. *)
Definition knobs (s : Display) : bool * bool * Z * Z * Z * Z :=
  (blanked s, scrollback s, fadeSteps s, fadeStep s, scrollSteps s,
   digitOffCount s).

(** [k] successive calls of [outputDisplay]. *)
Definition impressions (k : nat) (s : Display) : Display :=
  Nat.iter k outputDisplay s.

(** A Fade slot going from [c] to [t] in [n] steps, after [k < n] calls. *)
Definition fadeSlot (t c : Z) (n k : nat) : Slot :=
  match k with
  | O => mkSlot t c FADE 0
  | S _ => mkSlot t c FADE (Z.of_nat n - Z.of_nat k)
  end.

(** A slot of configured mode [m] scrolling from [c] down to 0 with [M]
    scroll steps, after [k <= c * M] calls. *)
Definition scrollSlot (m : Z) (c M k : nat) : Slot :=
  mkSlot 0 (Z.of_nat c - Z.of_nat (k / M)) m
         (if (k mod M =? 0)%nat then 0 else Z.of_nat M - Z.of_nat (k mod M)).

(** Display presets used by the calibration. *)
Definition makeBright (i : nat) (s : Display) : Display :=
  if negb (rd (displayType s) i =? BRIGHT)
  then set_type (<[i := BRIGHT]> (displayType s)) s
  else s.

Definition allBright (s : Display) : Display :=
  makeBright 5 (makeBright 4 (makeBright 3 (makeBright 2 (makeBright 1
    (makeBright 0 s))))).

Definition loadNumberArrayConfInt (confValue confNum : Z) (s : Display) : Display :=
  let a := NumberArray s in
  let a := <[5%nat := byte (Z.rem confNum 10)]> a in
  let a := <[4%nat := byte (Z.rem (Z.quot confNum 10) 10)]> a in
  let a := <[3%nat := byte (Z.rem (Z.quot confValue 1) 10)]> a in
  let a := <[2%nat := byte (Z.rem (Z.quot confValue 10) 10)]> a in
  let a := <[1%nat := byte (Z.rem (Z.quot confValue 100) 10)]> a in
  let a := <[0%nat := byte (Z.rem (Z.quot confValue 1000) 10)]> a in
  set_number a s.

(** *** States used in the examples *)

(** The initialisers of the globals. *)
Definition powerUp : Display :=
  mkDisplay [0; 0; 0; 0; 0; 0] [0; 0; 0; 0; 0; 0]
    [FADE; FADE; FADE; FADE; FADE; FADE] [0; 0; 0; 0; 0; 0]
    false true FADE_STEPS_DEFAULT (Z.quot DIGIT_DISPLAY_COUNT FADE_STEPS_DEFAULT)
    DIGIT_DISPLAY_OFF SCROLL_STEPS_DEFAULT 0 true.

(** Off-count 1000, 50 fade steps; the first digit goes from 3 to 7. *)
Definition fade3to7 : Display :=
  setDimming 1000
    (set_curr [3; 0; 0; 0; 0; 0] (set_number [7; 0; 0; 0; 0; 0] powerUp)).

(** All slots [NORMAL]; the first digit goes from 5 to 0. *)
Definition normal5to0 : Display :=
  set_type [NORMAL; NORMAL; NORMAL; NORMAL; NORMAL; NORMAL]
    (set_curr [5; 0; 0; 0; 0; 0] powerUp).

(** Dimmest ambient setting with the longest fade: [fadeStep] is 0. *)
Definition dimFade : Display :=
  mkDisplay [7; 0; 0; 0; 0; 0] [3; 0; 0; 0; 0; 0]
    [FADE; FADE; FADE; FADE; FADE; FADE] [0; 0; 0; 0; 0; 0]
    false true FADE_STEPS_MAX (Z.quot DIGIT_DISPLAY_MIN_DIM FADE_STEPS_MAX)
    DIGIT_DISPLAY_MIN_DIM SCROLL_STEPS_DEFAULT 0 true.

(** First slot [BRIGHT], second slot an idle [FADE] slot, third slot
    fading from 3 to 7. *)
Definition mixed : Display :=
  set_type [BRIGHT; FADE; FADE; FADE; FADE; FADE]
    (set_curr [0; 0; 3; 0; 0; 0] (set_number [0; 0; 7; 0; 0; 0] powerUp)).

(** The last digit starts a fade from 8 to 9, with the power-up settings
    (50 fade steps, 4 scroll steps) and with the longest fade (200 steps). *)
Definition fade8to9 : Display :=
  set_number [0; 0; 0; 0; 0; 9] (set_curr [0; 0; 0; 0; 0; 8] powerUp).

Definition slowFade8to9 : Display :=
  mkDisplay [0; 0; 0; 0; 0; 9] [0; 0; 0; 0; 0; 8]
    [FADE; FADE; FADE; FADE; FADE; FADE] [0; 0; 0; 0; 0; 0]
    false true FADE_STEPS_MAX (Z.quot DIGIT_DISPLAY_OFF FADE_STEPS_MAX)
    DIGIT_DISPLAY_OFF SCROLL_STEPS_DEFAULT 0 true.

(** The display [k] calls into the transition of [s], at the moment every
    digit is given the new target 0. *)
Definition retargeted (k : nat) (s : Display) : Display :=
  set_number [0; 0; 0; 0; 0; 0] (impressions k s).

End Render.

(** ** The high-voltage generator *)

Module HVGen.

(** [pwmTop], [pwmOn] and [rawHVADCThreshold] are [int] globals; [ICR1] and
    [OCR1A] are the 16-bit timer registers written next to them. *)
Record HV : Type := mkHV {
  pwmTop : Z;
  pwmOn : Z;
  rawHVADCThreshold : Z;
  ICR1 : Z;
  OCR1A : Z
}.

Definition initial : HV :=
  mkHV PWM_TOP_DEFAULT PWM_PULSE_DEFAULT 0 0 0.

Definition setThreshold (t : Z) (h : HV) : HV :=
  mkHV (pwmTop h) (pwmOn h) t (ICR1 h) (OCR1A h).

Definition setPWMTopTime (newTopTime : Z) (h : HV) : HV :=
  let newTopTime := if newTopTime <? PWM_TOP_MIN then PWM_TOP_MIN else newTopTime in
  let newTopTime := if newTopTime >? PWM_TOP_MAX then PWM_TOP_MAX else newTopTime in
  let newTopTime :=
    if newTopTime <? int16 (pwmOn h + PWM_OFF_MIN)
    then int16 (pwmOn h + PWM_OFF_MIN) else newTopTime in
  mkHV newTopTime (pwmOn h) (rawHVADCThreshold h) (uint16 newTopTime) (OCR1A h).

Definition setPWMOnTime (newOnTime : Z) (h : HV) : HV :=
  let newOnTime := if newOnTime <? PWM_PULSE_MIN then PWM_PULSE_MIN else newOnTime in
  let newOnTime := if newOnTime >? PWM_PULSE_MAX then PWM_PULSE_MAX else newOnTime in
  let newOnTime :=
    if newOnTime >? int16 (pwmTop h - PWM_OFF_MIN)
    then int16 (pwmTop h - PWM_OFF_MIN) else newOnTime in
  mkHV (pwmTop h) newOnTime (rawHVADCThreshold h) (ICR1 h) (uint16 newOnTime).

Definition incPWMOnTime (h : HV) : HV := setPWMOnTime (int16 (pwmOn h + 1)) h.
Definition decPWMOnTime (h : HV) : HV := setPWMOnTime (int16 (pwmOn h - 1)) h.

(** [checkHVVoltage]. [getSmoothedHVSensorReading()] samples the ADC and
    returns an [int]; that returned value is the argument [reading]. *)
Definition checkHVVoltage (reading : Z) (h : HV) : HV :=
  if reading >? rawHVADCThreshold h
  then setPWMTopTime (int16 (pwmTop h + 1)) h
  else setPWMTopTime (int16 (pwmTop h - 1)) h.

(** The PWM part of [readEEPROMValues]: each setting is rebuilt from two
    stored bytes and replaced by its default when out of range. *)
Definition readEEPROMValues (pulseHi pulseLo topHi topLo : Z) (h : HV) : HV :=
  let on := int16 (byte pulseHi * 256 + byte pulseLo) in
  let on := if (on <? PWM_PULSE_MIN) || (on >? PWM_PULSE_MAX)
            then PWM_PULSE_DEFAULT else on in
  let top := int16 (byte topHi * 256 + byte topLo) in
  let top := if (top <? PWM_TOP_MIN) || (top >? PWM_TOP_MAX)
             then PWM_TOP_DEFAULT else top in
  mkHV top on (rawHVADCThreshold h) (ICR1 h) (OCR1A h).

(** The PWM part of [factoryReset]. *)
Definition factoryReset (h : HV) : HV :=
  mkHV PWM_TOP_DEFAULT PWM_PULSE_DEFAULT (rawHVADCThreshold h) (ICR1 h) (OCR1A h).

(** The states the sketch can be in: every statement that writes [pwmTop],
    [pwmOn] or the threshold is one of these. *)
Inductive reachable : HV -> Prop :=
| reach_initial : reachable initial
| reach_read (a b c d : Z) (h : HV) :
    reachable h -> reachable (readEEPROMValues a b c d h)
| reach_reset (h : HV) : reachable h -> reachable (factoryReset h)
| reach_threshold (t : Z) (h : HV) : reachable h -> reachable (setThreshold t h)
| reach_on (x : Z) (h : HV) : reachable h -> reachable (setPWMOnTime x h)
| reach_top (x : Z) (h : HV) : reachable h -> reachable (setPWMTopTime x h)
| reach_check (reading : Z) (h : HV) :
    reachable h -> reachable (checkHVVoltage reading h).

(** The bounds the two setters keep. *)
Definition pwmSafe (h : HV) : Prop :=
  pwmOn h + PWM_OFF_MIN <= pwmTop h /\ PWM_TOP_MIN <= pwmTop h <= PWM_TOP_MAX.

(** [constrain(x, lo, hi)] of the Arduino core:
    [x < lo ? lo : (x > hi ? hi : x)]. *)
Definition clamp (x lo hi : Z) : Z :=
  if x <? lo then lo else if x >? hi then hi else x.

(** *** Second pass of [calibrateHVG]

    [threshold] is the value [getRawHVADCThreshold(hvTargetVoltage)]
    returns, [confNum] is [currentMode - MODE_12_24], and [readings i] is
    what [getSmoothedHVSensorReading()] returns in iteration [i]. The third
    component of the state records the iterations in which
    [incPWMOnTime()] was called. [checkLEDPWM], which only drives an
    indicator LED, is left out. *)
Definition Calib : Type := Render.Display * HV * list nat.

Definition pass2Body (confNum : Z) (readings : nat -> Z) (st : Calib) (i : nat) : Calib :=
  let '(d, h, calls) := st in
  let d := Render.loadNumberArrayConfInt (pwmOn h) confNum d in
  let d := Render.allBright d in
  let d := Render.outputDisplay d in
  if readings i <? rawHVADCThreshold h then
    if Z.rem (Z.of_nat i) 8 =? 0
    then (d, incPWMOnTime h, calls ++ [i])
    else (d, h, calls)
  else (d, h, calls).

Definition pass2Loop (confNum : Z) (readings : nat -> Z) (n : nat) (st : Calib) : Calib :=
  fold_left (pass2Body confNum readings) (seq 0 n) st.

Definition calibratePass2 (threshold confNum : Z) (readings : nat -> Z)
    (d : Render.Display) (h : HV) : Calib :=
  let h := setThreshold threshold h in
  let h := setPWMOnTime PWM_PULSE_MIN h in
  pass2Loop confNum readings 768 (d, h, []).

End HVGen.

(** ** Display presets and number loaders *)

Module Presets.
Import Render.

(** One line of a preset: [if (displayType[i] != test) displayType[i] = v;] *)
Definition setUnless (i : nat) (test v : Z) (s : Display) : Display :=
  if negb (rd (displayType s) i =? test)
  then set_type (<[i := v]> (displayType s)) s
  else s.

(** A preset whose six lines test for the value they store. *)
Definition preset (v0 v1 v2 v3 v4 v5 : Z) (s : Display) : Display :=
  setUnless 5 v5 v5 (setUnless 4 v4 v4 (setUnless 3 v3 v3
    (setUnless 2 v2 v2 (setUnless 1 v1 v1 (setUnless 0 v0 v0 s))))).

Definition allFade : Display -> Display := preset FADE FADE FADE FADE FADE FADE.
Definition allNormal : Display -> Display :=
  preset NORMAL NORMAL NORMAL NORMAL NORMAL NORMAL.
Definition allBlanked : Display -> Display :=
  preset BLANKED BLANKED BLANKED BLANKED BLANKED BLANKED.
Definition highlight0and1 : Display -> Display :=
  preset BRIGHT BRIGHT DIMMED DIMMED DIMMED DIMMED.
Definition highlight2and3 : Display -> Display :=
  preset DIMMED DIMMED BRIGHT BRIGHT DIMMED DIMMED.
Definition highlight4and5 : Display -> Display :=
  preset DIMMED DIMMED DIMMED DIMMED BRIGHT BRIGHT.
Definition displayConfig : Display -> Display :=
  preset BRIGHT BRIGHT BRIGHT BRIGHT BLINK BLINK.

(** The two presets whose middle lines test for [NORMAL] and store
    [BRIGHT]. *)
Definition displayConfig3 (s : Display) : Display :=
  setUnless 5 BLINK BLINK (setUnless 4 BLINK BLINK (setUnless 3 NORMAL BRIGHT
    (setUnless 2 NORMAL BRIGHT (setUnless 1 NORMAL BRIGHT
      (setUnless 0 BLANKED BLANKED s))))).

Definition displayConfig2 (s : Display) : Display :=
  setUnless 5 BLINK BLINK (setUnless 4 BLINK BLINK (setUnless 3 NORMAL BRIGHT
    (setUnless 2 NORMAL BRIGHT (setUnless 1 BLANKED BLANKED
      (setUnless 0 BLANKED BLANKED s))))).

Definition DATE_FORMAT_YYMMDD : Z := 0.
Definition DATE_FORMAT_MMDDYY : Z := 1.
Definition DATE_FORMAT_DDMMYY : Z := 2.

(** The three [switch (dateFormat)] presets; no [default]. *)
Definition highlightYearsDateFormat (dateFormat : Z) (s : Display) : Display :=
  if dateFormat =? DATE_FORMAT_YYMMDD then highlight0and1 s
  else if dateFormat =? DATE_FORMAT_MMDDYY then highlight4and5 s
  else if dateFormat =? DATE_FORMAT_DDMMYY then highlight4and5 s
  else s.

Definition highlightMonthsDateFormat (dateFormat : Z) (s : Display) : Display :=
  if dateFormat =? DATE_FORMAT_YYMMDD then highlight2and3 s
  else if dateFormat =? DATE_FORMAT_MMDDYY then highlight0and1 s
  else if dateFormat =? DATE_FORMAT_DDMMYY then highlight2and3 s
  else s.

Definition highlightDaysDateFormat (dateFormat : Z) (s : Display) : Display :=
  if dateFormat =? DATE_FORMAT_YYMMDD then highlight4and5 s
  else if dateFormat =? DATE_FORMAT_MMDDYY then highlight2and3 s
  else if dateFormat =? DATE_FORMAT_DDMMYY then highlight0and1 s
  else s.

(** [applyBlanking]; [blankLeading] is a global of its own. *)
Definition applyBlanking (blankLeading : bool) (s : Display) : Display :=
  if negb blankLeading then s
  else if rd (NumberArray s) 0 =? 0 then setUnless 0 BLANKED BLANKED s
  else s.

(** The presets, by name. *)
Inductive Preset : Type :=
| PAllFade | PAllBright | PAllNormal | PAllBlanked
| PHighlight0and1 | PHighlight2and3 | PHighlight4and5
| PHighlightYears (dateFormat : Z) | PHighlightMonths (dateFormat : Z)
| PHighlightDays (dateFormat : Z)
| PDisplayConfig | PDisplayConfig2 | PDisplayConfig3
| PApplyBlanking (blankLeading : bool).

Definition runPreset (p : Preset) : Display -> Display :=
  match p with
  | PAllFade => allFade
  | PAllBright => allBright
  | PAllNormal => allNormal
  | PAllBlanked => allBlanked
  | PHighlight0and1 => highlight0and1
  | PHighlight2and3 => highlight2and3
  | PHighlight4and5 => highlight4and5
  | PHighlightYears f => highlightYearsDateFormat f
  | PHighlightMonths f => highlightMonthsDateFormat f
  | PHighlightDays f => highlightDaysDateFormat f
  | PDisplayConfig => displayConfig
  | PDisplayConfig2 => displayConfig2
  | PDisplayConfig3 => displayConfig3
  | PApplyBlanking b => applyBlanking b
  end.

(** The main loop's own writes to the renderer's globals: the blanking
    flag, and the three settings changed from the menu or over I2C. *)
Definition set_blanked (b : bool) (s : Display) : Display :=
  mkDisplay (NumberArray s) (currNumberArray s) (displayType s) (fadeState s) b
    (scrollback s) (fadeSteps s) (fadeStep s) (digitOffCount s)
    (scrollSteps s) (blinkCounter s) (blinkState s).

Definition set_steps (newFadeSteps newScrollSteps : Z) (newScrollback : bool)
    (s : Display) : Display :=
  mkDisplay (NumberArray s) (currNumberArray s) (displayType s) (fadeState s)
    (blanked s) newScrollback newFadeSteps (fadeStep s) (digitOffCount s)
    newScrollSteps (blinkCounter s) (blinkState s).

(** What the main loop does to the renderer's globals between two calls
    of [outputDisplay]: it loads new target digits, applies presets, sets
    the blanking flag, the dimming and the settings. *)
Inductive LoopOp : Type :=
| OpPreset (p : Preset)
| OpLoad (digits : list Z)
| OpBlanked (b : bool)
| OpDimming (dim : Z)
| OpSteps (newFadeSteps newScrollSteps : Z) (newScrollback : bool)
| OpRender.

Definition runOp (op : LoopOp) (s : Display) : Display :=
  match op with
  | OpPreset p => runPreset p s
  | OpLoad digits => set_number digits s
  | OpBlanked b => set_blanked b s
  | OpDimming dim => setDimming dim s
  | OpSteps f n b => set_steps f n b s
  | OpRender => outputDisplay s
  end.

Definition runOps (ops : list LoopOp) (s : Display) : Display :=
  fold_left (fun s op => runOp op s) ops s.

(** Number loaders that need nothing but the renderer's globals. *)
Definition loadNumberArray8s (s : Display) : Display :=
  let a := NumberArray s in
  let a := <[5%nat := 8]> a in
  let a := <[4%nat := 8]> a in
  let a := <[3%nat := 8]> a in
  let a := <[2%nat := 8]> a in
  let a := <[1%nat := 8]> a in
  let a := <[0%nat := 8]> a in
  set_number a s.

Definition loadNumberArrayLDR (s : Display) : Display :=
  let a := NumberArray s in
  let a := <[5%nat := 0]> a in
  let a := <[4%nat := 0]> a in
  let a := <[3%nat := byte (Z.rem (Z.quot (digitOffCount s) 1) 10)]> a in
  let a := <[2%nat := byte (Z.rem (Z.quot (digitOffCount s) 10) 10)]> a in
  let a := <[1%nat := byte (Z.rem (Z.quot (digitOffCount s) 100) 10)]> a in
  let a := <[0%nat := byte (Z.rem (Z.quot (digitOffCount s) 1000) 10)]> a in
  set_number a s.

Definition loadNumberArrayConfBool (confValue : bool) (confNum : Z)
    (s : Display) : Display :=
  let boolInt := if confValue then 1 else 0 in
  let a := NumberArray s in
  let a := <[5%nat := byte (Z.rem confNum 10)]> a in
  let a := <[4%nat := byte (Z.rem (Z.quot confNum 10) 10)]> a in
  let a := <[3%nat := byte boolInt]> a in
  let a := <[2%nat := 0]> a in
  let a := <[1%nat := 0]> a in
  let a := <[0%nat := 0]> a in
  set_number a s.

(** The number a row of decimal digits shows. *)
Definition shown (digits : list Z) : Z :=
  fold_left (fun acc d => 10 * acc + d) digits 0.

(** Decimal digits only; no slot configured as [SCROLL]; a step of the
    main loop that loads six decimal digits if it loads any. *)
Definition decimal (a : list Z) : Prop := Forall (fun d => 0 <= d <= 9) a.

Definition noScroll (s : Display) : Prop :=
  Forall (fun m => m <> SCROLL) (displayType s).

Definition loadsDecimal (op : LoopOp) : Prop :=
  match op with
  | OpLoad digits => length digits = 6%nat /\ decimal digits
  | _ => True
  end.

(** What the main loop keeps: six elements in every array, decimal
    digits, no slot configured as [SCROLL]. *)
Definition steady (s : Display) : Prop :=
  wf s /\ noScroll s /\ decimal (NumberArray s) /\ decimal (currNumberArray s).

End Presets.

(** ** Buffered date and time ([struct DateTime]) *)

Module Clock.

Definition int32 (z : Z) : Z := (z + 2147483648) mod 4294967296 - 2147483648.

(** [dow] holds what [dayofweek] returned, [None] when its table was
    indexed outside its twelve entries. *)
Record DateTime : Type := mkDateTime {
  hours : Z;
  mins : Z;
  secs : Z;
  deltaHours : Z;
  deltaMins : Z;
  deltaSecs : Z;
  years : Z;
  months : Z;
  days : Z;
  dow : option Z;
  hourMode : bool;
  millisDate : Z
}.

Definition dayTable : list Z := [0; 3; 2; 5; 0; 3; 5; 1; 4; 6; 2; 4].

(** [dayofweek]: all arguments are [int]; the sum is formed with
    additions and subtractions only, so wrapping it once is the same as
    wrapping every partial sum. *)
Definition dayofweek (y m d : Z) : option Z :=
  let y := int16 (y - (if m <? 3 then 1 else 0)) in
  if (1 <=? m) && (m <=? 12) then
    t ← dayTable !! Z.to_nat (m - 1);
    Some (int16 (Z.rem
            (int16 (y + Z.quot y 4 - Z.quot y 100 + Z.quot y 400 + t + d)) 7 + 1))
  else None.

Definition setSyncTime (newMillis newYears newMonths newDays newHours
    newMins newSecs : Z) (t : DateTime) : DateTime :=
  mkDateTime (byte newHours) (byte newMins) (byte newSecs)
    (deltaHours t) (deltaMins t) (deltaSecs t)
    (byte newYears) (byte newMonths) (byte newDays)
    (byte <$> dayofweek (byte newYears) (byte newMonths) (byte newDays))
    (hourMode t) (int32 newMillis).

Definition getDelta (newMillis : Z) (t : DateTime) : Z :=
  int32 (newMillis - millisDate t).

(** [setDelta]; the three [long] temporaries, then the three [byte]
    fields and their carries. *)
Definition setDelta (newMillis : Z) (t : DateTime) : DateTime :=
  let tmpDeltaSecs := int32 (newMillis - millisDate t) in
  let tmpDeltaSecs := Z.quot tmpDeltaSecs 1000 in
  let tmpSecs := Z.rem tmpDeltaSecs 60 in
  let tmpMins := Z.rem (Z.quot tmpDeltaSecs 60) 60 in
  let tmpHours := Z.rem (Z.quot tmpDeltaSecs 3600) 24 in
  let dSecs := byte (secs t + tmpSecs) in
  let dMins := byte (mins t + tmpMins) in
  let dHours := byte (hours t + tmpHours) in
  let '(dSecs, dMins) :=
    if dSecs >? 59 then (byte (dSecs - 60), byte (dMins + 1)) else (dSecs, dMins) in
  let '(dMins, dHours) :=
    if dMins >? 59 then (byte (dMins - 60), byte (dHours + 1)) else (dMins, dHours) in
  let dHours := if dHours >? 23 then byte (dHours - 24) else dHours in
  mkDateTime (hours t) (mins t) (secs t) dHours dMins dSecs
    (years t) (months t) (days t) (dow t) (hourMode t) (millisDate t).

Definition getHoursByMode (t : DateTime) (h : Z) : Z :=
  if hourMode t then
    if h =? 0 then 12
    else if h >? 12 then byte (h - 12)
    else h
  else h.

Definition setHourMode (newMode : bool) (t : DateTime) : DateTime :=
  mkDateTime (hours t) (mins t) (secs t) (deltaHours t) (deltaMins t)
    (deltaSecs t) (years t) (months t) (days t) (dow t) newMode (millisDate t).

Definition getHours (t : DateTime) : Z := getHoursByMode t (deltaHours t).
Definition getHours24 (t : DateTime) : Z := deltaHours t.
Definition getMins (t : DateTime) : Z := deltaMins t.
Definition getSecs (t : DateTime) : Z := deltaSecs t.

(** [getTimeInt] and [updateInternalTimeDelta] of the sketch. *)
Definition getTimeInt (currentMillis : Z) (t : DateTime) : DateTime :=
  setDelta currentMillis t.

Definition updateInternalTimeDelta (currentMillis : Z) (t : DateTime) : DateTime :=
  setSyncTime currentMillis (years t) (months t) (days t)
    (getHours t) (getMins t) (getSecs t) t.

(** The fields are in the ranges of a time of day. *)
Definition validSync (t : DateTime) : Prop :=
  0 <= hours t < 24 /\ 0 <= mins t < 60 /\ 0 <= secs t < 60.

Definition validDelta (t : DateTime) : Prop :=
  0 <= deltaHours t < 24 /\ 0 <= deltaMins t < 60 /\ 0 <= deltaSecs t < 60.

Definition secondOfDay (h m s : Z) : Z := h * 3600 + m * 60 + s.

(** *** The value set in the time-setting modes

    Each [incX] computes a [byte] and hands it to [setSyncTime] and
    [setRTC]; these are the values computed. *)
Definition SECS_MAX : Z := 60.
Definition MINS_MAX : Z := 60.
Definition HOURS_MAX : Z := 24.

Definition incSecsValue (s : Z) : Z :=
  let tmp := byte (s + 1) in if tmp >=? SECS_MAX then 0 else tmp.

Definition incMinsValue (m : Z) : Z :=
  let tmp := byte (m + 1) in if tmp >=? MINS_MAX then 0 else tmp.

Definition incHoursValue (h : Z) : Z :=
  let tmp := byte (h + 1) in if tmp >=? HOURS_MAX then 0 else tmp.

Definition maxDays (month : Z) : Z :=
  if (month =? 4) || (month =? 6) || (month =? 9) || (month =? 11) then 31
  else if month =? 2 then 28
  else 31.

Definition incDaysValue (month d : Z) : Z :=
  let tmp := byte (d + 1) in if tmp >? maxDays month then 1 else tmp.

Definition incMonthsValue (m : Z) : Z :=
  let tmp := byte (m + 1) in if tmp >? 12 then 1 else tmp.

Definition incYearsValue (y : Z) : Z :=
  let tmp := byte (y + 1) in if tmp >? 50 then 15 else tmp.

(** The writes to the clock chip ([setRTC]) that follow in each [incX] are
    not part of the model. *)
Definition incSecs (nowMillis : Z) (t : DateTime) : DateTime :=
  setSyncTime nowMillis (years t) (months t) (days t) (getHours24 t)
    (getMins t) (incSecsValue (getSecs t)) t.

Definition incMins (nowMillis : Z) (t : DateTime) : DateTime :=
  setSyncTime nowMillis (years t) (months t) (days t) (getHours24 t)
    (incMinsValue (getMins t)) 0 t.

Definition incHours (nowMillis : Z) (t : DateTime) : DateTime :=
  setSyncTime nowMillis (years t) (months t) (days t)
    (incHoursValue (getHours24 t)) (getMins t) (getSecs t) t.

Definition incDays (nowMillis : Z) (t : DateTime) : DateTime :=
  setSyncTime nowMillis (years t) (months t) (incDaysValue (months t) (days t))
    (getHours24 t) (getMins t) (getSecs t) t.

Definition incMonths (nowMillis : Z) (t : DateTime) : DateTime :=
  setSyncTime nowMillis (years t) (incMonthsValue (months t)) (days t)
    (getHours24 t) (getMins t) (getSecs t) t.

Definition incYears (nowMillis : Z) (t : DateTime) : DateTime :=
  setSyncTime nowMillis (incYearsValue (years t)) (months t) (days t)
    (getHours24 t) (getMins t) (getSecs t) t.

(** *** Calendar used to state what [dayofweek] computes

    Not from the sketch: the Gregorian calendar of the years 2000 + [y]. *)
Definition leapYear (y : Z) : bool :=
  ((y mod 4 =? 0) && negb (y mod 100 =? 0)) || (y mod 400 =? 0).

Definition daysInMonth (y m : Z) : Z :=
  if m =? 2 then (if leapYear y then 29 else 28)
  else if (m =? 4) || (m =? 6) || (m =? 9) || (m =? 11) then 30
  else 31.

Definition validDate (y m d : Z) : Prop :=
  1 <= m <= 12 /\ 1 <= d <= daysInMonth y m.

Definition nextDate (y m d : Z) : Z * Z * Z :=
  if d <? daysInMonth y m then (y, m, d + 1)
  else if m <? 12 then (y, m + 1, 1)
  else (y + 1, 1, 1).

(** Sunday = 1, ..., Saturday = 7. *)
Definition nextWeekday (w : Z) : Z := w mod 7 + 1.

(** Checks over every date of the years 2001 to 2099, by evaluation. *)
Definition validDateb (y m d : Z) : bool :=
  (1 <=? m) && (m <=? 12) && (1 <=? d) && (d <=? daysInMonth y m).

Definition allDates (p : Z -> Z -> Z -> bool) : bool :=
  forallb (fun y =>
    forallb (fun m =>
      forallb (fun d =>
        implb (validDateb (2000 + Z.of_nat y) (Z.of_nat m) (Z.of_nat d))
              (p (Z.of_nat y) (Z.of_nat m) (Z.of_nat d)))
        (seq 1 31)) (seq 1 12)) (seq 1 99).

(** [dayofweek] of a two-digit year is a day 1..7, and the day after has
    the next weekday. *)
Definition weekdayStep (y m d : Z) : bool :=
  match dayofweek y m d with
  | Some w =>
      (1 <=? w) && (w <=? 7)
      && (let '(y', m', d') := nextDate (2000 + y) m d in
          match dayofweek (y' - 2000) m' d' with
          | Some w' => w' =? nextWeekday w
          | None => false
          end)
  | None => false
  end.

(** *** Day and hour blanking *)

Definition DAY_BLANKING_NEVER : Z := 0.
Definition DAY_BLANKING_WEEKEND : Z := 1.
Definition DAY_BLANKING_WEEKDAY : Z := 2.
Definition DAY_BLANKING_ALWAYS : Z := 3.
Definition DAY_BLANKING_HOURS : Z := 4.
Definition DAY_BLANKING_WEEKEND_OR_HOURS : Z := 5.
Definition DAY_BLANKING_WEEKDAY_OR_HOURS : Z := 6.
Definition DAY_BLANKING_WEEKEND_AND_HOURS : Z := 7.
Definition DAY_BLANKING_WEEKDAY_AND_HOURS : Z := 8.
Definition MODE_TIME : Z := 0.

Definition getHoursBlanked (blankHourStart blankHourEnd : Z) (t : DateTime) : bool :=
  if blankHourStart >? blankHourEnd then
    (getHours24 t >=? blankHourStart) || (getHours24 t <? blankHourEnd)
  else if blankHourStart <? blankHourEnd then
    (getHours24 t >=? blankHourStart) && (getHours24 t <? blankHourEnd)
  else false.

(** [checkBlanking] falls off its end without a [return] when the guard
    fails or [dayBlanking] is none of the nine cases: [None]. It also has
    no value when [getDow] is read and has none. *)
Definition checkBlanking (dayBlanking currentMode blankHourStart blankHourEnd : Z)
    (t : DateTime) : option bool :=
  if (getSecs t =? 0) && (currentMode =? MODE_TIME) then
    let hoursBlanked := getHoursBlanked blankHourStart blankHourEnd t in
    let weekend := w ← dow t; Some ((w =? 1) || (w =? 7)) in
    let weekday := w ← dow t; Some ((w >? 1) && (w <? 7)) in
    if dayBlanking =? DAY_BLANKING_NEVER then Some false
    else if dayBlanking =? DAY_BLANKING_HOURS then Some hoursBlanked
    else if dayBlanking =? DAY_BLANKING_WEEKEND then weekend
    else if dayBlanking =? DAY_BLANKING_WEEKEND_OR_HOURS
      then b ← weekend; Some (b || hoursBlanked)
    else if dayBlanking =? DAY_BLANKING_WEEKEND_AND_HOURS
      then b ← weekend; Some (b && hoursBlanked)
    else if dayBlanking =? DAY_BLANKING_WEEKDAY then weekday
    else if dayBlanking =? DAY_BLANKING_WEEKDAY_OR_HOURS
      then b ← weekday; Some (b || hoursBlanked)
    else if dayBlanking =? DAY_BLANKING_WEEKDAY_AND_HOURS
      then b ← weekday; Some (b && hoursBlanked)
    else if dayBlanking =? DAY_BLANKING_ALWAYS then Some true
    else None
  else None.

(** *** Number loaders that read the clock *)

Import Render.

Definition loadNumberArrayTime (t : DateTime) (s : Display) : Display :=
  let a := NumberArray s in
  let a := <[5%nat := byte (Z.rem (getSecs t) 10)]> a in
  let a := <[4%nat := byte (Z.quot (getSecs t) 10)]> a in
  let a := <[3%nat := byte (Z.rem (getMins t) 10)]> a in
  let a := <[2%nat := byte (Z.quot (getMins t) 10)]> a in
  let a := <[1%nat := byte (Z.rem (getHours t) 10)]> a in
  let a := <[0%nat := byte (Z.quot (getHours t) 10)]> a in
  set_number a s.

Definition loadNumberArrayTestDigits (t : DateTime) (s : Display) : Display :=
  let a := NumberArray s in
  let a := <[5%nat := byte (Z.rem (getSecs t) 10)]> a in
  let a := <[4%nat := byte (Z.rem (int16 (getSecs t + 1)) 10)]> a in
  let a := <[3%nat := byte (Z.rem (int16 (getSecs t + 2)) 10)]> a in
  let a := <[2%nat := byte (Z.rem (int16 (getSecs t + 3)) 10)]> a in
  let a := <[1%nat := byte (Z.rem (int16 (getSecs t + 4)) 10)]> a in
  let a := <[0%nat := byte (Z.rem (int16 (getSecs t + 5)) 10)]> a in
  set_number a s.

Definition loadNumberArrayACP (acpOffset : Z) (t : DateTime) (s : Display) : Display :=
  let a := NumberArray s in
  let a := <[5%nat := byte (Z.rem (int16 (getSecs t + acpOffset)) 10)]> a in
  let a := <[4%nat := byte (Z.rem (int16 (Z.quot (getSecs t) 10 + acpOffset)) 10)]> a in
  let a := <[3%nat := byte (Z.rem (int16 (getMins t + acpOffset)) 10)]> a in
  let a := <[2%nat := byte (Z.rem (int16 (Z.quot (getMins t) 10 + acpOffset)) 10)]> a in
  let a := <[1%nat := byte (Z.rem (int16 (getHours t + acpOffset)) 10)]> a in
  let a := <[0%nat := byte (Z.rem (int16 (Z.quot (getHours t) 10 + acpOffset)) 10)]> a in
  set_number a s.

Definition loadTwo (i j : nat) (v : Z) (a : list Z) : list Z :=
  <[j := byte (Z.quot v 10)]> (<[i := byte (Z.rem v 10)]> a).

(** [loadNumberArrayDate]; each case writes units then tens of three
    values, from index 5 down to index 0. *)
Definition loadNumberArrayDate (dateFormat : Z) (t : DateTime) (s : Display) : Display :=
  let a := NumberArray s in
  if dateFormat =? Presets.DATE_FORMAT_YYMMDD then
    set_number (loadTwo 1 0 (years t) (loadTwo 3 2 (months t) (loadTwo 5 4 (days t) a))) s
  else if dateFormat =? Presets.DATE_FORMAT_MMDDYY then
    set_number (loadTwo 1 0 (months t) (loadTwo 3 2 (days t) (loadTwo 5 4 (years t) a))) s
  else if dateFormat =? Presets.DATE_FORMAT_DDMMYY then
    set_number (loadTwo 1 0 (days t) (loadTwo 3 2 (months t) (loadTwo 5 4 (years t) a))) s
  else s.

End Clock.

(** ** Push button ([struct Button]) *)

Module Btn.

(** [nowMillis] and [button1PressStartMillis] are [long]. *)
Record Button : Type := mkButton {
  button1PressedCount : Z;
  button1PressStartMillis : Z;
  buttonWasReleased : bool;
  buttonPress8S : bool;
  buttonPress2S : bool;
  buttonPress1S : bool;
  buttonPress : bool;
  buttonPressRelease8S : bool;
  buttonPressRelease2S : bool;
  buttonPressRelease1S : bool;
  buttonPressRelease : bool
}.

Definition debounceCounter : Z := 5.

(** A button as constructed. *)
Definition fresh : Button :=
  mkButton 0 0 false false false false false false false false false.

Definition setPress (p8 p2 p1 p : bool) (b : Button) : Button :=
  mkButton (button1PressedCount b) (button1PressStartMillis b) (buttonWasReleased b)
    p8 p2 p1 p
    (buttonPressRelease8S b) (buttonPressRelease2S b) (buttonPressRelease1S b)
    (buttonPressRelease b).

(** [checkButtonInternal]; [pinLow] is [digitalRead(inputPin) == 0]. *)
Definition checkButton (pinLow : bool) (nowMillis : Z) (b : Button) : Button :=
  if pinLow then
    if button1PressedCount b <? debounceCounter then
      let count := int16 (button1PressedCount b + 1) in
      mkButton count
        (if count =? debounceCounter then nowMillis else button1PressStartMillis b)
        false
        (buttonPress8S b) (buttonPress2S b) (buttonPress1S b) (buttonPress b)
        (buttonPressRelease8S b) (buttonPressRelease2S b) (buttonPressRelease1S b)
        (buttonPressRelease b)
    else
      let held := Clock.int32 (nowMillis - button1PressStartMillis b) in
      let b := mkButton (button1PressedCount b) (button1PressStartMillis b) false
                 (buttonPress8S b) (buttonPress2S b) (buttonPress1S b) (buttonPress b)
                 (buttonPressRelease8S b) (buttonPressRelease2S b)
                 (buttonPressRelease1S b) (buttonPressRelease b) in
      if held >? 8000 then setPress true true true true b
      else if held >? 2000 then setPress false true true true b
      else if held >? 1000 then setPress false false true true b
      else setPress false false false true b
  else
    let '(released, r8, r2, r1, r) :=
      if button1PressedCount b =? debounceCounter then
        if buttonPress8S b then (true, true, false, false, false)
        else if buttonPress2S b then (true, false, true, false, false)
        else if buttonPress1S b then (true, false, false, true, false)
        else if buttonPress b then (true, false, false, false, true)
        else (true, false, false, false, false)
      else (buttonWasReleased b, buttonPressRelease8S b, buttonPressRelease2S b,
            buttonPressRelease1S b, buttonPressRelease b) in
    mkButton 0 (button1PressStartMillis b) released
      false false false false r8 r2 r1 r.

Definition reset (b : Button) : Button :=
  mkButton 0 (button1PressStartMillis b) (buttonWasReleased b)
    false false false false false false false false.

Definition isButtonPressedNow (b : Button) : bool :=
  button1PressedCount b =? debounceCounter.

(** The four reading accessors clear the flag they report. *)
Definition isButtonPressedAndReleased (b : Button) : bool * Button :=
  if buttonPressRelease b then
    (true, mkButton (button1PressedCount b) (button1PressStartMillis b)
             (buttonWasReleased b) (buttonPress8S b) (buttonPress2S b)
             (buttonPress1S b) (buttonPress b) (buttonPressRelease8S b)
             (buttonPressRelease2S b) (buttonPressRelease1S b) false)
  else (false, b).

Definition isButtonPressedReleased1S (b : Button) : bool * Button :=
  if buttonPressRelease1S b then
    (true, mkButton (button1PressedCount b) (button1PressStartMillis b)
             (buttonWasReleased b) (buttonPress8S b) (buttonPress2S b)
             (buttonPress1S b) (buttonPress b) (buttonPressRelease8S b)
             (buttonPressRelease2S b) false (buttonPressRelease b))
  else (false, b).

Definition isButtonPressedReleased2S (b : Button) : bool * Button :=
  if buttonPressRelease2S b then
    (true, mkButton (button1PressedCount b) (button1PressStartMillis b)
             (buttonWasReleased b) (buttonPress8S b) (buttonPress2S b)
             (buttonPress1S b) (buttonPress b) (buttonPressRelease8S b)
             false (buttonPressRelease1S b) (buttonPressRelease b))
  else (false, b).

Definition isButtonPressedReleased8S (b : Button) : bool * Button :=
  if buttonPressRelease8S b then
    (true, mkButton (button1PressedCount b) (button1PressStartMillis b)
             (buttonWasReleased b) (buttonPress8S b) (buttonPress2S b)
             (buttonPress1S b) (buttonPress b) false
             (buttonPressRelease2S b) (buttonPressRelease1S b) (buttonPressRelease b))
  else (false, b).

(** A run of samples: the pin level and the time of each. *)
Definition checkButtons (samples : list (bool * Z)) (b : Button) : Button :=
  fold_left (fun b smp => checkButton (fst smp) (snd smp) b) samples b.

(** How many release flags are up. *)
Definition releaseFlags (b : Button) : nat :=
  (if buttonPressRelease8S b then 1 else 0)
  + (if buttonPressRelease2S b then 1 else 0)
  + (if buttonPressRelease1S b then 1 else 0)
  + (if buttonPressRelease b then 1 else 0).

(** What every operation on a button keeps: the debounce count stays in
    [0..5], at most one release flag is up, the press flags are nested
    (8 s implies 2 s implies 1 s implies pressed) and are only up while
    the count is at [debounceCounter]. *)
Definition consistent (b : Button) : Prop :=
  0 <= button1PressedCount b <= debounceCounter
  /\ (releaseFlags b <= 1)%nat
  /\ implb (buttonPress8S b) (buttonPress2S b) = true
  /\ implb (buttonPress2S b) (buttonPress1S b) = true
  /\ implb (buttonPress1S b) (buttonPress b) = true
  /\ (buttonPress b = true -> button1PressedCount b = debounceCounter).

(** Not pressed: the state every high sample leaves the press side in. *)
Definition idle (b : Button) : Prop :=
  button1PressedCount b = 0
  /\ buttonPress8S b = false /\ buttonPress2S b = false
  /\ buttonPress1S b = false /\ buttonPress b = false.

(** The four release flags, longest first. *)
Definition releases (b : Button) : bool * bool * bool * bool :=
  (buttonPressRelease8S b, buttonPressRelease2S b, buttonPressRelease1S b,
   buttonPressRelease b).

(** Consecutive low samples taken at the given times. *)
Definition lows (times : list Z) : list (bool * Z) :=
  map (fun t => (true, t)) times.

End Btn.

(** ** Port pins: decoder inputs and anodes *)

Module Ports.

(** The three output ports and the timer control register, all 8 bits
    wide, with the two precomputed values of [TCCR1A]. *)
Record Hw : Type := mkHw {
  PORTB : Z;
  PORTC : Z;
  PORTD : Z;
  TCCR1A : Z;
  tccrOff : Z;
  tccrOn : Z
}.

Definition decodeDigit : list Z :=
  [2; 3; 7; 6; 4; 5; 1; 0; 9; 8; 10; 10; 10; 10; 10; 10].

(** [SetSN74141Chip]; no result when [decodeDigit] is indexed outside its
    sixteen entries. *)
Definition SetSN74141Chip (num1 : Z) (hw : Hw) : option Hw :=
  if (0 <=? num1) && (num1 <? 16) then
    decodedDigit ← decodeDigit !! Z.to_nat num1;
    let portb := Z.land (PORTB hw) 202 in
    let portb :=
      if decodedDigit =? 0 then portb
      else if decodedDigit =? 1 then Z.lor portb 32
      else if decodedDigit =? 2 then Z.lor portb 4
      else if decodedDigit =? 3 then Z.lor portb 36
      else if decodedDigit =? 4 then Z.lor portb 1
      else if decodedDigit =? 5 then Z.lor portb 33
      else if decodedDigit =? 6 then Z.lor portb 5
      else if decodedDigit =? 7 then Z.lor portb 37
      else if decodedDigit =? 8 then Z.lor portb 16
      else if decodedDigit =? 9 then Z.lor portb 48
      else Z.lor portb 53 in
    Some (mkHw portb (PORTC hw) (PORTD hw) (TCCR1A hw) (tccrOff hw) (tccrOn hw))
  else None.

(** [digitOn]; the [switch (digit)] has no [default]. *)
Definition digitOn (digit value : Z) (hw : Hw) : option Hw :=
  let hw :=
    if digit =? 0 then
      mkHw (PORTB hw) (Z.lor (PORTC hw) 8) (PORTD hw) (TCCR1A hw) (tccrOff hw) (tccrOn hw)
    else if digit =? 1 then
      mkHw (PORTB hw) (Z.lor (PORTC hw) 4) (PORTD hw) (TCCR1A hw) (tccrOff hw) (tccrOn hw)
    else if digit =? 2 then
      mkHw (PORTB hw) (PORTC hw) (Z.lor (PORTD hw) 16) (TCCR1A hw) (tccrOff hw) (tccrOn hw)
    else if digit =? 3 then
      mkHw (PORTB hw) (PORTC hw) (Z.lor (PORTD hw) 4) (TCCR1A hw) (tccrOff hw) (tccrOn hw)
    else if digit =? 4 then
      mkHw (PORTB hw) (PORTC hw) (Z.lor (PORTD hw) 2) (TCCR1A hw) (tccrOff hw) (tccrOn hw)
    else if digit =? 5 then
      mkHw (PORTB hw) (PORTC hw) (Z.lor (PORTD hw) 1) (TCCR1A hw) (tccrOff hw) (tccrOn hw)
    else hw in
  hw ← SetSN74141Chip value hw;
  Some (mkHw (PORTB hw) (PORTC hw) (PORTD hw) (tccrOn hw) (tccrOff hw) (tccrOn hw)).

Definition digitOff (hw : Hw) : Hw :=
  mkHw (PORTB hw) (Z.land (PORTC hw) 243) (Z.land (PORTD hw) 232)
    (tccrOff hw) (tccrOff hw) (tccrOn hw).

Definition bit (z : Z) (n : Z) : Z := if Z.testbit z n then 1 else 0.

(** The number on the decoder's inputs A, B, C, D, wired to PB5, PB2, PB0
    and PB4 ([ledPin_0_a] to [ledPin_0_d]). *)
Definition decoderInput (hw : Hw) : Z :=
  bit (PORTB hw) 5 + 2 * bit (PORTB hw) 2 + 4 * bit (PORTB hw) 0
  + 8 * bit (PORTB hw) 4.

(** The anode of digit [i]: PC3, PC2, PD4, PD2, PD1, PD0 ([ledPin_a_1] to
    [ledPin_a_6]). *)
Definition anode (i : Z) (hw : Hw) : bool :=
  if i =? 0 then Z.testbit (PORTC hw) 3
  else if i =? 1 then Z.testbit (PORTC hw) 2
  else if i =? 2 then Z.testbit (PORTD hw) 4
  else if i =? 3 then Z.testbit (PORTD hw) 2
  else if i =? 4 then Z.testbit (PORTD hw) 1
  else if i =? 5 then Z.testbit (PORTD hw) 0
  else false.

(** [checkLEDPWM]: the value written with [analogWrite], if any. *)
Definition checkLEDPWM (step : Z) : option Z :=
  if step >? 767 then Some 0
  else if step >? 512 then Some (int16 (255 - int16 (step - 512)))
  else if step >? 255 then Some 255
  else if step >? 0 then Some step
  else None.

End Ports.

(** ** Configuration: EEPROM, settings menu and I2C *)

Module Config.

Definition EE_12_24 : Z := 1.
Definition EE_FADE_STEPS : Z := 2.
Definition EE_DATE_FORMAT : Z := 3.
Definition EE_DAY_BLANKING : Z := 4.
Definition EE_DIM_DARK_LO : Z := 5.
Definition EE_DIM_DARK_HI : Z := 6.
Definition EE_BLANK_LEAD_ZERO : Z := 7.
Definition EE_SCROLLBACK : Z := 10.
Definition EE_PULSE_LO : Z := 11.
Definition EE_PULSE_HI : Z := 12.
Definition EE_SCROLL_STEPS : Z := 13.
Definition EE_BACKLIGHT_MODE : Z := 14.
Definition EE_DIM_BRIGHT_LO : Z := 15.
Definition EE_DIM_BRIGHT_HI : Z := 16.
Definition EE_DIM_SMOOTH_SPEED : Z := 17.
Definition EE_RED_INTENSITY : Z := 18.
Definition EE_GRN_INTENSITY : Z := 19.
Definition EE_BLU_INTENSITY : Z := 20.
Definition EE_HV_VOLTAGE : Z := 21.
Definition EE_SUPPRESS_ACP : Z := 22.
Definition EE_HOUR_BLANK_START : Z := 23.
Definition EE_HOUR_BLANK_END : Z := 24.
Definition EE_CYCLE_SPEED : Z := 25.
Definition EE_PWM_TOP_LO : Z := 26.
Definition EE_PWM_TOP_HI : Z := 27.
Definition EE_HVG_NEED_CALIB : Z := 28.

Definition SENSOR_LOW_MIN : Z := 0.
Definition SENSOR_LOW_MAX : Z := 900.
Definition SENSOR_LOW_DEFAULT : Z := 100.
Definition SENSOR_HIGH_MIN : Z := 0.
Definition SENSOR_HIGH_MAX : Z := 900.
Definition SENSOR_HIGH_DEFAULT : Z := 700.
Definition SENSOR_SMOOTH_READINGS_MIN : Z := 1.
Definition SENSOR_SMOOTH_READINGS_MAX : Z := 255.
Definition SENSOR_SMOOTH_READINGS_DEFAULT : Z := 100.
Definition HVGEN_TARGET_VOLTAGE_DEFAULT : Z := 180.
Definition HVGEN_TARGET_VOLTAGE_MIN : Z := 150.
Definition HVGEN_TARGET_VOLTAGE_MAX : Z := 200.
Definition COLOUR_CNL_MAX : Z := 15.
Definition COLOUR_CNL_MIN : Z := 0.
Definition COLOUR_RED_CNL_DEFAULT : Z := 15.
Definition COLOUR_GRN_CNL_DEFAULT : Z := 0.
Definition COLOUR_BLU_CNL_DEFAULT : Z := 0.
Definition DATE_FORMAT_MIN : Z := 0.
Definition DATE_FORMAT_MAX : Z := 2.
Definition DATE_FORMAT_DEFAULT : Z := 2.
Definition DAY_BLANKING_MIN : Z := 0.
Definition DAY_BLANKING_MAX : Z := 8.
Definition DAY_BLANKING_DEFAULT : Z := 0.
Definition BACKLIGHT_MIN : Z := 0.
Definition BACKLIGHT_MAX : Z := 5.
Definition BACKLIGHT_DEFAULT : Z := 0.
Definition CYCLE_SPEED_MIN : Z := 4.
Definition CYCLE_SPEED_MAX : Z := 64.
Definition CYCLE_SPEED_DEFAULT : Z := 10.
Definition HOURS_MAX : Z := 24.

Definition MODE_12_24 : Z := 6.
Definition MODE_LEAD_BLANK : Z := 7.
Definition MODE_SCROLLBACK : Z := 8.
Definition MODE_DATE_FORMAT : Z := 9.
Definition MODE_DAY_BLANKING : Z := 10.
Definition MODE_HR_BLNK_START : Z := 11.
Definition MODE_HR_BLNK_END : Z := 12.
Definition MODE_SUPPRESS_ACP : Z := 13.
Definition MODE_FADE_STEPS_UP : Z := 14.
Definition MODE_FADE_STEPS_DOWN : Z := 15.
Definition MODE_DISPLAY_SCROLL_STEPS_UP : Z := 16.
Definition MODE_DISPLAY_SCROLL_STEPS_DOWN : Z := 17.
Definition MODE_BACKLIGHT_MODE : Z := 18.
Definition MODE_RED_CNL : Z := 19.
Definition MODE_GRN_CNL : Z := 20.
Definition MODE_BLU_CNL : Z := 21.
Definition MODE_CYCLE_SPEED : Z := 22.
Definition MODE_TARGET_HV_UP : Z := 23.
Definition MODE_TARGET_HV_DOWN : Z := 24.
Definition MODE_PULSE_UP : Z := 25.
Definition MODE_PULSE_DOWN : Z := 26.

Definition I2C_TIME_UPDATE : Z := 0.
Definition I2C_GET_OPTIONS : Z := 1.
Definition I2C_SET_OPTION_12_24 : Z := 2.
Definition I2C_SET_OPTION_BLANK_LEAD : Z := 3.
Definition I2C_SET_OPTION_SCROLLBACK : Z := 4.
Definition I2C_SET_OPTION_SUPPRESS_ACP : Z := 5.
Definition I2C_SET_OPTION_DATE_FORMAT : Z := 6.
Definition I2C_SET_OPTION_DAY_BLANKING : Z := 7.
Definition I2C_SET_OPTION_BLANK_START : Z := 8.
Definition I2C_SET_OPTION_BLANK_END : Z := 9.
Definition I2C_SET_OPTION_FADE_STEPS : Z := 10.
Definition I2C_SET_OPTION_SCROLL_STEPS : Z := 11.
Definition I2C_SET_OPTION_BACKLIGHT_MODE : Z := 12.
Definition I2C_SET_OPTION_RED_CHANNEL : Z := 13.
Definition I2C_SET_OPTION_GREEN_CHANNEL : Z := 14.
Definition I2C_SET_OPTION_BLUE_CHANNEL : Z := 15.
Definition I2C_SET_OPTION_CYCLE_SPEED : Z := 16.

(** The persisted globals other than the hour mode (a field of
    [displayDate]) and the two PWM settings (in [HVGen.HV]). [fadeSteps],
    [scrollSteps] and [scrollback] are the globals the renderer reads.
    [fadeSteps], [scrollSteps], [dimDark], [dimBright],
    [sensorSmoothCountLDR] and [hvTargetVoltage] are [int], the other
    numbers are [byte]. *)
Record Settings : Type := mkSettings {
  fadeSteps : Z;
  dateFormat : Z;
  dayBlanking : Z;
  dimDark : Z;
  blankLeading : bool;
  scrollback : bool;
  scrollSteps : Z;
  dimBright : Z;
  sensorSmoothCountLDR : Z;
  backlightMode : Z;
  redCnl : Z;
  grnCnl : Z;
  bluCnl : Z;
  hvTargetVoltage : Z;
  suppressACP : bool;
  blankHourStart : Z;
  blankHourEnd : Z;
  cycleSpeed : Z
}.

Definition withFadeSteps (v : Z) (c : Settings) : Settings :=
  mkSettings v (dateFormat c) (dayBlanking c) (dimDark c) (blankLeading c)
    (scrollback c) (scrollSteps c) (dimBright c) (sensorSmoothCountLDR c)
    (backlightMode c) (redCnl c) (grnCnl c) (bluCnl c) (hvTargetVoltage c)
    (suppressACP c) (blankHourStart c) (blankHourEnd c) (cycleSpeed c).

Definition withDateFormat (v : Z) (c : Settings) : Settings :=
  mkSettings (fadeSteps c) v (dayBlanking c) (dimDark c) (blankLeading c)
    (scrollback c) (scrollSteps c) (dimBright c) (sensorSmoothCountLDR c)
    (backlightMode c) (redCnl c) (grnCnl c) (bluCnl c) (hvTargetVoltage c)
    (suppressACP c) (blankHourStart c) (blankHourEnd c) (cycleSpeed c).

Definition withDayBlanking (v : Z) (c : Settings) : Settings :=
  mkSettings (fadeSteps c) (dateFormat c) v (dimDark c) (blankLeading c)
    (scrollback c) (scrollSteps c) (dimBright c) (sensorSmoothCountLDR c)
    (backlightMode c) (redCnl c) (grnCnl c) (bluCnl c) (hvTargetVoltage c)
    (suppressACP c) (blankHourStart c) (blankHourEnd c) (cycleSpeed c).

Definition withBlankLeading (v : bool) (c : Settings) : Settings :=
  mkSettings (fadeSteps c) (dateFormat c) (dayBlanking c) (dimDark c) v
    (scrollback c) (scrollSteps c) (dimBright c) (sensorSmoothCountLDR c)
    (backlightMode c) (redCnl c) (grnCnl c) (bluCnl c) (hvTargetVoltage c)
    (suppressACP c) (blankHourStart c) (blankHourEnd c) (cycleSpeed c).

Definition withScrollback (v : bool) (c : Settings) : Settings :=
  mkSettings (fadeSteps c) (dateFormat c) (dayBlanking c) (dimDark c)
    (blankLeading c) v (scrollSteps c) (dimBright c) (sensorSmoothCountLDR c)
    (backlightMode c) (redCnl c) (grnCnl c) (bluCnl c) (hvTargetVoltage c)
    (suppressACP c) (blankHourStart c) (blankHourEnd c) (cycleSpeed c).

Definition withScrollSteps (v : Z) (c : Settings) : Settings :=
  mkSettings (fadeSteps c) (dateFormat c) (dayBlanking c) (dimDark c)
    (blankLeading c) (scrollback c) v (dimBright c) (sensorSmoothCountLDR c)
    (backlightMode c) (redCnl c) (grnCnl c) (bluCnl c) (hvTargetVoltage c)
    (suppressACP c) (blankHourStart c) (blankHourEnd c) (cycleSpeed c).

Definition withBacklightMode (v : Z) (c : Settings) : Settings :=
  mkSettings (fadeSteps c) (dateFormat c) (dayBlanking c) (dimDark c)
    (blankLeading c) (scrollback c) (scrollSteps c) (dimBright c)
    (sensorSmoothCountLDR c) v (redCnl c) (grnCnl c) (bluCnl c)
    (hvTargetVoltage c) (suppressACP c) (blankHourStart c) (blankHourEnd c)
    (cycleSpeed c).

Definition withRedCnl (v : Z) (c : Settings) : Settings :=
  mkSettings (fadeSteps c) (dateFormat c) (dayBlanking c) (dimDark c)
    (blankLeading c) (scrollback c) (scrollSteps c) (dimBright c)
    (sensorSmoothCountLDR c) (backlightMode c) v (grnCnl c) (bluCnl c)
    (hvTargetVoltage c) (suppressACP c) (blankHourStart c) (blankHourEnd c)
    (cycleSpeed c).

Definition withGrnCnl (v : Z) (c : Settings) : Settings :=
  mkSettings (fadeSteps c) (dateFormat c) (dayBlanking c) (dimDark c)
    (blankLeading c) (scrollback c) (scrollSteps c) (dimBright c)
    (sensorSmoothCountLDR c) (backlightMode c) (redCnl c) v (bluCnl c)
    (hvTargetVoltage c) (suppressACP c) (blankHourStart c) (blankHourEnd c)
    (cycleSpeed c).

Definition withBluCnl (v : Z) (c : Settings) : Settings :=
  mkSettings (fadeSteps c) (dateFormat c) (dayBlanking c) (dimDark c)
    (blankLeading c) (scrollback c) (scrollSteps c) (dimBright c)
    (sensorSmoothCountLDR c) (backlightMode c) (redCnl c) (grnCnl c) v
    (hvTargetVoltage c) (suppressACP c) (blankHourStart c) (blankHourEnd c)
    (cycleSpeed c).

Definition withHvTargetVoltage (v : Z) (c : Settings) : Settings :=
  mkSettings (fadeSteps c) (dateFormat c) (dayBlanking c) (dimDark c)
    (blankLeading c) (scrollback c) (scrollSteps c) (dimBright c)
    (sensorSmoothCountLDR c) (backlightMode c) (redCnl c) (grnCnl c) (bluCnl c)
    v (suppressACP c) (blankHourStart c) (blankHourEnd c) (cycleSpeed c).

Definition withSuppressACP (v : bool) (c : Settings) : Settings :=
  mkSettings (fadeSteps c) (dateFormat c) (dayBlanking c) (dimDark c)
    (blankLeading c) (scrollback c) (scrollSteps c) (dimBright c)
    (sensorSmoothCountLDR c) (backlightMode c) (redCnl c) (grnCnl c) (bluCnl c)
    (hvTargetVoltage c) v (blankHourStart c) (blankHourEnd c) (cycleSpeed c).

Definition withBlankHourStart (v : Z) (c : Settings) : Settings :=
  mkSettings (fadeSteps c) (dateFormat c) (dayBlanking c) (dimDark c)
    (blankLeading c) (scrollback c) (scrollSteps c) (dimBright c)
    (sensorSmoothCountLDR c) (backlightMode c) (redCnl c) (grnCnl c) (bluCnl c)
    (hvTargetVoltage c) (suppressACP c) v (blankHourEnd c) (cycleSpeed c).

Definition withBlankHourEnd (v : Z) (c : Settings) : Settings :=
  mkSettings (fadeSteps c) (dateFormat c) (dayBlanking c) (dimDark c)
    (blankLeading c) (scrollback c) (scrollSteps c) (dimBright c)
    (sensorSmoothCountLDR c) (backlightMode c) (redCnl c) (grnCnl c) (bluCnl c)
    (hvTargetVoltage c) (suppressACP c) (blankHourStart c) v (cycleSpeed c).

Definition withCycleSpeed (v : Z) (c : Settings) : Settings :=
  mkSettings (fadeSteps c) (dateFormat c) (dayBlanking c) (dimDark c)
    (blankLeading c) (scrollback c) (scrollSteps c) (dimBright c)
    (sensorSmoothCountLDR c) (backlightMode c) (redCnl c) (grnCnl c) (bluCnl c)
    (hvTargetVoltage c) (suppressACP c) (blankHourStart c) (blankHourEnd c) v.

(** The EEPROM: a byte in every cell; [EEPROM.write] stores its argument
    as a byte and [EEPROM.read] returns one. *)
Definition EEPROM : Type := Z -> Z.

Definition eeWrite (addr value : Z) (e : EEPROM) : EEPROM :=
  fun a => if a =? addr then byte value else e a.

Definition eeRead (addr : Z) (e : EEPROM) : Z := byte (e addr).

Definition boolByte (b : bool) : Z := if b then 1 else 0.
Definition byteBool (v : Z) : bool := negb (v =? 0).

(** Everything that is persisted: the settings, the clock (for its hour
    mode) and the PWM settings. *)
Definition Persisted : Type := Settings * Clock.DateTime * HVGen.HV.

Definition saveEEPROMValues (st : Persisted) (e : EEPROM) : EEPROM :=
  let '(c, t, h) := st in
  let e := eeWrite EE_12_24 (boolByte (Clock.hourMode t)) e in
  let e := eeWrite EE_FADE_STEPS (fadeSteps c) e in
  let e := eeWrite EE_DATE_FORMAT (dateFormat c) e in
  let e := eeWrite EE_DAY_BLANKING (dayBlanking c) e in
  let e := eeWrite EE_DIM_DARK_LO (Z.rem (dimDark c) 256) e in
  let e := eeWrite EE_DIM_DARK_HI (Z.quot (dimDark c) 256) e in
  let e := eeWrite EE_BLANK_LEAD_ZERO (boolByte (blankLeading c)) e in
  let e := eeWrite EE_SCROLLBACK (boolByte (scrollback c)) e in
  let e := eeWrite EE_SCROLL_STEPS (scrollSteps c) e in
  let e := eeWrite EE_DIM_BRIGHT_LO (Z.rem (dimBright c) 256) e in
  let e := eeWrite EE_DIM_BRIGHT_HI (Z.quot (dimBright c) 256) e in
  let e := eeWrite EE_DIM_SMOOTH_SPEED (sensorSmoothCountLDR c) e in
  let e := eeWrite EE_RED_INTENSITY (redCnl c) e in
  let e := eeWrite EE_GRN_INTENSITY (grnCnl c) e in
  let e := eeWrite EE_BLU_INTENSITY (bluCnl c) e in
  let e := eeWrite EE_BACKLIGHT_MODE (backlightMode c) e in
  let e := eeWrite EE_HV_VOLTAGE (hvTargetVoltage c) e in
  let e := eeWrite EE_SUPPRESS_ACP (boolByte (suppressACP c)) e in
  let e := eeWrite EE_HOUR_BLANK_START (blankHourStart c) e in
  let e := eeWrite EE_HOUR_BLANK_END (blankHourEnd c) e in
  let e := eeWrite EE_CYCLE_SPEED (cycleSpeed c) e in
  let e := eeWrite EE_PULSE_LO (Z.rem (HVGen.pwmOn h) 256) e in
  let e := eeWrite EE_PULSE_HI (Z.quot (HVGen.pwmOn h) 256) e in
  let e := eeWrite EE_PWM_TOP_LO (Z.rem (HVGen.pwmTop h) 256) e in
  let e := eeWrite EE_PWM_TOP_HI (Z.quot (HVGen.pwmTop h) 256) e in
  e.

(** A value read and replaced by [dflt] when outside [[lo, hi]]. *)
Definition checked (lo hi dflt v : Z) : Z :=
  if (v <? lo) || (v >? hi) then dflt else v.

Definition word (hi lo : Z) : Z := int16 (hi * 256 + lo).

(** [readEEPROMValues]: the settings, the clock with its hour mode, the PWM
    settings, and the EEPROM (the calibration flag is written when a PWM
    setting was replaced). *)
Definition readEEPROMValues (t : Clock.DateTime) (h : HVGen.HV) (e : EEPROM)
  : Persisted * EEPROM :=
  let t := Clock.setHourMode (byteBool (eeRead EE_12_24 e)) t in
  let c :=
    mkSettings
      (checked FADE_STEPS_MIN FADE_STEPS_MAX FADE_STEPS_DEFAULT (eeRead EE_FADE_STEPS e))
      (checked DATE_FORMAT_MIN DATE_FORMAT_MAX DATE_FORMAT_DEFAULT (eeRead EE_DATE_FORMAT e))
      (checked DAY_BLANKING_MIN DAY_BLANKING_MAX DAY_BLANKING_DEFAULT
         (eeRead EE_DAY_BLANKING e))
      (checked SENSOR_LOW_MIN SENSOR_LOW_MAX SENSOR_LOW_DEFAULT
         (word (eeRead EE_DIM_DARK_HI e) (eeRead EE_DIM_DARK_LO e)))
      (byteBool (eeRead EE_BLANK_LEAD_ZERO e))
      (byteBool (eeRead EE_SCROLLBACK e))
      (checked SCROLL_STEPS_MIN SCROLL_STEPS_MAX SCROLL_STEPS_DEFAULT
         (eeRead EE_SCROLL_STEPS e))
      (checked SENSOR_HIGH_MIN SENSOR_HIGH_MAX SENSOR_HIGH_DEFAULT
         (word (eeRead EE_DIM_BRIGHT_HI e) (eeRead EE_DIM_BRIGHT_LO e)))
      (checked SENSOR_SMOOTH_READINGS_MIN SENSOR_SMOOTH_READINGS_MAX
         SENSOR_SMOOTH_READINGS_DEFAULT (eeRead EE_DIM_SMOOTH_SPEED e))
      (checked BACKLIGHT_MIN BACKLIGHT_MAX BACKLIGHT_DEFAULT (eeRead EE_BACKLIGHT_MODE e))
      (checked COLOUR_CNL_MIN COLOUR_CNL_MAX COLOUR_RED_CNL_DEFAULT
         (eeRead EE_RED_INTENSITY e))
      (checked COLOUR_CNL_MIN COLOUR_CNL_MAX COLOUR_GRN_CNL_DEFAULT
         (eeRead EE_GRN_INTENSITY e))
      (checked COLOUR_CNL_MIN COLOUR_CNL_MAX COLOUR_BLU_CNL_DEFAULT
         (eeRead EE_BLU_INTENSITY e))
      (checked HVGEN_TARGET_VOLTAGE_MIN HVGEN_TARGET_VOLTAGE_MAX
         HVGEN_TARGET_VOLTAGE_DEFAULT (eeRead EE_HV_VOLTAGE e))
      (byteBool (eeRead EE_SUPPRESS_ACP e))
      (checked 0 HOURS_MAX 0 (eeRead EE_HOUR_BLANK_START e))
      (checked 0 HOURS_MAX 7 (eeRead EE_HOUR_BLANK_END e))
      (checked CYCLE_SPEED_MIN CYCLE_SPEED_MAX CYCLE_SPEED_DEFAULT
         (eeRead EE_CYCLE_SPEED e)) in
  let on := word (eeRead EE_PULSE_HI e) (eeRead EE_PULSE_LO e) in
  let top := word (eeRead EE_PWM_TOP_HI e) (eeRead EE_PWM_TOP_LO e) in
  let h' := HVGen.readEEPROMValues (eeRead EE_PULSE_HI e) (eeRead EE_PULSE_LO e)
              (eeRead EE_PWM_TOP_HI e) (eeRead EE_PWM_TOP_LO e) h in
  let e := if (on <? PWM_PULSE_MIN) || (on >? PWM_PULSE_MAX)
           then eeWrite EE_HVG_NEED_CALIB 1 e else e in
  let e := if (top <? PWM_TOP_MIN) || (top >? PWM_TOP_MAX)
           then eeWrite EE_HVG_NEED_CALIB 1 e else e in
  (c, t, h', e).

Definition defaults : Settings :=
  mkSettings FADE_STEPS_DEFAULT DATE_FORMAT_DEFAULT DAY_BLANKING_DEFAULT
    SENSOR_LOW_DEFAULT false true SCROLL_STEPS_DEFAULT SENSOR_HIGH_DEFAULT
    SENSOR_SMOOTH_READINGS_DEFAULT BACKLIGHT_DEFAULT COLOUR_RED_CNL_DEFAULT
    COLOUR_GRN_CNL_DEFAULT COLOUR_BLU_CNL_DEFAULT HVGEN_TARGET_VOLTAGE_DEFAULT
    false 0 7 CYCLE_SPEED_DEFAULT.

(** [factoryReset]: every setting to its default, then saved. *)
Definition factoryReset (t : Clock.DateTime) (h : HVGen.HV) (e : EEPROM)
  : Persisted * EEPROM :=
  let st := (defaults, Clock.setHourMode false t, HVGen.factoryReset h) in
  (st, saveEEPROMValues st e).

(** Every setting within the range its reader checks. *)
Definition inRange (c : Settings) : Prop :=
  FADE_STEPS_MIN <= fadeSteps c <= FADE_STEPS_MAX
  /\ DATE_FORMAT_MIN <= dateFormat c <= DATE_FORMAT_MAX
  /\ DAY_BLANKING_MIN <= dayBlanking c <= DAY_BLANKING_MAX
  /\ SENSOR_LOW_MIN <= dimDark c <= SENSOR_LOW_MAX
  /\ SCROLL_STEPS_MIN <= scrollSteps c <= SCROLL_STEPS_MAX
  /\ SENSOR_HIGH_MIN <= dimBright c <= SENSOR_HIGH_MAX
  /\ SENSOR_SMOOTH_READINGS_MIN <= sensorSmoothCountLDR c <= SENSOR_SMOOTH_READINGS_MAX
  /\ BACKLIGHT_MIN <= backlightMode c <= BACKLIGHT_MAX
  /\ COLOUR_CNL_MIN <= redCnl c <= COLOUR_CNL_MAX
  /\ COLOUR_CNL_MIN <= grnCnl c <= COLOUR_CNL_MAX
  /\ COLOUR_CNL_MIN <= bluCnl c <= COLOUR_CNL_MAX
  /\ HVGEN_TARGET_VOLTAGE_MIN <= hvTargetVoltage c <= HVGEN_TARGET_VOLTAGE_MAX
  /\ 0 <= blankHourStart c <= HOURS_MAX
  /\ 0 <= blankHourEnd c <= HOURS_MAX
  /\ CYCLE_SPEED_MIN <= cycleSpeed c <= CYCLE_SPEED_MAX.

Definition pwmInRange (h : HVGen.HV) : Prop :=
  PWM_TOP_MIN <= HVGen.pwmTop h <= PWM_TOP_MAX
  /\ PWM_PULSE_MIN <= HVGen.pwmOn h <= PWM_PULSE_MAX.

(** *** Settings menu

    What a registered short press does in each settings mode of [loop]
    ([currentMode] from [MODE_12_24] to [MODE_PULSE_DOWN]); the threshold
    recomputed after a change of [hvTargetVoltage] is not modelled. *)
Definition wrapAbove (hi lo v : Z) : Z := if v >? hi then lo else v.
Definition wrapBelow (lo hi v : Z) : Z := if v <? lo then hi else v.

Definition pressIn (currentMode : Z) (st : Persisted) : Persisted :=
  let '(c, t, h) := st in
  if currentMode =? MODE_12_24 then
    (c, Clock.setHourMode (negb (Clock.hourMode t)) t, h)
  else if currentMode =? MODE_LEAD_BLANK then
    (withBlankLeading (negb (blankLeading c)) c, t, h)
  else if currentMode =? MODE_SCROLLBACK then
    (withScrollback (negb (scrollback c)) c, t, h)
  else if currentMode =? MODE_DATE_FORMAT then
    (withDateFormat
       (wrapAbove DATE_FORMAT_MAX DATE_FORMAT_MIN (byte (dateFormat c + 1))) c, t, h)
  else if currentMode =? MODE_DAY_BLANKING then
    (withDayBlanking
       (wrapAbove DAY_BLANKING_MAX DAY_BLANKING_MIN (byte (dayBlanking c + 1))) c, t, h)
  else if currentMode =? MODE_HR_BLNK_START then
    (withBlankHourStart (wrapAbove HOURS_MAX 0 (byte (blankHourStart c + 1))) c, t, h)
  else if currentMode =? MODE_HR_BLNK_END then
    (withBlankHourEnd (wrapAbove HOURS_MAX 0 (byte (blankHourEnd c + 1))) c, t, h)
  else if currentMode =? MODE_SUPPRESS_ACP then
    (withSuppressACP (negb (suppressACP c)) c, t, h)
  else if currentMode =? MODE_FADE_STEPS_UP then
    (withFadeSteps
       (wrapAbove FADE_STEPS_MAX FADE_STEPS_MIN (int16 (fadeSteps c + 1))) c, t, h)
  else if currentMode =? MODE_FADE_STEPS_DOWN then
    (withFadeSteps
       (wrapBelow FADE_STEPS_MIN FADE_STEPS_MAX (int16 (fadeSteps c - 1))) c, t, h)
  else if currentMode =? MODE_DISPLAY_SCROLL_STEPS_DOWN then
    (withScrollSteps
       (wrapBelow SCROLL_STEPS_MIN SCROLL_STEPS_MAX (int16 (scrollSteps c - 1))) c, t, h)
  else if currentMode =? MODE_DISPLAY_SCROLL_STEPS_UP then
    (withScrollSteps
       (wrapAbove SCROLL_STEPS_MAX SCROLL_STEPS_MIN (int16 (scrollSteps c + 1))) c, t, h)
  else if currentMode =? MODE_BACKLIGHT_MODE then
    (withBacklightMode
       (wrapAbove BACKLIGHT_MAX BACKLIGHT_MIN (byte (backlightMode c + 1))) c, t, h)
  else if currentMode =? MODE_RED_CNL then
    (withRedCnl (wrapAbove COLOUR_CNL_MAX COLOUR_CNL_MIN (byte (redCnl c + 1))) c, t, h)
  else if currentMode =? MODE_GRN_CNL then
    (withGrnCnl (wrapAbove COLOUR_CNL_MAX COLOUR_CNL_MIN (byte (grnCnl c + 1))) c, t, h)
  else if currentMode =? MODE_BLU_CNL then
    (withBluCnl (wrapAbove COLOUR_CNL_MAX COLOUR_CNL_MIN (byte (bluCnl c + 1))) c, t, h)
  else if currentMode =? MODE_CYCLE_SPEED then
    (withCycleSpeed
       (wrapAbove CYCLE_SPEED_MAX CYCLE_SPEED_MIN (byte (cycleSpeed c + 2))) c, t, h)
  else if currentMode =? MODE_TARGET_HV_UP then
    (withHvTargetVoltage
       (wrapAbove HVGEN_TARGET_VOLTAGE_MAX HVGEN_TARGET_VOLTAGE_MIN
          (int16 (hvTargetVoltage c + 5))) c, t, h)
  else if currentMode =? MODE_TARGET_HV_DOWN then
    (withHvTargetVoltage
       (wrapBelow HVGEN_TARGET_VOLTAGE_MIN HVGEN_TARGET_VOLTAGE_MAX
          (int16 (hvTargetVoltage c - 5))) c, t, h)
  else if currentMode =? MODE_PULSE_UP then
    (c, t, HVGen.setPWMOnTime (int16 (HVGen.pwmOn h + 10)) h)
  else if currentMode =? MODE_PULSE_DOWN then
    (c, t, HVGen.setPWMOnTime (int16 (HVGen.pwmOn h - 10)) h)
  else st.

(** *** I2C

    [Wire.read()] returns the next byte of the message, or -1 when there
    is none left. *)
Definition wireRead (buf : list Z) : Z * list Z :=
  match buf with
  | [] => (-1, [])
  | b :: rest => (byte b, rest)
  end.

(** [receiveEvent]: the message is the list of bytes received. *)
Definition receiveEvent (nowMillis : Z) (buf : list Z) (st : Persisted) (e : EEPROM)
  : Persisted * EEPROM :=
  let '(c, t, h) := st in
  let '(operation, buf) := wireRead buf in
  let '(v, rest) := wireRead buf in
  if operation =? I2C_TIME_UPDATE then
    let '(newYears, buf) := wireRead buf in
    let '(newMonths, buf) := wireRead buf in
    let '(newDays, buf) := wireRead buf in
    let '(newHours, buf) := wireRead buf in
    let '(newMins, buf) := wireRead buf in
    let '(newSecs, buf) := wireRead buf in
    ((c, Clock.setSyncTime nowMillis newYears newMonths newDays newHours newMins
           newSecs t, h), e)
  else if operation =? I2C_SET_OPTION_12_24 then
    let t := Clock.setHourMode (byte v =? 1) t in
    ((c, t, h), eeWrite EE_12_24 (boolByte (Clock.hourMode t)) e)
  else if operation =? I2C_SET_OPTION_BLANK_LEAD then
    let c := withBlankLeading (byte v =? 1) c in
    ((c, t, h), eeWrite EE_BLANK_LEAD_ZERO (boolByte (blankLeading c)) e)
  else if operation =? I2C_SET_OPTION_SCROLLBACK then
    let c := withScrollback (byte v =? 1) c in
    ((c, t, h), eeWrite EE_SCROLLBACK (boolByte (scrollback c)) e)
  else if operation =? I2C_SET_OPTION_SUPPRESS_ACP then
    let c := withSuppressACP (byte v =? 1) c in
    ((c, t, h), eeWrite EE_SUPPRESS_ACP (boolByte (suppressACP c)) e)
  else if operation =? I2C_SET_OPTION_DATE_FORMAT then
    let c := withDateFormat (byte v) c in
    ((c, t, h), eeWrite EE_DATE_FORMAT (dateFormat c) e)
  else if operation =? I2C_SET_OPTION_DAY_BLANKING then
    let c := withDayBlanking (byte v) c in
    ((c, t, h), eeWrite EE_DAY_BLANKING (dayBlanking c) e)
  else if operation =? I2C_SET_OPTION_BLANK_START then
    let c := withBlankHourStart (byte v) c in
    ((c, t, h), eeWrite EE_HOUR_BLANK_START (blankHourStart c) e)
  else if operation =? I2C_SET_OPTION_BLANK_END then
    let c := withBlankHourEnd (byte v) c in
    ((c, t, h), eeWrite EE_HOUR_BLANK_END (blankHourEnd c) e)
  else if operation =? I2C_SET_OPTION_FADE_STEPS then
    let c := withFadeSteps v c in
    ((c, t, h), eeWrite EE_FADE_STEPS (fadeSteps c) e)
  else if operation =? I2C_SET_OPTION_SCROLL_STEPS then
    let c := withScrollSteps v c in
    ((c, t, h), eeWrite EE_SCROLL_STEPS (scrollSteps c) e)
  else if operation =? I2C_SET_OPTION_BACKLIGHT_MODE then
    let c := withBacklightMode (byte v) c in
    ((c, t, h), eeWrite EE_BACKLIGHT_MODE (backlightMode c) e)
  else if operation =? I2C_SET_OPTION_RED_CHANNEL then
    let c := withRedCnl (byte v) c in
    ((c, t, h), eeWrite EE_RED_INTENSITY (redCnl c) e)
  else if operation =? I2C_SET_OPTION_GREEN_CHANNEL then
    let c := withGrnCnl (byte v) c in
    ((c, t, h), eeWrite EE_GRN_INTENSITY (grnCnl c) e)
  else if operation =? I2C_SET_OPTION_BLUE_CHANNEL then
    let c := withBluCnl (byte v) c in
    ((c, t, h), eeWrite EE_BLU_INTENSITY (bluCnl c) e)
  else if operation =? I2C_SET_OPTION_CYCLE_SPEED then
    let c := withCycleSpeed (byte v) c in
    ((c, t, h), eeWrite EE_CYCLE_SPEED (cycleSpeed c) e)
  else (st, e).

(** [requestEvent]: the sixteen bytes sent. *)
Definition requestEvent (st : Persisted) : list Z :=
  let '(c, t, h) := st in
  [boolByte (Clock.hourMode t); boolByte (blankLeading c);
   boolByte (scrollback c); boolByte (suppressACP c);
   byte (dateFormat c); byte (dayBlanking c); byte (blankHourStart c);
   byte (blankHourEnd c); byte (fadeSteps c); byte (scrollSteps c);
   byte (backlightMode c); byte (redCnl c); byte (grnCnl c); byte (bluCnl c);
   byte (cycleSpeed c); 27].

(** The settings in memory are the ones a restart would read back. *)
Definition synced (st : Persisted) (e : EEPROM) : Prop :=
  fst (readEEPROMValues (snd (fst st)) (snd st) e) = st.

(** [got] is the stored value when that lies in [[lo, hi]], and [dflt]
    when it does not. *)
Definition storedOr (lo hi dflt stored got : Z) : Prop :=
  (lo <= stored <= hi -> got = stored)
  /\ (~ lo <= stored <= hi -> got = dflt).

End Config.

(** ** Regulation and calibration runs *)

Module HVRun.
Import HVGen.

(** [n] successive calls of [checkHVVoltage], [readings i] being what the
    sensor returns in call [i]. *)
Definition regulate (readings : nat -> Z) (n : nat) (h : HV) : HV :=
  fold_left (fun h i => checkHVVoltage (readings i) h) (seq 0 n) h.

(** The body of the first and of the fourth loop of [calibrateHVG]. *)
Definition topBody (readings : nat -> Z) (st : Render.Display * HV) (i : nat)
  : Render.Display * HV :=
  let '(d, h) := st in
  let d := Presets.loadNumberArray8s d in
  let d := Render.allBright d in
  let d := Render.outputDisplay d in
  (d, checkHVVoltage (readings i) h).

Definition topLoop (readings : nat -> Z) (n : nat) (st : Render.Display * HV)
  : Render.Display * HV :=
  fold_left (topBody readings) (seq 0 n) st.

(** The body of its third loop. *)
Definition pass3Body (confNum : Z) (readings : nat -> Z)
    (st : Render.Display * HV) (i : nat) : Render.Display * HV :=
  let '(d, h) := st in
  let d := Render.loadNumberArrayConfInt (pwmOn h) confNum d in
  let d := Render.allBright d in
  let d := Render.outputDisplay d in
  if readings i >? rawHVADCThreshold h then
    if Z.rem (Z.of_nat i) 8 =? 0
    then (d, decPWMOnTime h)
    else (d, h)
  else (d, h).

Definition pass3Loop (confNum : Z) (readings : nat -> Z) (n : nat)
    (st : Render.Display * HV) : Render.Display * HV :=
  fold_left (pass3Body confNum readings) (seq 0 n) st.

(** [calibrateHVG]. [thresholdOver] and [threshold] are what
    [getRawHVADCThreshold] returns for [hvTargetVoltage + 5] and for
    [hvTargetVoltage]; [r1] to [r4] are the sensor readings of the four
    loops. *)
Definition calibrateHVG (thresholdOver threshold confNum : Z)
    (r1 r2 r3 r4 : nat -> Z) (st : Render.Display * HV) : Render.Display * HV :=
  let '(d, h) := st in
  let h := setThreshold thresholdOver h in
  let h := setPWMOnTime PWM_PULSE_DEFAULT h in
  let '(d, h) := topLoop r1 768 (d, h) in
  let '(d, h, _) := calibratePass2 threshold confNum r2 d h in
  let bottomOnValue := pwmOn h in
  let h := setPWMOnTime (int16 (pwmOn h + 50)) h in
  let '(d, h) := pass3Loop confNum r3 768 (d, h) in
  let topOnValue := pwmOn h in
  let aveOnValue := Z.quot (int16 (bottomOnValue + topOnValue)) 2 in
  let h := setPWMOnTime aveOnValue h in
  let h := setThreshold thresholdOver h in
  topLoop r4 768 (d, h).

(** Both settings within their configured ranges and the margin kept. *)
Definition valid (h : HV) : Prop :=
  pwmSafe h /\ PWM_PULSE_MIN <= pwmOn h <= PWM_PULSE_MAX.

End HVRun.

(** * Properties *)

(** ** Machine integer facts *)

Lemma int16_id (z : Z) : in_int16 z -> int16 z = z.
Proof.
  unfold in_int16, int16. intros Hz.
  rewrite Z.mod_small by lia. lia.
Qed.

Lemma byte_id (z : Z) : 0 <= z < 256 -> byte z = z.
Proof. unfold byte. intros Hz. now rewrite Z.mod_small. Qed.

(** Case analysis on the comparisons a definition branches on. *)
Ltac no_if t :=
  lazymatch t with
  | context [if _ then _ else _] => fail
  | _ => idtac
  end.

Ltac zcases :=
  cbv zeta; rewrite ?Z.gtb_ltb in *;
  repeat match goal with
         | |- context [?a <? ?b] => no_if a; no_if b; destruct (Z.ltb_spec a b)
         | |- context [?a =? ?b] => no_if a; no_if b; destruct (Z.eqb_spec a b)
         end.

(** Closed arithmetic facts, by evaluation. *)
Ltac ground :=
  vm_compute; repeat split; try discriminate; try reflexivity.

(** ** Regulator *)

Section Regulator.
Import HVGen.

Lemma setPWMTopTime_fields (x : Z) (h : HV) :
  pwmOn (setPWMTopTime x h) = pwmOn h
  /\ rawHVADCThreshold (setPWMTopTime x h) = rawHVADCThreshold h.
Proof. split; reflexivity. Qed.

Lemma setPWMOnTime_fields (x : Z) (h : HV) :
  pwmTop (setPWMOnTime x h) = pwmTop h
  /\ rawHVADCThreshold (setPWMOnTime x h) = rawHVADCThreshold h.
Proof. split; reflexivity. Qed.

(** Closed form of [setPWMTopTime] when [pwmOn + PWM_OFF_MIN] does not
    overflow. *)
Lemma setPWMTopTime_value (x : Z) (h : HV) :
  in_int16 (pwmOn h + PWM_OFF_MIN) ->
  pwmTop (setPWMTopTime x h)
  = Z.max (Z.min (Z.max x PWM_TOP_MIN) PWM_TOP_MAX) (pwmOn h + PWM_OFF_MIN).
Proof.
  intros Hov. unfold setPWMTopTime. cbn [pwmTop].
  rewrite (int16_id _ Hov).
  unfold PWM_TOP_MIN, PWM_TOP_MAX, PWM_OFF_MIN in *.
  zcases; lia.
Qed.

(** Closed form of [setPWMOnTime] when [pwmTop - PWM_OFF_MIN] does not
    overflow. *)
Lemma setPWMOnTime_value (x : Z) (h : HV) :
  in_int16 (pwmTop h - PWM_OFF_MIN) ->
  pwmOn (setPWMOnTime x h)
  = Z.min (Z.min (Z.max x PWM_PULSE_MIN) PWM_PULSE_MAX) (pwmTop h - PWM_OFF_MIN).
Proof.
  intros Hov. unfold setPWMOnTime. cbn [pwmOn].
  rewrite (int16_id _ Hov).
  unfold PWM_PULSE_MIN, PWM_PULSE_MAX, PWM_OFF_MIN in *.
  zcases; lia.
Qed.

Lemma pwmSafe_no_overflow (h : HV) :
  in_int16 (pwmOn h) -> pwmSafe h ->
  in_int16 (pwmOn h + PWM_OFF_MIN) /\ in_int16 (pwmTop h - PWM_OFF_MIN)
  /\ in_int16 (pwmTop h + 1) /\ in_int16 (pwmTop h - 1).
Proof.
  unfold pwmSafe, in_int16, PWM_OFF_MIN, PWM_TOP_MIN, PWM_TOP_MAX. lia.
Qed.

Lemma setPWMTopTime_safe (x : Z) (h : HV) :
  in_int16 (pwmOn h) -> pwmSafe h -> pwmSafe (setPWMTopTime x h).
Proof.
  intros Hi Hs. destruct (pwmSafe_no_overflow h Hi Hs) as (Ho & _).
  unfold pwmSafe. rewrite (setPWMTopTime_value x h Ho).
  destruct (setPWMTopTime_fields x h) as [-> _].
  unfold pwmSafe, PWM_TOP_MIN, PWM_TOP_MAX, PWM_OFF_MIN in *. lia.
Qed.

Lemma setPWMOnTime_safe (x : Z) (h : HV) :
  in_int16 (pwmOn h) -> pwmSafe h -> pwmSafe (setPWMOnTime x h).
Proof.
  intros Hi Hs. destruct (pwmSafe_no_overflow h Hi Hs) as (_ & Ho & _).
  unfold pwmSafe. rewrite (setPWMOnTime_value x h Ho).
  destruct (setPWMOnTime_fields x h) as [-> _].
  unfold pwmSafe, PWM_TOP_MIN, PWM_TOP_MAX, PWM_OFF_MIN in *. lia.
Qed.

Lemma setPWMOnTime_int16 (x : Z) (h : HV) :
  pwmSafe h -> in_int16 (pwmOn (setPWMOnTime x h)).
Proof.
  intros Hs.
  assert (Ho : in_int16 (pwmTop h - PWM_OFF_MIN)).
  { unfold pwmSafe, in_int16, PWM_OFF_MIN, PWM_TOP_MIN, PWM_TOP_MAX in *. lia. }
  rewrite (setPWMOnTime_value x h Ho).
  unfold pwmSafe, in_int16, PWM_PULSE_MIN, PWM_PULSE_MAX, PWM_OFF_MIN,
    PWM_TOP_MIN, PWM_TOP_MAX in *. lia.
Qed.

(** Every reachable state has its period and its on-time within their
    own ranges. *)
Lemma reachable_ranges (h : HV) :
  reachable h ->
  PWM_TOP_MIN <= pwmTop h <= PWM_TOP_MAX
  /\ PWM_PULSE_MIN <= pwmOn h <= PWM_PULSE_MAX.
Proof.
  assert (Htop : forall x h0,
            PWM_TOP_MIN <= pwmTop h0 <= PWM_TOP_MAX
            /\ PWM_PULSE_MIN <= pwmOn h0 <= PWM_PULSE_MAX ->
            PWM_TOP_MIN <= pwmTop (setPWMTopTime x h0) <= PWM_TOP_MAX
            /\ PWM_PULSE_MIN <= pwmOn (setPWMTopTime x h0) <= PWM_PULSE_MAX).
  { intros x h0 Hr.
    rewrite setPWMTopTime_value
      by (unfold in_int16, PWM_PULSE_MIN, PWM_PULSE_MAX, PWM_OFF_MIN in *; lia).
    destruct (setPWMTopTime_fields x h0) as [-> _].
    unfold PWM_TOP_MIN, PWM_TOP_MAX, PWM_PULSE_MIN, PWM_PULSE_MAX,
      PWM_OFF_MIN in *. lia. }
  induction 1 as [|a b c d h _ IH|h _ IH|t h _ IH|x h _ IH|x h _ IH|r h _ IH].
  - ground.
  - unfold readEEPROMValues. cbn [pwmTop pwmOn].
    unfold PWM_TOP_MIN, PWM_TOP_MAX, PWM_PULSE_MIN, PWM_PULSE_MAX,
      PWM_TOP_DEFAULT, PWM_PULSE_DEFAULT.
    split;
      match goal with
      | |- context [if ?b then _ else _] =>
          let E := fresh "E" in
          destruct b eqn:E;
            [lia | apply orb_false_iff in E as [E1 E2];
                   rewrite Z.gtb_ltb in E2;
                   apply Z.ltb_ge in E1; apply Z.ltb_ge in E2; lia]
      end.
  - ground.
  - exact IH.
  - rewrite setPWMOnTime_value
      by (unfold in_int16, PWM_TOP_MIN, PWM_TOP_MAX, PWM_OFF_MIN in *; lia).
    destruct (setPWMOnTime_fields x h) as [-> _].
    unfold PWM_TOP_MIN, PWM_TOP_MAX, PWM_PULSE_MIN, PWM_PULSE_MAX,
      PWM_OFF_MIN in *. lia.
  - now apply Htop.
  - unfold checkHVVoltage. destruct (_ >? _); now apply Htop.
Qed.

End Regulator.

(** ** Renderer: one slot iteration *)

Section SlotStep.
Import Render.

Lemma rd_insert_eq (a : list Z) (i : nat) (x : Z) :
  (i < length a)%nat -> rd (<[i := x]> a) i = x.
Proof. intros Hi. unfold rd. now rewrite list_lookup_insert_eq. Qed.

Lemma rd_insert_ne (a : list Z) (i j : nat) (x : Z) :
  i <> j -> rd (<[i := x]> a) j = rd a j.
Proof. intros Hij. unfold rd. now rewrite list_lookup_insert_ne. Qed.

Lemma insert_rd_id (a : list Z) (i : nat) :
  (i < length a)%nat -> <[i := rd a i]> a = a.
Proof.
  intros Hi. apply list_insert_id. unfold rd.
  destruct (lookup_lt_is_Some_2 a i Hi) as [x ->]. reflexivity.
Qed.

Lemma display_eta (s : Display) :
  mkDisplay (NumberArray s) (currNumberArray s) (displayType s) (fadeState s)
    (blanked s) (scrollback s) (fadeSteps s) (fadeStep s) (digitOffCount s)
    (scrollSteps s) (blinkCounter s) (blinkState s) = s.
Proof. now destruct s. Qed.

Lemma writeSlot_same (s : Display) (i : nat) :
  (i < length (currNumberArray s))%nat -> (i < length (fadeState s))%nat ->
  writeSlot i (slotAt s i) s = s.
Proof.
  intros Hc Hf. unfold writeSlot, set_curr, set_fade, slotAt. cbn.
  rewrite !insert_rd_id by assumption. apply display_eta.
Qed.

(** [slotStep] acts on slot [i] as [coreStep] does. *)
Lemma slotStep_core (i : nat) (s : Display) (loc : Locals) :
  (i < length (currNumberArray s))%nat -> (i < length (fadeState s))%nat ->
  slotStep i (s, loc)
  = (writeSlot i (fst (coreStep s (slotAt s i) loc)) s,
     snd (coreStep s (slotAt s i) loc)).
Proof.
  intros Hc Hf.
  unfold slotStep, coreStep, effectiveType, coreType, scrollOverride,
    coreOverride, resolveType.
  cbn [slotAt target current mode fstate].
  set (loc1 := modeTimes s _ loc).
  set (t := if _ && _ && _ then SCROLL else _).
  destruct (t =? SCROLL).
  - unfold scrollBranch, scrollCore. cbn [slotAt target current mode fstate].
    destruct (negb (rd (NumberArray s) i =? rd (currNumberArray s) i)).
    + destruct (rd (fadeState s) i =? 0) eqn:E0.
      * cbn [set_fade fadeState scrollSteps currNumberArray].
        rewrite !rd_insert_eq by assumption.
        destruct (byte (scrollSteps s) =? 1).
        -- unfold writeSlot, set_curr, set_fade. cbn.
           now rewrite list_insert_insert_eq.
        -- destruct (byte (scrollSteps s) >? 1).
           ++ unfold writeSlot, set_curr, set_fade. cbn.
              now rewrite list_insert_insert_eq, insert_rd_id.
           ++ unfold writeSlot, set_curr, set_fade. cbn.
              now rewrite insert_rd_id.
      * destruct (rd (fadeState s) i =? 1).
        -- reflexivity.
        -- destruct (rd (fadeState s) i >? 1).
           ++ unfold writeSlot, set_curr, set_fade. cbn.
              now rewrite insert_rd_id.
           ++ cbn [fst snd]. f_equal. symmetry. now apply writeSlot_same.
    + cbn [fst snd]. f_equal. symmetry. now apply writeSlot_same.
  - destruct (t =? FADE).
    + unfold fadeBranch, fadeCore. cbn [slotAt target current mode fstate].
      destruct (negb (rd (NumberArray s) i =? rd (currNumberArray s) i)
                && (rd (fadeState s) i =? 0)).
      * cbn [set_fade fadeState fadeStep fadeSteps currNumberArray NumberArray].
        rewrite !rd_insert_eq by assumption.
        destruct (byte (fadeSteps s) =? 1).
        -- unfold writeSlot, set_curr, set_fade. cbn.
           now rewrite list_insert_insert_eq.
        -- destruct (byte (fadeSteps s) >? 1).
           ++ unfold writeSlot, set_curr, set_fade. cbn.
              rewrite !rd_insert_eq by (rewrite ?length_insert; assumption).
              now rewrite list_insert_insert_eq, insert_rd_id.
           ++ unfold writeSlot, set_curr, set_fade. cbn.
              now rewrite insert_rd_id.
      * destruct (rd (fadeState s) i =? 1).
        -- reflexivity.
        -- destruct (rd (fadeState s) i >? 1).
           ++ unfold writeSlot, set_curr, set_fade. cbn.
              rewrite !rd_insert_eq by assumption.
              now rewrite insert_rd_id.
           ++ cbn [fst snd]. f_equal. symmetry. now apply writeSlot_same.
    + unfold snapBranch, snapCore, writeSlot, set_curr, set_fade. cbn.
      now rewrite insert_rd_id.
Qed.

End SlotStep.

(** ** Renderer: one call *)

Section OneCall.
Import Render.

Lemma coreStep_keeps (s : Display) (v : Slot) (loc : Locals) :
  target (fst (coreStep s v loc)) = target v
  /\ mode (fst (coreStep s v loc)) = mode v.
Proof.
  unfold coreStep, scrollCore, fadeCore, snapCore.
  repeat match goal with
         | |- context [if ?b then _ else _] => destruct b
         end; split; reflexivity.
Qed.

Lemma coreStep_slot_indep (s : Display) (v : Slot) (loc : Locals) :
  fst (coreStep s v loc) = nextSlot s v.
Proof.
  unfold nextSlot, coreStep, scrollCore, fadeCore, snapCore.
  repeat match goal with
         | |- context [if ?b then _ else _] => destruct b
         end; reflexivity.
Qed.

Lemma coreStep_settings (s s' : Display) (v : Slot) (loc : Locals) :
  settings s = settings s' -> coreStep s v loc = coreStep s' v loc.
Proof.
  destruct s, s'. unfold settings. cbn. intros H. inversion H. subst.
  reflexivity.
Qed.

Lemma nextSlot_knobs (s s' : Display) (v : Slot) :
  knobs s = knobs s' -> nextSlot s v = nextSlot s' v.
Proof.
  destruct s, s'. unfold knobs. cbn. intros H. inversion H. subst.
  unfold nextSlot, coreStep, coreType, coreOverride, scrollCore, fadeCore,
    snapCore. cbn.
  repeat match goal with
         | |- context [if ?b then _ else _] => destruct b
         end; reflexivity.
Qed.

Lemma slotAt_writeSlot_eq (s : Display) (i : nat) (v : Slot) :
  (i < length (currNumberArray s))%nat -> (i < length (fadeState s))%nat ->
  target v = rd (NumberArray s) i -> mode v = rd (displayType s) i ->
  slotAt (writeSlot i v s) i = v.
Proof.
  intros Hc Hf Ht Hm. unfold slotAt, writeSlot, set_curr, set_fade. cbn.
  rewrite !rd_insert_eq by assumption. rewrite <- Ht, <- Hm. now destruct v.
Qed.

Lemma slotAt_writeSlot_ne (s : Display) (i j : nat) (v : Slot) :
  i <> j -> slotAt (writeSlot i v s) j = slotAt s j.
Proof.
  intros Hij. unfold slotAt, writeSlot, set_curr, set_fade. cbn.
  now rewrite !rd_insert_ne by assumption.
Qed.

Lemma writeSlot_wf (s : Display) (i : nat) (v : Slot) :
  wf s -> wf (writeSlot i v s).
Proof.
  unfold wf, writeSlot, set_curr, set_fade. cbn.
  rewrite !length_insert. tauto.
Qed.

Lemma writeSlot_settings (s : Display) (i : nat) (v : Slot) :
  settings (writeSlot i v s) = settings s.
Proof. reflexivity. Qed.

Lemma atHead_S (s : Display) (i : nat) :
  atHead s (S i) = slotStep i (atHead s i).
Proof. unfold atHead. now rewrite seq_S, fold_left_app. Qed.

(** State at the head of iteration [i]: the slots below [i] have been
    stepped, the others and the settings are as at the call. *)
Lemma atHead_spec (s : Display) (i : nat) :
  wf s -> (i <= 6)%nat ->
  wf (fst (atHead s i))
  /\ settings (fst (atHead s i)) = settings s
  /\ (forall j, (j < i)%nat -> slotAt (fst (atHead s i)) j = nextSlot s (slotAt s j))
  /\ (forall j, (i <= j)%nat -> slotAt (fst (atHead s i)) j = slotAt s j).
Proof.
  intros Hwf. induction i as [|i IH]; intros Hi.
  - cbn. repeat split; try apply Hwf. intros j Hj. lia.
  - destruct IH as (Hw & Hs & Hlt & Hge); [lia|].
    rewrite atHead_S. destruct (atHead s i) as [si li] eqn:E. cbn [fst] in *.
    assert (Hlc : (i < length (currNumberArray si))%nat) by (destruct Hw as (_ & -> & _); lia).
    assert (Hlf : (i < length (fadeState si))%nat) by (destruct Hw as (_ & _ & _ & ->); lia).
    rewrite slotStep_core by assumption. cbn [fst].
    rewrite coreStep_slot_indep.
    assert (Hi_at : slotAt si i = slotAt s i) by (apply Hge; lia).
    assert (Hn : nextSlot si (slotAt si i) = nextSlot s (slotAt s i)).
    { rewrite Hi_at. unfold nextSlot. now rewrite (coreStep_settings si s). }
    split; [now apply writeSlot_wf|].
    split; [now rewrite writeSlot_settings|].
    split.
    + intros j Hj. destruct (decide (j = i)) as [->|Hne].
      * rewrite slotAt_writeSlot_eq; try assumption.
        -- unfold nextSlot. now destruct (coreStep_keeps si (slotAt si i) uninitialised).
        -- unfold nextSlot. now destruct (coreStep_keeps si (slotAt si i) uninitialised).
      * rewrite slotAt_writeSlot_ne by congruence. apply Hlt. lia.
    + intros j Hj. rewrite slotAt_writeSlot_ne by lia. apply Hge. lia.
Qed.

Lemma slotLoop_atHead (s : Display) (n a : nat) (acc : list Locals) :
  slotLoop (seq a n) (atHead s a) acc
  = (atHead s (a + n), acc ++ map (fun k => snd (atHead s (S k))) (seq a n)).
Proof.
  revert a acc. induction n as [|n IH]; intros a acc.
  - cbn. now rewrite Nat.add_0_r, app_nil_r.
  - cbn [seq slotLoop map]. rewrite <- atHead_S, IH.
    rewrite <- app_assoc. cbn. now rewrite Nat.add_succ_r.
Qed.

Lemma outputDisplayFull_eq (s : Display) :
  outputDisplayFull s
  = (blinkUpdate (fst (atHead s 6)),
     map (fun k => snd (atHead s (S k))) (seq 0 6)).
Proof.
  unfold outputDisplayFull.
  change (s, uninitialised) with (atHead s 0).
  now rewrite slotLoop_atHead.
Qed.

Lemma blinkUpdate_slotAt (s : Display) (i : nat) :
  slotAt (blinkUpdate s) i = slotAt s i.
Proof. unfold blinkUpdate. now destruct (_ =? _). Qed.

Lemma blinkUpdate_knobs (s : Display) : knobs (blinkUpdate s) = knobs s.
Proof. unfold blinkUpdate. now destruct (_ =? _). Qed.

Lemma blinkUpdate_wf (s : Display) : wf s -> wf (blinkUpdate s).
Proof. unfold blinkUpdate. now destruct (_ =? _). Qed.

Lemma settings_knobs (s s' : Display) :
  settings s = settings s' -> knobs s = knobs s'.
Proof.
  destruct s, s'. unfold settings, knobs. cbn. intros H. now inversion H.
Qed.

(** One call steps every slot by [nextSlot]. *)
Lemma outputDisplay_slot (s : Display) (i : nat) :
  wf s -> (i < 6)%nat ->
  slotAt (outputDisplay s) i = nextSlot s (slotAt s i).
Proof.
  intros Hwf Hi. unfold outputDisplay. rewrite outputDisplayFull_eq. cbn [fst].
  rewrite blinkUpdate_slotAt.
  destruct (atHead_spec s 6 Hwf) as (_ & _ & H & _); [lia|]. now apply H.
Qed.

Lemma outputDisplay_wf (s : Display) : wf s -> wf (outputDisplay s).
Proof.
  intros Hwf. unfold outputDisplay. rewrite outputDisplayFull_eq. cbn [fst].
  apply blinkUpdate_wf. destruct (atHead_spec s 6 Hwf) as (H & _); [lia|exact H].
Qed.

Lemma outputDisplay_knobs (s : Display) : wf s -> knobs (outputDisplay s) = knobs s.
Proof.
  intros Hwf. unfold outputDisplay. rewrite outputDisplayFull_eq. cbn [fst].
  rewrite blinkUpdate_knobs. apply settings_knobs.
  destruct (atHead_spec s 6 Hwf) as (_ & H & _); [lia|exact H].
Qed.

(** The timing variables the timer loop of slot [i] reads. *)
Lemma timings_at (s : Display) (i : nat) :
  wf s -> (i < 6)%nat ->
  timings s !! i = Some (snd (coreStep s (slotAt s i) (snd (atHead s i)))).
Proof.
  intros Hwf Hi. unfold timings. rewrite outputDisplayFull_eq. cbn [snd].
  rewrite list_lookup_fmap.
  rewrite lookup_seq_lt by lia. cbn [fmap option_fmap option_map Nat.add].
  rewrite atHead_S.
  destruct (atHead_spec s i Hwf) as (Hw & Hs & _ & Hge); [lia|].
  destruct (atHead s i) as [si li]. cbn [fst snd] in *.
  rewrite slotStep_core.
  - cbn [snd]. rewrite (Hge i) by lia. now rewrite (coreStep_settings si s).
  - destruct Hw as (_ & -> & _); lia.
  - destruct Hw as (_ & _ & _ & ->); lia.
Qed.

Lemma timings_prev (s : Display) (i : nat) :
  wf s -> (i < 6)%nat ->
  timings s !! i = Some (snd (atHead s (S i))).
Proof.
  intros Hwf Hi. unfold timings. rewrite outputDisplayFull_eq. cbn [snd].
  rewrite list_lookup_fmap. now rewrite lookup_seq_lt by lia.
Qed.

(** Several calls. *)
Lemma impressions_S (k : nat) (s : Display) :
  impressions (S k) s = outputDisplay (impressions k s).
Proof. reflexivity. Qed.

Lemma impressions_wf (k : nat) (s : Display) : wf s -> wf (impressions k s).
Proof.
  intros Hwf. induction k as [|k IH]; [exact Hwf|].
  rewrite impressions_S. now apply outputDisplay_wf.
Qed.

Lemma impressions_knobs (k : nat) (s : Display) :
  wf s -> knobs (impressions k s) = knobs s.
Proof.
  intros Hwf. induction k as [|k IH]; [reflexivity|].
  rewrite impressions_S, outputDisplay_knobs by now apply impressions_wf.
  exact IH.
Qed.

Lemma impressions_slot (k : nat) (s : Display) (i : nat) :
  wf s -> (i < 6)%nat ->
  slotAt (impressions k s) i = Nat.iter k (nextSlot s) (slotAt s i).
Proof.
  intros Hwf Hi. induction k as [|k IH]; [reflexivity|].
  rewrite impressions_S, outputDisplay_slot by (try apply impressions_wf; assumption).
  rewrite Nat.iter_succ, <- IH.
  apply nextSlot_knobs. now apply impressions_knobs.
Qed.

End OneCall.

(** ** Regulator: the stated properties *)

Section RegulatorClaims.
Import HVGen.

(** C2. From any state within the bounds, both [setPWMOnTime] and
    [setPWMTopTime], whatever their argument, leave a state in which
    [pwmOn + PWM_OFF_MIN <= pwmTop] and
    [PWM_TOP_MIN <= pwmTop <= PWM_TOP_MAX]. *)
Theorem pwm_setters_keep_bounds (x : Z) (h : HV) :
  in_int16 (pwmOn h) -> pwmSafe h ->
  pwmSafe (setPWMOnTime x h) /\ pwmSafe (setPWMTopTime x h).
Proof.
  intros Hi Hs. split.
  - now apply setPWMOnTime_safe.
  - now apply setPWMTopTime_safe.
Qed.

Lemma pwm_setters_keep_bounds_witness :
  in_int16 (pwmOn initial) /\ pwmSafe initial
  /\ pwmSafe (setPWMOnTime 32767 initial)
  /\ pwmSafe (setPWMTopTime (-32768) initial).
Proof.
  assert (Hi : in_int16 (pwmOn initial)) by ground.
  assert (Hs : pwmSafe initial) by ground.
  split; [exact Hi|]. split; [exact Hs|]. split.
  - exact (proj1 (pwm_setters_keep_bounds 32767 initial Hi Hs)).
  - exact (proj2 (pwm_setters_keep_bounds (-32768) initial Hi Hs)).
Defined.

(** The setters also establish the bounds from every state the sketch can
    be in, such as the one right after [readEEPROMValues], where the two
    stored settings are each in range but need not be [PWM_OFF_MIN]
    apart. *)
Lemma setters_establish_bounds (x : Z) (h : HV) :
  reachable h ->
  pwmSafe (setPWMOnTime x h) /\ pwmSafe (setPWMTopTime x h).
Proof.
  intros Hr. destruct (reachable_ranges h Hr) as [Htop Hon].
  unfold pwmSafe.
  rewrite setPWMOnTime_value, setPWMTopTime_value
    by (unfold in_int16, PWM_TOP_MIN, PWM_TOP_MAX, PWM_PULSE_MIN,
          PWM_PULSE_MAX, PWM_OFF_MIN in *; lia).
  destruct (setPWMOnTime_fields x h) as [-> _].
  destruct (setPWMTopTime_fields x h) as [-> _].
  unfold PWM_TOP_MIN, PWM_TOP_MAX, PWM_PULSE_MIN, PWM_PULSE_MAX,
    PWM_OFF_MIN in *. lia.
Qed.

(** C3. One correction step: the period moves up by one when the reading
    is above the threshold and down by one otherwise; the moved value is
    clamped to [[PWM_TOP_MIN, PWM_TOP_MAX]] and then raised to at least
    [pwmOn + PWM_OFF_MIN]. The on-time is not touched. *)
Theorem checkHVVoltage_step (reading : Z) (h : HV) :
  in_int16 (pwmTop h + 1) -> in_int16 (pwmTop h - 1) ->
  in_int16 (pwmOn h + PWM_OFF_MIN) ->
  (rawHVADCThreshold h < reading ->
   pwmTop (checkHVVoltage reading h)
   = Z.max (clamp (pwmTop h + 1) PWM_TOP_MIN PWM_TOP_MAX) (pwmOn h + PWM_OFF_MIN))
  /\ (reading <= rawHVADCThreshold h ->
      pwmTop (checkHVVoltage reading h)
      = Z.max (clamp (pwmTop h - 1) PWM_TOP_MIN PWM_TOP_MAX) (pwmOn h + PWM_OFF_MIN))
  /\ pwmOn (checkHVVoltage reading h) = pwmOn h.
Proof.
  intros Hup Hdown Hon. unfold checkHVVoltage.
  rewrite Z.gtb_ltb. destruct (Z.ltb_spec (rawHVADCThreshold h) reading) as [Hlt|Hge].
  - split; [|split; [lia|reflexivity]]. intros _.
    rewrite setPWMTopTime_value, int16_id by assumption.
    unfold clamp, PWM_TOP_MIN, PWM_TOP_MAX. zcases; lia.
  - split; [lia|]. split; [|reflexivity]. intros _.
    rewrite setPWMTopTime_value, int16_id by assumption.
    unfold clamp, PWM_TOP_MIN, PWM_TOP_MAX. zcases; lia.
Qed.

Lemma checkHVVoltage_step_witness :
  pwmTop (checkHVVoltage 5 initial) = 1001
  /\ pwmTop (checkHVVoltage 0 initial) = 999.
Proof.
  assert (H1 : in_int16 (pwmTop initial + 1)) by ground.
  assert (H2 : in_int16 (pwmTop initial - 1)) by ground.
  assert (H3 : in_int16 (pwmOn initial + PWM_OFF_MIN)) by ground.
  destruct (checkHVVoltage_step 5 initial H1 H2 H3) as (Hup & _ & _).
  destruct (checkHVVoltage_step 0 initial H1 H2 H3) as (_ & Hdown & _).
  split.
  - rewrite Hup by ground. reflexivity.
  - rewrite Hdown by ground. reflexivity.
Defined.

(** C4. Reading [pwmOn] back after [setPWMOnTime x] gives
    [clamp x PWM_PULSE_MIN (min PWM_PULSE_MAX (pwmTop - PWM_OFF_MIN))], for
    every [x] and every state whose period is within its bounds (which
    every writer of [pwmTop] ensures). *)
Theorem setPWMOnTime_readback (x : Z) (h : HV) :
  PWM_TOP_MIN <= pwmTop h <= PWM_TOP_MAX ->
  pwmOn (setPWMOnTime x h)
  = clamp x PWM_PULSE_MIN (Z.min PWM_PULSE_MAX (pwmTop h - PWM_OFF_MIN)).
Proof.
  intros Htop.
  rewrite setPWMOnTime_value
    by (unfold in_int16, PWM_TOP_MIN, PWM_TOP_MAX, PWM_OFF_MIN in *; lia).
  unfold clamp, PWM_PULSE_MIN, PWM_PULSE_MAX, PWM_OFF_MIN, PWM_TOP_MIN,
    PWM_TOP_MAX in *.
  zcases; lia.
Qed.

Lemma setPWMOnTime_readback_witness :
  PWM_TOP_MIN <= pwmTop initial <= PWM_TOP_MAX
  /\ pwmOn (setPWMOnTime 700 initial) = 500.
Proof.
  assert (Ht : PWM_TOP_MIN <= pwmTop initial <= PWM_TOP_MAX) by ground.
  split; [exact Ht|].
  rewrite (setPWMOnTime_readback 700 initial Ht). reflexivity.
Defined.

(** The same read-back, for every state the sketch can be in. *)
Corollary setPWMOnTime_readback_reachable (x : Z) (h : HV) :
  reachable h ->
  pwmOn (setPWMOnTime x h)
  = clamp x PWM_PULSE_MIN (Z.min PWM_PULSE_MAX (pwmTop h - PWM_OFF_MIN)).
Proof.
  intros Hr. destruct (reachable_ranges h Hr) as [Htop _].
  rewrite setPWMOnTime_value
    by (unfold in_int16, PWM_TOP_MIN, PWM_TOP_MAX, PWM_OFF_MIN in *; lia).
  unfold clamp, PWM_PULSE_MIN, PWM_PULSE_MAX, PWM_OFF_MIN, PWM_TOP_MIN,
    PWM_TOP_MAX in *.
  zcases; lia.
Qed.

(** The bound on the period matters: were [pwmTop] 60, the interval of
    the clamp would be empty ([50] to [10]); the setter then stores the
    upper end, [constrain] returns the lower one. *)
Example setPWMOnTime_short_period :
  pwmOn (setPWMOnTime 0 (mkHV 60 50 0 0 0)) = 10
  /\ clamp 0 PWM_PULSE_MIN (Z.min PWM_PULSE_MAX (60 - PWM_OFF_MIN)) = 50.
Proof. split; reflexivity. Qed.

End RegulatorClaims.

(** ** Renderer: settings are never written by a slot iteration *)

Section Settings.
Import Render.

Lemma scrollBranch_settings (i : nat) (s : Display) (loc : Locals) :
  settings (fst (scrollBranch i s loc)) = settings s.
Proof.
  unfold scrollBranch.
  destruct (negb _); [|reflexivity].
  destruct (rd (fadeState s) i =? 0).
  - cbv zeta. destruct (_ =? 1); [reflexivity|]. destruct (_ >? 1); reflexivity.
  - cbv zeta. destruct (_ =? 1); [reflexivity|]. destruct (_ >? 1); reflexivity.
Qed.

Lemma fadeBranch_settings (i : nat) (s : Display) (loc : Locals) :
  settings (fst (fadeBranch i s loc)) = settings s.
Proof.
  unfold fadeBranch.
  destruct (negb _ && _).
  - cbv zeta. destruct (_ =? 1); [reflexivity|]. destruct (_ >? 1); reflexivity.
  - destruct (_ =? 1); [reflexivity|]. destruct (_ >? 1); reflexivity.
Qed.

Lemma slotStep_settings (i : nat) (st : Display * Locals) :
  settings (fst (slotStep i st)) = settings (fst st).
Proof.
  destruct st as [s loc]. unfold slotStep. cbv zeta.
  destruct (_ =? SCROLL); [apply scrollBranch_settings|].
  destruct (_ =? FADE); [apply fadeBranch_settings|]. reflexivity.
Qed.
Lemma atHead_settings (s : Display) (i : nat) :
  settings (fst (atHead s i)) = settings s.
Proof.
  induction i as [|i IH]; [reflexivity|].
  now rewrite atHead_S, slotStep_settings.
Qed.

Lemma outputDisplay_blink (s : Display) :
  blinkCounter (outputDisplay s) = blinkCounter (blinkUpdate s)
  /\ blinkState (outputDisplay s) = blinkState (blinkUpdate s).
Proof.
  unfold outputDisplay. rewrite outputDisplayFull_eq. cbn [fst].
  pose proof (atHead_settings s 6) as H.
  revert H. generalize (fst (atHead s 6)). intros s' H.
  destruct s', s. unfold settings in H. cbn in H.
  inversion H. subst. unfold blinkUpdate. cbn.
  destruct (_ =? _); split; reflexivity.
Qed.

(** While the counter is below its maximum, [k] calls add [k] to it and
    leave the blink phase alone. *)
Lemma blink_counts (k : nat) (s : Display) :
  0 <= blinkCounter s -> blinkCounter s + Z.of_nat k < BLINK_COUNT_MAX ->
  blinkCounter (impressions k s) = blinkCounter s + Z.of_nat k
  /\ blinkState (impressions k s) = blinkState s.
Proof.
  intros H0. induction k as [|k IH]; intros Hk.
  - cbn. split; [lia|reflexivity].
  - destruct IH as [Hc Hb]; [lia|].
    rewrite impressions_S.
    destruct (outputDisplay_blink (impressions k s)) as [-> ->].
    unfold blinkUpdate. rewrite Hc, Hb.
    unfold BLINK_COUNT_MAX in *.
    rewrite int16_id by (unfold in_int16; lia).
    destruct (Z.eqb_spec (blinkCounter s + Z.of_nat k + 1) 25); [lia|].
    unfold set_blink. cbn [blinkState blinkCounter]. split; [lia|reflexivity].
Qed.

End Settings.

(** ** Renderer: which branch a slot takes *)

Section Dispatch.
Import Render.

Lemma effectiveType_core (s : Display) (i : nat) :
  effectiveType s i = coreType s (slotAt s i).
Proof. reflexivity. Qed.

Lemma coreStep_scroll (s : Display) (v : Slot) (loc : Locals) :
  coreType s v = SCROLL ->
  coreStep s v loc
  = scrollCore s v (modeTimes s (if blanked s then BLANKED else mode v) loc).
Proof. intros H. unfold coreStep. now rewrite H. Qed.

Lemma coreStep_fade (s : Display) (v : Slot) (loc : Locals) :
  coreType s v = FADE ->
  coreStep s v loc
  = fadeCore s v (modeTimes s (if blanked s then BLANKED else mode v) loc).
Proof. intros H. unfold coreStep. now rewrite H. Qed.

Lemma coreStep_snap (s : Display) (v : Slot) (loc : Locals) :
  coreType s v <> SCROLL -> coreType s v <> FADE ->
  coreStep s v loc
  = snapCore v (modeTimes s (if blanked s then BLANKED else mode v) loc).
Proof.
  intros Hs Hf. unfold coreStep.
  destruct (Z.eqb_spec (coreType s v) SCROLL); [contradiction|].
  destruct (Z.eqb_spec (coreType s v) FADE); [contradiction|]. reflexivity.
Qed.

Lemma modeTimes_switch (s : Display) (t : Z) (loc : Locals) :
  digitSwitchTime (modeTimes s t loc) = digitSwitchTime loc.
Proof.
  unfold modeTimes, setOnOff.
  repeat match goal with
         | |- context [if ?b then _ else _] => destruct b
         end; reflexivity.
Qed.

Lemma switchStepOf_core (s : Display) (i : nat) :
  wf s -> (i < 6)%nat ->
  switchStepOf s i
  = digitSwitchTime (snd (coreStep s (slotAt s i) (snd (atHead s i)))).
Proof.
  intros Hwf Hi. unfold switchStepOf. now rewrite timings_at.
Qed.

Lemma switchStepOf_prev (s : Display) (j : nat) :
  wf s -> (j < 6)%nat ->
  digitSwitchTime (snd (atHead s (S j))) = switchStepOf s j.
Proof.
  intros Hwf Hj. unfold switchStepOf. now rewrite timings_prev.
Qed.

(** The override fires exactly on a changing digit that goes to zero with
    scrollback enabled. *)
Lemma coreOverride_true (s : Display) (v : Slot) :
  coreOverride s v = true
  <-> target v = 0 /\ scrollback s = true /\ current v <> target v.
Proof.
  unfold coreOverride. rewrite !andb_true_iff, negb_true_iff.
  rewrite Z.eqb_neq, Z.eqb_eq. intuition congruence.
Qed.

End Dispatch.

(** ** Renderer: the stated properties *)

Section RendererClaims.
Import Render.

(** C9 fails as stated: five calls of [outputDisplay] (the "ceil(25/6)
    outer loops") after power-up leave the blink phase as it was. *)
Lemma blink_not_after_five_calls :
  blinkState (impressions 5 powerUp) <> negb (blinkState powerUp)
  /\ blinkCounter (impressions 5 powerUp) = 5.
Proof. vm_compute. split; [discriminate|reflexivity]. Qed.

(** C9, amended. The counter is one global, advanced once per call of
    [outputDisplay] (after the six slots, not once per slot): starting
    from zero the blink phase is unchanged after each of the first 24
    calls, and the 25th call inverts it and clears the counter. *)
Theorem blink_toggles_every_25_calls (s : Display) :
  blinkCounter s = 0 ->
  (forall k, (k < 25)%nat ->
     blinkState (impressions k s) = blinkState s
     /\ blinkCounter (impressions k s) = Z.of_nat k)
  /\ blinkState (impressions 25 s) = negb (blinkState s)
  /\ blinkCounter (impressions 25 s) = 0.
Proof.
  intros Hc. split.
  - intros k Hk.
    destruct (blink_counts k s) as [H1 H2];
      [lia | unfold BLINK_COUNT_MAX; lia |].
    split; [exact H2 | lia].
  - destruct (blink_counts 24 s) as [H1 H2];
      [lia | unfold BLINK_COUNT_MAX; lia |].
    rewrite (impressions_S 24).
    destruct (outputDisplay_blink (impressions 24 s)) as [-> ->].
    unfold blinkUpdate. rewrite H1, Hc.
    assert (E : (int16 (0 + Z.of_nat 24 + 1) =? BLINK_COUNT_MAX) = true)
      by reflexivity.
    rewrite E. unfold set_blink. cbn [blinkState blinkCounter].
    rewrite H2. split; reflexivity.
Qed.

Lemma blink_toggles_every_25_calls_witness :
  blinkCounter powerUp = 0
  /\ blinkState (impressions 24 powerUp) = blinkState powerUp
  /\ blinkState (impressions 25 powerUp) = negb (blinkState powerUp).
Proof.
  assert (H0 : blinkCounter powerUp = 0) by reflexivity.
  destruct (blink_toggles_every_25_calls powerUp H0) as (Hk & Ht & _).
  split; [exact H0|]. split.
  - exact (proj1 (Hk 24%nat ltac:(lia))).
  - exact Ht.
Defined.




(** What the timer loop of an idle Fade slot 0 does is not determined by
    the call: it compares its counter with a variable never assigned. A
    [BRIGHT] slot lights its digit at step 0, releases it at step 999 and
    rewrites the decoder at step 1000. *)
Example timerLoop_idle_fade_slot0 :
  timerLoop 0 (fst (slotStep 0 (powerUp, uninitialised)))
    (snd (slotStep 0 (powerUp, uninitialised))) = None.
Proof. reflexivity. Qed.

Example timerLoop_bright_slot0 :
  timerLoop 0 (fst (slotStep 0 (allBright fade3to7, uninitialised)))
    (snd (slotStep 0 (allBright fade3to7, uninitialised)))
  = Some [SigDigitOn 0 7; SigDigitOff; SigSetSN74141Chip 7].
Proof. vm_compute. reflexivity. Qed.

(** C5 fails as stated: a [NORMAL] slot whose digit goes from 5 to 0 with
    scrollback enabled is scrolled; after one call it still shows 5. *)
Lemma normal_slot_scrolls_to_zero :
  rd (displayType normal5to0) 0 = NORMAL
  /\ rd (currNumberArray (outputDisplay normal5to0)) 0 = 5
  /\ rd (NumberArray (outputDisplay normal5to0)) 0 = 0
  /\ rd (currNumberArray (outputDisplay normal5to0)) 0
     <> rd (NumberArray (outputDisplay normal5to0)) 0.
Proof. vm_compute. repeat split; discriminate. Qed.

(** The same fact in terms of the mode the renderer dispatches on: a slot
    that reaches neither the Scroll nor the Fade branch is snapped. *)
Lemma snap_branch_converges (s : Display) (i : nat) :
  wf s -> (i < 6)%nat ->
  effectiveType s i <> SCROLL -> effectiveType s i <> FADE ->
  rd (currNumberArray (outputDisplay s)) i = rd (NumberArray s) i
  /\ rd (NumberArray (outputDisplay s)) i = rd (NumberArray s) i
  /\ rd (fadeState (outputDisplay s)) i = rd (fadeState s) i
  /\ switchStepOf s i = Some DIGIT_DISPLAY_COUNT.
Proof.
  intros Hwf Hi Hs Hf. rewrite effectiveType_core in Hs, Hf.
  pose proof (outputDisplay_slot s i Hwf Hi) as Hslot.
  unfold nextSlot in Hslot. rewrite coreStep_snap in Hslot by assumption.
  unfold snapCore, slotAt in Hslot. cbn [fst target current mode fstate] in Hslot.
  pose proof (f_equal target Hslot) as Ht.
  pose proof (f_equal current Hslot) as Hc.
  pose proof (f_equal fstate Hslot) as Hfs.
  cbn [target current mode fstate] in Ht, Hc, Hfs.
  repeat split; try assumption.
  rewrite switchStepOf_core, coreStep_snap by assumption. reflexivity.
Qed.

(** C5, amended. A slot whose mode is neither Fade nor Scroll, and to
    which the scrollback override does not apply, shows its target digit
    after one call; its decoder switch step is the full range. *)
Theorem snap_modes_converge_in_one_call (s : Display) (i : nat) :
  wf s -> (i < 6)%nat ->
  rd (displayType s) i <> FADE -> rd (displayType s) i <> SCROLL ->
  scrollOverride s i = false ->
  rd (currNumberArray (outputDisplay s)) i = rd (NumberArray s) i
  /\ rd (NumberArray (outputDisplay s)) i = rd (NumberArray s) i
  /\ rd (fadeState (outputDisplay s)) i = rd (fadeState s) i
  /\ switchStepOf s i = Some DIGIT_DISPLAY_COUNT.
Proof.
  intros Hwf Hi Hnf Hns Hov.
  apply snap_branch_converges; try assumption;
    unfold effectiveType, resolveType; rewrite Hov;
    destruct (blanked s); try discriminate; assumption.
Qed.

Lemma snap_modes_converge_in_one_call_witness :
  rd (currNumberArray (outputDisplay (allBright fade3to7))) 0 = 7.
Proof.
  apply (snap_modes_converge_in_one_call (allBright fade3to7) 0);
    ground; lia.
Defined.

End RendererClaims.

(** ** Renderer: one step of a fade and of a scroll *)

Section Transitions.
Import Render.

(** A slot dispatched to the Fade branch while its digit differs from the
    target: the countdown value is [fadeSteps] when the slot was idle and
    the stored [fadeState] otherwise. *)
Lemma fade_step_spec (s : Display) (v : Slot) (loc : Locals) :
  blanked s = false -> mode v = FADE -> target v <> current v ->
  coreOverride s v = false ->
  let eff := if fstate v =? 0 then byte (fadeSteps s) else fstate v in
  (eff = 1 ->
   nextSlot s v = mkSlot (target v) (target v) (mode v) 0
   /\ digitSwitchTime (snd (coreStep s v loc)) = Some DIGIT_DISPLAY_COUNT)
  /\ (1 < eff ->
      nextSlot s v = mkSlot (target v) (current v) (mode v) (byte (eff - 1))
      /\ digitSwitchTime (snd (coreStep s v loc))
         = Some (int_of_float (byte (eff - 1) * fadeStep s))).
Proof.
  intros Hb Hm Hne Hov eff.
  assert (Hty : coreType s v = FADE).
  { unfold coreType. now rewrite Hov, Hb. }
  assert (Hneq : negb (target v =? current v) = true).
  { apply negb_true_iff, Z.eqb_neq, Hne. }
  unfold nextSlot. rewrite !coreStep_fade by exact Hty.
  unfold fadeCore. rewrite Hneq. cbn [andb].
  fold eff. split; intros He.
  - assert (E : (eff =? 1) = true) by (apply Z.eqb_eq, He). rewrite E.
    split; reflexivity.
  - assert (E1 : (eff =? 1) = false) by (apply Z.eqb_neq; lia).
    assert (E2 : (eff >? 1) = true) by (rewrite Z.gtb_ltb; apply Z.ltb_lt, He).
    rewrite E1, E2. split; reflexivity.
Qed.

(** A slot to which the scrollback override applies. *)
Lemma scroll_step_spec (s : Display) (v : Slot) (loc : Locals) :
  coreOverride s v = true ->
  let eff := if fstate v =? 0 then byte (scrollSteps s) else fstate v in
  digitSwitchTime (snd (coreStep s v loc)) = Some DIGIT_DISPLAY_OFF
  /\ (eff = 1 ->
      nextSlot s v = mkSlot (target v) (byte (current v - 1)) (mode v) 0)
  /\ (1 < eff ->
      nextSlot s v = mkSlot (target v) (current v) (mode v) (byte (eff - 1))).
Proof.
  intros Hov eff.
  assert (Hty : coreType s v = SCROLL).
  { unfold coreType. now rewrite Hov. }
  assert (Hneq : negb (target v =? current v) = true).
  { unfold coreOverride in Hov. now apply andb_true_iff in Hov as [[? _]%andb_true_iff _]. }
  unfold nextSlot. rewrite !coreStep_scroll by exact Hty.
  unfold scrollCore. rewrite Hneq. fold eff. cbv zeta. split; [|split; intros He].
  - destruct (eff =? 1); [reflexivity|]. destruct (eff >? 1); reflexivity.
  - assert (E : (eff =? 1) = true) by (apply Z.eqb_eq, He). now rewrite E.
  - assert (E1 : (eff =? 1) = false) by (apply Z.eqb_neq; lia).
    assert (E2 : (eff >? 1) = true) by (rewrite Z.gtb_ltb; apply Z.ltb_lt, He).
    now rewrite E1, E2.
Qed.

Lemma knobs_fields (s s' : Display) :
  knobs s = knobs s' ->
  blanked s = blanked s' /\ scrollback s = scrollback s'
  /\ fadeSteps s = fadeSteps s' /\ fadeStep s = fadeStep s'
  /\ scrollSteps s = scrollSteps s' /\ digitOffCount s = digitOffCount s'.
Proof. unfold knobs. intros H. inversion H. tauto. Qed.

Lemma slotAt_fields (s : Display) (i : nat) (t c m f : Z) :
  slotAt s i = mkSlot t c m f ->
  rd (NumberArray s) i = t /\ rd (currNumberArray s) i = c
  /\ rd (displayType s) i = m /\ rd (fadeState s) i = f.
Proof. unfold slotAt. intros H. inversion H. tauto. Qed.

End Transitions.

(** ** Renderer: a whole fade *)

Section Fade.
Import Render.

Variable s : Display.
Variables t c : Z.
Variable n : nat.

Hypothesis not_blanked : blanked s = false.
Hypothesis differs : t <> c.
Hypothesis no_override : coreOverride s (mkSlot t c FADE 0) = false.
Hypothesis steps : fadeSteps s = Z.of_nat n.
Hypothesis steps_range : (1 <= n <= 255)%nat.

Local Abbreviation fadeAt := (fadeSlot t c n).

Lemma fadeAt_eff (k : nat) :
  (k < n)%nat ->
  (if fstate (fadeAt k) =? 0 then byte (fadeSteps s) else fstate (fadeAt k))
  = Z.of_nat n - Z.of_nat k.
Proof.
  intros Hk. destruct k as [|k]; cbn [fadeSlot fstate].
  - rewrite Z.eqb_refl, steps, byte_id by lia. lia.
  - destruct (Z.eqb_spec (Z.of_nat n - Z.of_nat (S k)) 0); [lia|reflexivity].
Qed.

Lemma fadeAt_shape (k : nat) :
  target (fadeAt k) = t /\ current (fadeAt k) = c /\ mode (fadeAt k) = FADE.
Proof. destruct k; repeat split; reflexivity. Qed.

Lemma fadeAt_override (s' : Display) (k : nat) :
  scrollback s' = scrollback s -> coreOverride s' (fadeAt k) = false.
Proof.
  intros Hs. rewrite <- no_override. unfold coreOverride.
  destruct (fadeAt_shape k) as (-> & -> & _). cbn [target current]. now rewrite Hs.
Qed.

(** What the call made on top of [k < n] earlier ones does to the slot
    and which switch step it uses, in any state with the same knobs. *)
Lemma fade_call (s' : Display) (k : nat) (loc : Locals) :
  knobs s' = knobs s -> (k < n)%nat ->
  nextSlot s' (fadeAt k)
  = (if (S k =? n)%nat then mkSlot t t FADE 0 else fadeAt (S k))
  /\ digitSwitchTime (snd (coreStep s' (fadeAt k) loc))
     = Some (if (S k =? n)%nat then DIGIT_DISPLAY_COUNT
             else int_of_float ((Z.of_nat n - Z.of_nat (S k)) * fadeStep s)).
Proof.
  intros Hk Hlt.
  destruct (knobs_fields s' s Hk) as (Hb & Hsb & Hfs & Hfst & _).
  destruct (fadeAt_shape k) as (Ht & Hc & Hm).
  assert (Hb' : blanked s' = false) by congruence.
  assert (Hne' : target (fadeAt k) <> current (fadeAt k)) by congruence.
  pose proof (fade_step_spec s' (fadeAt k) loc Hb' Hm Hne' (fadeAt_override s' k Hsb))
    as Hspec.
  cbv zeta in Hspec. rewrite Hfs, (fadeAt_eff k Hlt), Ht, Hc, Hm, Hfst in Hspec.
  destruct Hspec as [Hfin Hcont].
  destruct (Nat.eqb_spec (S k) n) as [E|E].
  - apply Hfin. lia.
  - destruct Hcont as [Hn Hsw]; [lia|].
    rewrite byte_id in Hn, Hsw by lia.
    split.
    + rewrite Hn. cbn [fadeSlot]. f_equal. lia.
    + rewrite Hsw. do 2 f_equal. lia.
Qed.

Lemma fade_iter_lt (k : nat) :
  (k < n)%nat -> Nat.iter k (nextSlot s) (mkSlot t c FADE 0) = fadeAt k.
Proof.
  induction k as [|k IH]; intros Hk; [reflexivity|].
  rewrite Nat.iter_succ, IH by lia.
  destruct (fade_call s k uninitialised eq_refl) as [-> _]; [lia|].
  destruct (Nat.eqb_spec (S k) n); [lia|reflexivity].
Qed.

Lemma fade_iter_end :
  Nat.iter n (nextSlot s) (mkSlot t c FADE 0) = mkSlot t t FADE 0.
Proof.
  assert (En : n = S (pred n)) by lia.
  transitivity (Nat.iter (S (pred n)) (nextSlot s) (mkSlot t c FADE 0));
    [now rewrite <- En|].
  rewrite Nat.iter_succ, fade_iter_lt by lia.
  destruct (fade_call s (pred n) uninitialised eq_refl) as [-> _]; [lia|].
  destruct (Nat.eqb_spec (S (pred n)) n); [reflexivity|lia].
Qed.

End Fade.

Section FadeClaim.
Import Render.

(** C1 fails as stated: in the scenario (off-count 1000, 50 fade steps,
    first digit from 3 to 7) the switch step used by the first call is 980,
    not 1000, the one used by the 49th call is 20, and the 50th call uses
    1000 again: the sequence is 980, 960, ..., 20, 1000, which is neither
    1000, 980, ..., 20 nor decreasing over the 50 calls. *)
Lemma fade_switch_sequence_is_shifted :
  fadeStep fade3to7 = 20
  /\ map (fun k => switchStepOf (impressions k fade3to7) 0) (seq 0 50)
     = map (fun k => Some (980 - 20 * Z.of_nat k)) (seq 0 49) ++ [Some 1000]
  /\ map (fun k => rd (fadeState (impressions (S k) fade3to7)) 0) (seq 0 50)
     = map (fun k => 49 - Z.of_nat k) (seq 0 50)
  /\ ~ (forall k, (k < 50)%nat ->
          switchStepOf (impressions k fade3to7) 0
          = Some (1000 - 20 * Z.of_nat k)).
Proof.
  split; [reflexivity|]. split; [vm_compute; reflexivity|].
  split; [vm_compute; reflexivity|].
  intros H. specialize (H 0%nat ltac:(lia)). vm_compute in H. discriminate.
Qed.

(** C1, amended. A slot rendered in Fade mode, idle, whose digit differs
    from the target (and is not taken over by the scrollback override),
    with [fadeSteps = n]: after each of the first [n - 1] calls the digit
    is still the old one and [fadeState] is [n - k]; the [k]-th call uses
    the switch step [(n - k) * fadeStep], which decreases with [k]; the
    [n]-th call, and no earlier one, sets the digit to the target, clears
    [fadeState], and uses the full-range switch step
    [DIGIT_DISPLAY_COUNT]. *)
Theorem fade_takes_fadeSteps_calls (s : Display) (i n : nat) :
  wf s -> (i < 6)%nat ->
  blanked s = false ->
  rd (displayType s) i = FADE ->
  rd (NumberArray s) i <> rd (currNumberArray s) i ->
  scrollOverride s i = false ->
  rd (fadeState s) i = 0 ->
  fadeSteps s = Z.of_nat n -> (1 <= n <= 255)%nat ->
  0 <= fadeStep s -> Z.of_nat n * fadeStep s <= 32767 ->
  (forall k, (1 <= k < n)%nat ->
     rd (currNumberArray (impressions k s)) i = rd (currNumberArray s) i
     /\ rd (fadeState (impressions k s)) i = Z.of_nat n - Z.of_nat k
     /\ switchStepOf (impressions (k - 1) s) i
        = Some ((Z.of_nat n - Z.of_nat k) * fadeStep s))
  /\ rd (currNumberArray (impressions n s)) i = rd (NumberArray s) i
  /\ rd (fadeState (impressions n s)) i = 0
  /\ switchStepOf (impressions (n - 1) s) i = Some DIGIT_DISPLAY_COUNT.
Proof.
  intros Hwf Hi Hb Hm Hne Hov Hf Hn Hrange Hstep0 Hstep.
  set (t := rd (NumberArray s) i) in *. set (c := rd (currNumberArray s) i) in *.
  assert (Hv0 : slotAt s i = mkSlot t c FADE 0).
  { unfold slotAt. now rewrite Hm, Hf. }
  assert (Hov0 : coreOverride s (mkSlot t c FADE 0) = false).
  { rewrite <- Hov. reflexivity. }
  (* slot and switch step around the call number [k + 1] *)
  assert (Hat : forall k, (k < n)%nat ->
            slotAt (impressions k s) i = fadeSlot t c n k).
  { intros k Hk. rewrite impressions_slot, Hv0 by assumption.
    now apply fade_iter_lt. }
  assert (Hsw : forall k, (k < n)%nat ->
            switchStepOf (impressions k s) i
            = Some (if (S k =? n)%nat then DIGIT_DISPLAY_COUNT
                    else (Z.of_nat n - Z.of_nat (S k)) * fadeStep s)).
  { intros k Hk.
    rewrite switchStepOf_core by (try apply impressions_wf; assumption).
    rewrite (Hat k Hk).
    destruct (fade_call s t c n Hb Hne Hov0 Hn Hrange (impressions k s) k
                (snd (atHead (impressions k s) i))
                (impressions_knobs k s Hwf) Hk) as [_ ->].
    destruct (S k =? n)%nat; [reflexivity|].
    unfold int_of_float. rewrite int16_id; [reflexivity|].
    unfold in_int16. nia. }
  split; [|split; [|split]].
  - intros k Hk.
    assert (Hk' : (k < n)%nat) by lia.
    pose proof (Hat k Hk') as Hslot.
    destruct k as [|k]; [lia|]. cbn [fadeSlot] in Hslot.
    destruct (slotAt_fields _ _ _ _ _ _ Hslot) as (_ & Hc & _ & Hfs).
    repeat split; try assumption.
    rewrite Hsw by lia. replace (S k - 1)%nat with k by lia.
    destruct (Nat.eqb_spec (S k) n); [lia|reflexivity].
  - pose proof (impressions_slot n s i Hwf Hi) as H.
    rewrite Hv0, (fade_iter_end s t c n Hb Hne Hov0 Hn Hrange) in H.
    now destruct (slotAt_fields _ _ _ _ _ _ H) as (_ & -> & _).
  - pose proof (impressions_slot n s i Hwf Hi) as H.
    rewrite Hv0, (fade_iter_end s t c n Hb Hne Hov0 Hn Hrange) in H.
    now destruct (slotAt_fields _ _ _ _ _ _ H) as (_ & _ & _ & ->).
  - rewrite Hsw by lia.
    destruct (Nat.eqb_spec (S (n - 1)) n); [reflexivity|lia].
Qed.

Lemma fade_takes_fadeSteps_calls_witness :
  rd (currNumberArray (impressions 49 fade3to7)) 0 = 3
  /\ rd (fadeState (impressions 49 fade3to7)) 0 = 1
  /\ switchStepOf (impressions 48 fade3to7) 0 = Some 20
  /\ rd (currNumberArray (impressions 50 fade3to7)) 0 = 7
  /\ rd (fadeState (impressions 50 fade3to7)) 0 = 0
  /\ switchStepOf (impressions 49 fade3to7) 0 = Some 1000.
Proof.
  assert (H : wf fade3to7 /\ (0 < 6)%nat /\ blanked fade3to7 = false
              /\ rd (displayType fade3to7) 0 = FADE
              /\ rd (NumberArray fade3to7) 0 <> rd (currNumberArray fade3to7) 0
              /\ scrollOverride fade3to7 0 = false
              /\ rd (fadeState fade3to7) 0 = 0
              /\ fadeSteps fade3to7 = Z.of_nat 50 /\ (1 <= 50 <= 255)%nat
              /\ 0 <= fadeStep fade3to7
              /\ Z.of_nat 50 * fadeStep fade3to7 <= 32767).
  { repeat split; try reflexivity; try lia; try discriminate. }
  destruct H as (H1 & H2 & H3 & H4 & H5 & H6 & H7 & H8 & H9 & H10 & H11).
  destruct (fade_takes_fadeSteps_calls fade3to7 0 50 H1 H2 H3 H4 H5 H6 H7 H8 H9 H10 H11)
    as (Hk & Hc & Hf & Hs).
  destruct (Hk 49%nat ltac:(lia)) as (Hk1 & Hk2 & Hk3).
  exact (conj Hk1 (conj Hk2 (conj Hk3 (conj Hc (conj Hf Hs))))).
Defined.

End FadeClaim.

(** ** Renderer: a whole scroll *)

(** Quotient and remainder of a successor. *)
Lemma succ_div_mod (M k : nat) :
  M <> 0%nat ->
  ((S k) mod M = 0 /\ S k / M = S (k / M) /\ S (k mod M) = M)%nat
  \/ ((S k) mod M = S (k mod M) /\ S k / M = k / M /\ S (k mod M) < M)%nat.
Proof.
  intros HM.
  pose proof (Nat.div_mod_eq k M) as Hk.
  pose proof (Nat.mod_upper_bound k M HM) as Hr.
  destruct (decide (S (k mod M) = M)) as [E|E].
  - left. repeat split; [| |exact E].
    + symmetry. apply (Nat.mod_unique (S k) M (S (k / M)) 0); nia.
    + symmetry. apply (Nat.div_unique (S k) M (S (k / M)) 0); nia.
  - right. repeat split; [| |lia].
    + symmetry. apply (Nat.mod_unique (S k) M (k / M) (S (k mod M))); nia.
    + symmetry. apply (Nat.div_unique (S k) M (k / M) (S (k mod M))); nia.
Qed.

Section Scroll.
Import Render.

Variable s : Display.
Variable m : Z.
Variables c M : nat.

Hypothesis scrolling : scrollback s = true.
Hypothesis steps : scrollSteps s = Z.of_nat M.
Hypothesis steps_range : (1 <= M <= 255)%nat.
Hypothesis digit_range : (1 <= c <= 255)%nat.

Local Abbreviation scrollAt := (scrollSlot m c M).

Lemma scrollAt_current (k : nat) :
  (k < c * M)%nat -> 1 <= current (scrollAt k) <= 255.
Proof.
  intros Hk. cbn [scrollSlot current].
  assert ((k / M < c)%nat) by (apply Nat.Div0.div_lt_upper_bound; lia). lia.
Qed.

Lemma scrollAt_eff (k : nat) :
  (if fstate (scrollAt k) =? 0 then byte (scrollSteps s) else fstate (scrollAt k))
  = Z.of_nat M - Z.of_nat (k mod M).
Proof.
  assert (HM : M <> 0%nat) by lia.
  pose proof (Nat.mod_upper_bound k M HM) as Hr.
  cbn [scrollSlot fstate]. destruct (Nat.eqb_spec (k mod M) 0) as [E|E].
  - rewrite Z.eqb_refl, steps, byte_id, E by lia. lia.
  - destruct (Z.eqb_spec (Z.of_nat M - Z.of_nat (k mod M)) 0); [lia|reflexivity].
Qed.

Lemma scrollAt_override (s' : Display) (k : nat) :
  scrollback s' = scrollback s -> (k < c * M)%nat ->
  coreOverride s' (scrollAt k) = true.
Proof.
  intros Hs Hk. apply coreOverride_true.
  pose proof (scrollAt_current k Hk). cbn [scrollSlot target current] in *.
  repeat split; [congruence|lia].
Qed.

(** One more call on top of [k < c * M] earlier ones. *)
Lemma scroll_call (s' : Display) (k : nat) (loc : Locals) :
  knobs s' = knobs s -> (k < c * M)%nat ->
  nextSlot s' (scrollAt k) = scrollAt (S k)
  /\ digitSwitchTime (snd (coreStep s' (scrollAt k) loc)) = Some DIGIT_DISPLAY_OFF.
Proof.
  intros Hk Hlt.
  destruct (knobs_fields s' s Hk) as (_ & Hsb & _ & _ & Hss & _).
  pose proof (scroll_step_spec s' (scrollAt k) loc (scrollAt_override s' k Hsb Hlt))
    as Hspec.
  cbv zeta in Hspec. rewrite Hss, scrollAt_eff in Hspec.
  destruct Hspec as (Hsw & Hfin & Hcont). split; [|exact Hsw].
  assert (HM : M <> 0%nat) by lia.
  pose proof (Nat.mod_upper_bound k M HM) as Hr.
  pose proof (scrollAt_current k Hlt) as Hcur.
  destruct (succ_div_mod M k HM) as [(Hmod & Hdiv & Hlast)|(Hmod & Hdiv & Hmore)].
  - rewrite Hfin by lia. unfold scrollSlot in *. cbn [target current mode] in *.
    rewrite Hmod, Hdiv. cbn [Nat.eqb]. rewrite byte_id by lia. f_equal. lia.
  - rewrite Hcont by lia. unfold scrollSlot in *. cbn [target current mode] in *.
    rewrite Hmod, Hdiv. cbn [Nat.eqb]. rewrite byte_id by lia. f_equal. lia.
Qed.

Lemma scroll_iter (k : nat) :
  (k <= c * M)%nat -> Nat.iter k (nextSlot s) (mkSlot 0 (Z.of_nat c) m 0) = scrollAt k.
Proof.
  assert (HM : M <> 0%nat) by lia.
  induction k as [|k IH]; intros Hk.
  - unfold scrollSlot. rewrite Nat.Div0.div_0_l, Nat.Div0.mod_0_l. cbn.
    f_equal. lia.
  - rewrite Nat.iter_succ, IH by lia.
    now destruct (scroll_call s k uninitialised eq_refl) as [-> _]; [lia|].
Qed.

End Scroll.

Section ScrollClaim.
Import Render.




End ScrollClaim.

(** ** Renderer: order of the three timing steps *)

Section Timing.
Import Render.

Lemma coreStep_on_off (s : Display) (v : Slot) (loc : Locals) :
  let base := modeTimes s (if blanked s then BLANKED else mode v) loc in
  digitOnTime (snd (coreStep s v loc)) = digitOnTime base
  /\ digitOffTime (snd (coreStep s v loc)) = digitOffTime base.
Proof.
  cbv zeta. unfold coreStep, scrollCore, fadeCore, snapCore.
  set (base := modeTimes s _ loc).
  repeat match goal with
         | |- context [if ?b then _ else _] => destruct b
         end; split; reflexivity.
Qed.

Lemma modeTimes_known (s : Display) (t : Z) (loc : Locals) :
  0 <= t <= 6 ->
  exists on off,
    digitOnTime (modeTimes s t loc) = Some on
    /\ digitOffTime (modeTimes s t loc) = Some off
    /\ (on = DIGIT_DISPLAY_ON \/ on = DIGIT_DISPLAY_NEVER)
    /\ (t = FADE -> on = DIGIT_DISPLAY_ON /\ off = digitOffCount s).
Proof.
  intros Ht.
  assert (Hcases : t = BLANKED \/ t = DIMMED \/ t = FADE \/ t = NORMAL
                   \/ t = BLINK \/ t = SCROLL \/ t = BRIGHT).
  { unfold BLANKED, DIMMED, FADE, NORMAL, BLINK, SCROLL, BRIGHT. lia. }
  destruct Hcases as [->|[->|[->|[->|[->|[->| ->]]]]]]; unfold modeTimes; cbn;
    try destruct (blinkState s); cbn;
    do 2 eexists; (split; [reflexivity|]); (split; [reflexivity|]);
    split; try tauto; try discriminate; try (intros _; split; reflexivity).
Qed.

End Timing.

Section TimingClaim.
Import Render.

(** C8 fails as stated. A [BRIGHT] slot (the calibration pattern) has
    on, off and switch steps 0, 999 and 1000: all finite, and the switch
    step is above the off step. A Fade slot in the dimmest setting with
    200 fade steps has [fadeStep = 0] and on and switch steps both 0. *)
Lemma switch_step_after_off_step :
  timings (allBright powerUp) !! 0%nat
  = Some (mkLocals (Some 0) (Some 999) (Some 1000))
  /\ ~ (1000 <= 999)
  /\ timings dimFade !! 0%nat = Some (mkLocals (Some 0) (Some 100) (Some 0))
  /\ ~ (0 < 0).
Proof.
  split; [vm_compute; reflexivity|]. split; [lia|].
  split; [vm_compute; reflexivity|lia].
Qed.

(** C8, amended. For a slot of a known configured mode the on step is 0
    or the sentinel -1 and the off step is assigned. When the slot is not
    dispatched to the Fade branch, the switch step is [DIGIT_DISPLAY_OFF]
    (Scroll) or [DIGIT_DISPLAY_COUNT] (every snap mode), so on < switch
    holds, but in the snap modes the switch step lies above every off step
    up to [DIGIT_DISPLAY_OFF]. On a continuing step of a fade (countdown
    value between 2 and [fadeSteps]), with [fadeStep] the quotient
    [digitOffCount / fadeSteps] and at least 1, the order
    on < switch <= off holds. *)
Theorem switch_step_order (s : Display) (i : nat) :
  wf s -> (i < 6)%nat -> 0 <= resolveType s i <= 6 ->
  exists t on off,
    timings s !! i = Some t
    /\ digitOnTime t = Some on /\ digitOffTime t = Some off
    /\ (on = DIGIT_DISPLAY_ON \/ on = DIGIT_DISPLAY_NEVER)
    /\ (effectiveType s i <> FADE ->
        exists sw,
          digitSwitchTime t = Some sw /\ on < sw
          /\ (effectiveType s i = SCROLL -> sw = DIGIT_DISPLAY_OFF)
          /\ (effectiveType s i <> SCROLL ->
              sw = DIGIT_DISPLAY_COUNT /\ (off <= DIGIT_DISPLAY_OFF -> off < sw)))
    /\ (effectiveType s i = FADE ->
        forall eff,
          eff = (if negb (rd (NumberArray s) i =? rd (currNumberArray s) i)
                    && (rd (fadeState s) i =? 0)
                 then byte (fadeSteps s) else rd (fadeState s) i) ->
          1 < eff <= fadeSteps s -> fadeSteps s <= 255 ->
          fadeStep s = Z.quot (digitOffCount s) (fadeSteps s) ->
          fadeSteps s <= digitOffCount s <= 32767 ->
          exists sw,
            digitSwitchTime t = Some sw /\ sw = (eff - 1) * fadeStep s
            /\ on < sw <= off).
Proof.
  intros Hwf Hi Hknown.
  set (v := slotAt s i). set (loc := snd (atHead s i)).
  exists (snd (coreStep s v loc)).
  destruct (coreStep_on_off s v loc) as [Hon Hoff]. cbv zeta in Hon, Hoff.
  change (if blanked s then BLANKED else mode v) with (resolveType s i) in Hon, Hoff.
  destruct (modeTimes_known s (resolveType s i) loc Hknown)
    as (on & off & Eon & Eoff & Hon01 & Hfade).
  exists on, off.
  split; [now apply timings_at|].
  split; [congruence|]. split; [congruence|]. split; [exact Hon01|].
  rewrite effectiveType_core. fold v. split.
  - intros Hnf. destruct (Z.eq_dec (coreType s v) SCROLL) as [Hs|Hs].
    + exists DIGIT_DISPLAY_OFF.
      rewrite coreStep_scroll by exact Hs.
      split.
      * unfold scrollCore.
        repeat match goal with
               | |- context [if ?b then _ else _] => destruct b
               end; reflexivity.
      * split; [|split; [reflexivity|contradiction]].
        unfold DIGIT_DISPLAY_ON, DIGIT_DISPLAY_NEVER, DIGIT_DISPLAY_OFF in *. lia.
    + exists DIGIT_DISPLAY_COUNT.
      rewrite coreStep_snap by assumption.
      split; [reflexivity|].
      unfold DIGIT_DISPLAY_ON, DIGIT_DISPLAY_NEVER, DIGIT_DISPLAY_OFF,
        DIGIT_DISPLAY_COUNT in *.
      split; [lia|]. split; [contradiction|]. intros _. split; [reflexivity|lia].
  - intros Hf eff Heff Hrange H255 Hq Hoffc.
    assert (Hres : resolveType s i = FADE).
    { unfold coreType in Hf. destruct (coreOverride s v); [discriminate Hf|exact Hf]. }
    destruct (Hfade Hres) as [-> ->].
    exists ((eff - 1) * fadeStep s).
    rewrite coreStep_fade by exact Hf. unfold fadeCore.
    change (target v) with (rd (NumberArray s) i).
    change (current v) with (rd (currNumberArray s) i).
    change (fstate v) with (rd (fadeState s) i).
    cbv zeta. rewrite <- Heff.
    assert (E1 : (eff =? 1) = false) by (apply Z.eqb_neq; lia).
    assert (E2 : (eff >? 1) = true) by (rewrite Z.gtb_ltb; apply Z.ltb_lt; lia).
    rewrite E1, E2. cbn [snd setSwitch digitSwitchTime].
    assert (Hq1 : 1 <= fadeStep s /\ fadeStep s * fadeSteps s <= digitOffCount s).
    { rewrite Hq, Z.quot_div_nonneg by lia. split.
      - apply Z.div_le_lower_bound; lia.
      - rewrite Z.mul_comm. apply Z.mul_div_le. lia. }
    assert (Hprod : 1 <= (eff - 1) * fadeStep s <= digitOffCount s) by nia.
    rewrite byte_id by lia. unfold int_of_float.
    rewrite int16_id by (unfold in_int16; lia).
    split; [reflexivity|]. split; [reflexivity|].
    unfold DIGIT_DISPLAY_ON. lia.
Qed.

Lemma switch_step_order_witness :
  exists t on off,
    timings (setDimming 999 mixed) !! 2%nat = Some t
    /\ digitOnTime t = Some on /\ digitOffTime t = Some off
    /\ exists sw, digitSwitchTime t = Some sw /\ sw = 931 /\ on < sw <= off.
Proof.
  assert (Hwf : wf (setDimming 999 mixed)) by (repeat split; reflexivity).
  assert (Hi : (2 < 6)%nat) by lia.
  assert (Hk : 0 <= resolveType (setDimming 999 mixed) 2 <= 6) by ground.
  destruct (switch_step_order (setDimming 999 mixed) 2 Hwf Hi Hk)
    as (t & on & off & Ht & Hon & Hoff & _ & _ & Hfade).
  exists t, on, off. split; [exact Ht|]. split; [exact Hon|]. split; [exact Hoff|].
  destruct (Hfade eq_refl 50 eq_refl ltac:(ground) ltac:(ground) eq_refl
              ltac:(ground)) as (sw & Hsw & Hval & Hord).
  exists sw. split; [exact Hsw|]. split; [|exact Hord].
  rewrite Hval. reflexivity.
Defined.

End TimingClaim.

(** ** Calibration, second pass *)

Section Calibration.
Import HVGen.

Lemma incPWMOnTime_value (h : HV) :
  PWM_TOP_MIN <= pwmTop h <= PWM_TOP_MAX ->
  PWM_PULSE_MIN <= pwmOn h <= Z.min PWM_PULSE_MAX (pwmTop h - PWM_OFF_MIN) ->
  pwmOn (incPWMOnTime h)
  = Z.min (pwmOn h + 1) (Z.min PWM_PULSE_MAX (pwmTop h - PWM_OFF_MIN)).
Proof.
  intros Htop Hon. unfold incPWMOnTime.
  unfold PWM_TOP_MIN, PWM_TOP_MAX, PWM_PULSE_MIN, PWM_PULSE_MAX, PWM_OFF_MIN in *.
  rewrite int16_id by (unfold in_int16; lia).
  rewrite setPWMOnTime_value by (unfold in_int16, PWM_OFF_MIN; lia).
  unfold PWM_PULSE_MIN, PWM_PULSE_MAX, PWM_OFF_MIN. lia.
Qed.

Lemma pass2Loop_S (confNum : Z) (readings : nat -> Z) (n : nat) (st : Calib) :
  pass2Loop confNum readings (S n) st
  = pass2Body confNum readings (pass2Loop confNum readings n st) n.
Proof. unfold pass2Loop. now rewrite seq_S, fold_left_app. Qed.

Lemma rem8_zero (n k : nat) :
  (8 * k < n + 8)%nat -> (n <= 8 * k)%nat ->
  (Z.rem (Z.of_nat n) 8 =? 0) = true <-> n = (8 * k)%nat.
Proof.
  intros H1 H2. rewrite Z.eqb_eq, Z.rem_mod_nonneg by lia.
  split; intros H.
  - apply Z.mod_divide in H; [|lia]. destruct H as [q Hq]. lia.
  - subst n. rewrite Nat2Z.inj_mul, Z.mul_comm. apply Z.mod_mul. lia.
Qed.

(** [n] iterations with every reading below the threshold: [incPWMOnTime]
    has been called in the iterations 0, 8, 16, ... below [n], and the
    on-time has gone up by one per call until one of its upper bounds. *)
Lemma pass2Loop_spec (confNum : Z) (readings : nat -> Z) (n : nat)
    (d : Render.Display) (h : HV) :
  PWM_TOP_MIN <= pwmTop h <= PWM_TOP_MAX ->
  PWM_PULSE_MIN <= pwmOn h <= Z.min PWM_PULSE_MAX (pwmTop h - PWM_OFF_MIN) ->
  (forall i, (i < n)%nat -> readings i < rawHVADCThreshold h) ->
  exists d' h' k,
    pass2Loop confNum readings n (d, h, [])
    = (d', h', map (fun j => (8 * j)%nat) (seq 0 k))
    /\ (8 * k < n + 8)%nat /\ (n <= 8 * k)%nat
    /\ pwmTop h' = pwmTop h
    /\ rawHVADCThreshold h' = rawHVADCThreshold h
    /\ pwmOn h'
       = Z.min (pwmOn h + Z.of_nat k) (Z.min PWM_PULSE_MAX (pwmTop h - PWM_OFF_MIN)).
Proof.
  intros Htop Hon. induction n as [|n IH]; intros Hread.
  - exists d, h, 0%nat. cbn. repeat split; try lia.
  - destruct IH as (d' & h' & k & Hloop & Hk1 & Hk2 & Ht & Hthr & Hp);
      [intros i Hi; apply Hread; lia|].
    rewrite pass2Loop_S, Hloop. unfold pass2Body.
    set (d'' := Render.outputDisplay _).
    assert (Hlt : (readings n <? rawHVADCThreshold h') = true).
    { apply Z.ltb_lt. rewrite Hthr. apply Hread. lia. }
    rewrite Hlt.
    destruct (Z.rem (Z.of_nat n) 8 =? 0) eqn:E.
    + apply (rem8_zero n k Hk1 Hk2) in E.
      exists d'', (incPWMOnTime h'), (S k).
      split; [now rewrite seq_S, map_app, E|].
      split; [lia|]. split; [lia|].
      destruct (setPWMOnTime_fields (int16 (pwmOn h' + 1)) h') as [Ht' Hthr'].
      split; [unfold incPWMOnTime; congruence|].
      split; [unfold incPWMOnTime; congruence|].
      rewrite incPWMOnTime_value by (rewrite ?Ht, ?Hp; lia).
      rewrite Ht, Hp. lia.
    + exists d'', h', k.
      assert (n <> (8 * k)%nat).
      { intros Hn. apply (rem8_zero n k Hk1 Hk2) in Hn. congruence. }
      repeat split; try assumption; lia.
Qed.

(** C7. Second calibration pass with every smoothed reading below the
    threshold: [incPWMOnTime] is called in exactly the 96 iterations
    0, 8, ..., 760 of the 768, and the on-time ends at
    [PWM_PULSE_MIN + 96], below [PWM_PULSE_MAX]; entered with any other
    on-time within bounds, the loop ends with it raised by 96 or stopped
    at [PWM_PULSE_MAX] (or at [pwmTop - PWM_OFF_MIN]). The period is not
    changed. *)
Theorem calibration_pass2_raises_on_time (threshold confNum : Z)
    (readings : nat -> Z) (d : Render.Display) (h : HV) :
  PWM_TOP_MIN <= pwmTop h <= PWM_TOP_MAX ->
  (forall i, (i < 768)%nat -> readings i < threshold) ->
  (exists d' h',
     calibratePass2 threshold confNum readings d h
     = (d', h', map (fun j => (8 * j)%nat) (seq 0 96))
     /\ pwmOn h' = Z.min (PWM_PULSE_MIN + 96) PWM_PULSE_MAX
     /\ pwmTop h' = pwmTop h)
  /\ (forall p,
        PWM_PULSE_MIN <= p <= Z.min PWM_PULSE_MAX (pwmTop h - PWM_OFF_MIN) ->
        exists d' h',
          pass2Loop confNum readings 768
            (d, mkHV (pwmTop h) p threshold (ICR1 h) (OCR1A h), [])
          = (d', h', map (fun j => (8 * j)%nat) (seq 0 96))
          /\ pwmOn h'
             = Z.min (p + 96) (Z.min PWM_PULSE_MAX (pwmTop h - PWM_OFF_MIN))).
Proof.
  intros Htop Hread.
  assert (Hgen : forall h0,
            PWM_TOP_MIN <= pwmTop h0 <= PWM_TOP_MAX ->
            PWM_PULSE_MIN <= pwmOn h0
              <= Z.min PWM_PULSE_MAX (pwmTop h0 - PWM_OFF_MIN) ->
            rawHVADCThreshold h0 = threshold ->
            exists d' h',
              pass2Loop confNum readings 768 (d, h0, [])
              = (d', h', map (fun j => (8 * j)%nat) (seq 0 96))
              /\ pwmTop h' = pwmTop h0
              /\ pwmOn h'
                 = Z.min (pwmOn h0 + 96)
                     (Z.min PWM_PULSE_MAX (pwmTop h0 - PWM_OFF_MIN))).
  { intros h0 Ht0 Hp0 Hthr0.
    destruct (pass2Loop_spec confNum readings 768 d h0 Ht0 Hp0)
      as (d' & h' & k & Hloop & Hk1 & Hk2 & Ht & _ & Hp).
    { intros i Hi. rewrite Hthr0. now apply Hread. }
    assert (k = 96%nat) by lia. subst k.
    exists d', h'. split; [exact Hloop|]. split; [exact Ht|]. rewrite Hp. lia. }
  split.
  - unfold calibratePass2.
    set (h0 := setPWMOnTime PWM_PULSE_MIN (setThreshold threshold h)).
    assert (Hon0 : pwmOn h0 = PWM_PULSE_MIN).
    { unfold h0. rewrite setPWMOnTime_value; cbn [setThreshold pwmTop];
        unfold in_int16, PWM_PULSE_MIN, PWM_PULSE_MAX, PWM_OFF_MIN, PWM_TOP_MIN,
          PWM_TOP_MAX in *; lia. }
    destruct (Hgen h0) as (d' & h' & Hloop & Ht & Hp).
    + exact Htop.
    + rewrite Hon0. change (pwmTop h0) with (pwmTop h).
      unfold PWM_PULSE_MIN, PWM_PULSE_MAX, PWM_OFF_MIN, PWM_TOP_MIN,
        PWM_TOP_MAX in *. lia.
    + reflexivity.
    + exists d', h'. split; [exact Hloop|]. split; [|exact Ht].
      rewrite Hp, Hon0. change (pwmTop h0) with (pwmTop h).
      unfold PWM_PULSE_MIN, PWM_PULSE_MAX, PWM_OFF_MIN, PWM_TOP_MIN,
        PWM_TOP_MAX in *. lia.
  - intros p Hp0.
    destruct (Hgen (mkHV (pwmTop h) p threshold (ICR1 h) (OCR1A h)))
      as (d' & h' & Hloop & _ & Hp); try assumption; [reflexivity|].
    exists d', h'. split; [exact Hloop|exact Hp].
Qed.

Lemma calibration_pass2_raises_on_time_witness :
  exists d' h',
    calibratePass2 300 0 (fun _ => 0) Render.powerUp initial
    = (d', h', map (fun j => (8 * j)%nat) (seq 0 96))
    /\ pwmOn h' = 146.
Proof.
  assert (Htop : PWM_TOP_MIN <= pwmTop initial <= PWM_TOP_MAX) by ground.
  assert (Hread : forall i, (i < 768)%nat -> (fun _ : nat => 0) i < 300)
    by (intros i _; reflexivity).
  destruct (calibration_pass2_raises_on_time 300 0 (fun _ => 0) Render.powerUp
              initial Htop Hread) as ((d' & h' & Hrun & Hon & _) & _).
  exists d', h'. split; [exact Hrun|]. rewrite Hon. reflexivity.
Defined.

End Calibration.

(** ** Regulation and calibration runs *)

Section RegulatorRuns.
Import HVGen HVRun.

Lemma valid_no_overflow (h : HV) :
  valid h ->
  in_int16 (pwmOn h) /\ in_int16 (pwmOn h + PWM_OFF_MIN)
  /\ in_int16 (pwmTop h - PWM_OFF_MIN)
  /\ in_int16 (pwmTop h + 1) /\ in_int16 (pwmTop h - 1).
Proof.
  unfold valid, pwmSafe, in_int16, PWM_OFF_MIN, PWM_TOP_MIN, PWM_TOP_MAX,
    PWM_PULSE_MIN, PWM_PULSE_MAX. lia.
Qed.

Lemma setPWMTopTime_valid (x : Z) (h : HV) : valid h -> valid (setPWMTopTime x h).
Proof.
  intros Hv. destruct (valid_no_overflow h Hv) as (Hi & _).
  destruct Hv as [Hs Hp]. split.
  - now apply setPWMTopTime_safe.
  - now destruct (setPWMTopTime_fields x h) as [-> _].
Qed.

Lemma setPWMOnTime_valid (x : Z) (h : HV) :
  PWM_TOP_MIN <= pwmTop h <= PWM_TOP_MAX -> valid (setPWMOnTime x h).
Proof.
  intros Ht. unfold valid, pwmSafe.
  rewrite setPWMOnTime_value
    by (unfold in_int16, PWM_OFF_MIN, PWM_TOP_MIN, PWM_TOP_MAX in *; lia).
  destruct (setPWMOnTime_fields x h) as [-> _].
  unfold PWM_OFF_MIN, PWM_TOP_MIN, PWM_TOP_MAX, PWM_PULSE_MIN, PWM_PULSE_MAX in *.
  lia.
Qed.

Lemma valid_top_range (h : HV) : valid h -> PWM_TOP_MIN <= pwmTop h <= PWM_TOP_MAX.
Proof. intros [[_ Ht] _]. exact Ht. Qed.

Lemma checkHVVoltage_valid (reading : Z) (h : HV) :
  valid h -> valid (checkHVVoltage reading h).
Proof.
  intros Hv. unfold checkHVVoltage.
  destruct (reading >? rawHVADCThreshold h); now apply setPWMTopTime_valid.
Qed.

Lemma checkHVVoltage_fields (reading : Z) (h : HV) :
  pwmOn (checkHVVoltage reading h) = pwmOn h
  /\ rawHVADCThreshold (checkHVVoltage reading h) = rawHVADCThreshold h.
Proof.
  unfold checkHVVoltage.
  destruct (reading >? rawHVADCThreshold h); split; reflexivity.
Qed.

(** One call with the reading not above the threshold. *)
Lemma checkHVVoltage_low (reading : Z) (h : HV) :
  valid h -> reading <= rawHVADCThreshold h ->
  pwmTop (checkHVVoltage reading h)
  = Z.max (pwmTop h - 1) (Z.max PWM_TOP_MIN (pwmOn h + PWM_OFF_MIN)).
Proof.
  intros Hv Hr. destruct (valid_no_overflow h Hv) as (_ & Ho & _ & _ & Hm).
  unfold checkHVVoltage.
  replace (reading >? rawHVADCThreshold h) with false
    by (symmetry; rewrite Z.gtb_ltb; apply Z.ltb_ge; lia).
  rewrite (int16_id _ Hm), (setPWMTopTime_value _ _ Ho).
  destruct Hv as [[Hs Ht] Hp].
  unfold PWM_OFF_MIN, PWM_TOP_MIN, PWM_TOP_MAX, PWM_PULSE_MIN, PWM_PULSE_MAX in *.
  lia.
Qed.

(** One call with the reading above the threshold. *)
Lemma checkHVVoltage_high (reading : Z) (h : HV) :
  valid h -> rawHVADCThreshold h < reading ->
  pwmTop (checkHVVoltage reading h) = Z.min (pwmTop h + 1) PWM_TOP_MAX.
Proof.
  intros Hv Hr. destruct (valid_no_overflow h Hv) as (_ & Ho & _ & Hp1 & _).
  unfold checkHVVoltage.
  replace (reading >? rawHVADCThreshold h) with true
    by (symmetry; rewrite Z.gtb_ltb; apply Z.ltb_lt; lia).
  rewrite (int16_id _ Hp1), (setPWMTopTime_value _ _ Ho).
  destruct Hv as [[Hs Ht] Hp].
  unfold PWM_OFF_MIN, PWM_TOP_MIN, PWM_TOP_MAX, PWM_PULSE_MIN, PWM_PULSE_MAX in *.
  lia.
Qed.

Lemma regulate_S (readings : nat -> Z) (n : nat) (h : HV) :
  regulate readings (S n) h
  = checkHVVoltage (readings n) (regulate readings n h).
Proof. unfold regulate. now rewrite seq_S, fold_left_app. Qed.

Lemma regulate_keeps (readings : nat -> Z) (n : nat) (h : HV) :
  valid h ->
  valid (regulate readings n h)
  /\ pwmOn (regulate readings n h) = pwmOn h
  /\ rawHVADCThreshold (regulate readings n h) = rawHVADCThreshold h.
Proof.
  intros Hv. induction n as [|n (IHv & IHo & IHt)];
    [split; [exact Hv|split; reflexivity]|].
  rewrite regulate_S.
  destruct (checkHVVoltage_fields (readings n) (regulate readings n h)) as [-> ->].
  split; [now apply checkHVVoltage_valid|]. now split.
Qed.

Lemma regulate_low (readings : nat -> Z) (n : nat) (h : HV) :
  valid h ->
  (forall i, (i < n)%nat -> readings i <= rawHVADCThreshold h) ->
  pwmTop (regulate readings n h)
  = Z.max (pwmTop h - Z.of_nat n) (Z.max PWM_TOP_MIN (pwmOn h + PWM_OFF_MIN)).
Proof.
  intros Hv. induction n as [|n IH]; intros Hr.
  - cbn. destruct Hv as [[Hs Ht] Hp]. lia.
  - destruct (regulate_keeps readings n h Hv) as (Hv' & Ho & Hthr).
    rewrite regulate_S, checkHVVoltage_low, Ho, IH; auto.
    + lia.
    + rewrite Hthr. apply Hr. lia.
Qed.

(** The regulator's part of the first and fourth calibration loops. *)
Lemma topLoop_snd (readings : nat -> Z) (n : nat) (d : Render.Display) (h : HV) :
  snd (topLoop readings n (d, h)) = regulate readings n h.
Proof.
  induction n as [|n IH]; [reflexivity|].
  unfold topLoop in *. rewrite seq_S, fold_left_app, regulate_S, <- IH.
  cbn [fold_left]. destruct (fold_left _ _ _) as [d' h']. reflexivity.
Qed.

Lemma pass3Loop_S (confNum : Z) (readings : nat -> Z) (n : nat)
    (st : Render.Display * HV) :
  pass3Loop confNum readings (S n) st
  = pass3Body confNum readings (pass3Loop confNum readings n st) n.
Proof. unfold pass3Loop. now rewrite seq_S, fold_left_app. Qed.

Lemma decPWMOnTime_valid (h : HV) : valid h -> valid (decPWMOnTime h).
Proof. intros Hv. apply setPWMOnTime_valid. now apply valid_top_range. Qed.

Lemma incPWMOnTime_valid (h : HV) : valid h -> valid (incPWMOnTime h).
Proof. intros Hv. apply setPWMOnTime_valid. now apply valid_top_range. Qed.

Lemma pass3Loop_valid (confNum : Z) (readings : nat -> Z) (n : nat)
    (d : Render.Display) (h : HV) :
  valid h -> valid (snd (pass3Loop confNum readings n (d, h))).
Proof.
  intros Hv. induction n as [|n IH]; [exact Hv|].
  rewrite pass3Loop_S. destruct (pass3Loop confNum readings n (d, h)) as [d' h'].
  unfold pass3Body. cbn [snd] in *.
  destruct (readings n >? rawHVADCThreshold h'); [|exact IH].
  destruct (Z.rem (Z.of_nat n) 8 =? 0); [|exact IH].
  now apply decPWMOnTime_valid.
Qed.

Lemma pass2Loop_valid (confNum : Z) (readings : nat -> Z) (n : nat)
    (d : Render.Display) (h : HV) (calls : list nat) :
  valid h -> valid (snd (fst (pass2Loop confNum readings n (d, h, calls)))).
Proof.
  intros Hv. induction n as [|n IH]; [exact Hv|].
  rewrite pass2Loop_S.
  destruct (pass2Loop confNum readings n (d, h, calls)) as [[d' h'] c'].
  unfold pass2Body. cbn [fst snd] in *.
  destruct (readings n <? rawHVADCThreshold h'); [|exact IH].
  destruct (Z.rem (Z.of_nat n) 8 =? 0); [|exact IH].
  now apply incPWMOnTime_valid.
Qed.

(** The third loop leaves the generator alone while no reading is above
    the threshold. *)
Lemma pass3Loop_idle (confNum : Z) (readings : nat -> Z) (n : nat)
    (d : Render.Display) (h : HV) :
  (forall i, (i < n)%nat -> readings i <= rawHVADCThreshold h) ->
  snd (pass3Loop confNum readings n (d, h)) = h.
Proof.
  induction n as [|n IH]; intros Hr; [reflexivity|].
  rewrite pass3Loop_S.
  destruct (pass3Loop confNum readings n (d, h)) as [d' h'].
  cbn [snd] in IH. rewrite IH in * by (intros i Hi; apply Hr; lia).
  unfold pass3Body.
  replace (readings n >? rawHVADCThreshold h) with false; [reflexivity|].
  symmetry. rewrite Z.gtb_ltb. apply Z.ltb_ge. apply Hr. lia.
Qed.

(** X1. While the sensor reading stays at or below the threshold, every
    call of [checkHVVoltage] shortens the period by one until it reaches
    its floor, the larger of [PWM_TOP_MIN] and [pwmOn + PWM_OFF_MIN], and
    then leaves it there; the on-time and the threshold never change. *)
Theorem regulator_settles_at_floor (readings : nat -> Z) (n : nat) (h : HV) :
  valid h ->
  (forall i, (i < n)%nat -> readings i <= rawHVADCThreshold h) ->
  pwmTop (regulate readings n h)
  = Z.max (pwmTop h - Z.of_nat n) (Z.max PWM_TOP_MIN (pwmOn h + PWM_OFF_MIN))
  /\ pwmOn (regulate readings n h) = pwmOn h
  /\ rawHVADCThreshold (regulate readings n h) = rawHVADCThreshold h.
Proof.
  intros Hv Hr. split; [now apply regulate_low|].
  now destruct (regulate_keeps readings n h Hv) as (_ & Ho & Ht).
Qed.

Lemma regulator_settles_at_floor_witness :
  pwmTop (regulate (fun _ => 0) 1000 (setThreshold 400 initial)) = 300.
Proof.
  assert (Hv : valid (setThreshold 400 initial)) by ground.
  assert (Hr : forall i, (i < 1000)%nat ->
             (fun _ : nat => 0) i <= rawHVADCThreshold (setThreshold 400 initial))
    by (intros i _; ground).
  exact (proj1 (regulator_settles_at_floor (fun _ => 0) 1000
                  (setThreshold 400 initial) Hv Hr)).
Defined.

(** X2. While the sensor reading stays above the threshold, every call of
    [checkHVVoltage] lengthens the period by one until [PWM_TOP_MAX], and
    then leaves it there. *)
Theorem regulator_settles_at_ceiling (readings : nat -> Z) (n : nat) (h : HV) :
  valid h ->
  (forall i, (i < n)%nat -> rawHVADCThreshold h < readings i) ->
  pwmTop (regulate readings n h) = Z.min (pwmTop h + Z.of_nat n) PWM_TOP_MAX.
Proof.
  intros Hv. induction n as [|n IH]; intros Hr.
  - cbn. destruct Hv as [[Hs Ht] Hp]. lia.
  - destruct (regulate_keeps readings n h Hv) as (Hv' & Ho & Hthr).
    rewrite regulate_S, checkHVVoltage_high, IH; auto.
    + lia.
    + rewrite Hthr. apply Hr. lia.
Qed.

Lemma regulator_settles_at_ceiling_witness :
  pwmTop (regulate (fun _ => 1023) 768 (setThreshold 400 initial)) = 1768.
Proof.
  assert (Hv : valid (setThreshold 400 initial)) by ground.
  assert (Hr : forall i, (i < 768)%nat ->
             rawHVADCThreshold (setThreshold 400 initial) < (fun _ : nat => 1023) i)
    by (intros i _; ground).
  exact (regulator_settles_at_ceiling (fun _ => 1023) 768
           (setThreshold 400 initial) Hv Hr).
Defined.

(** X3. Whatever the sensor reads during the four loops, [calibrateHVG]
    started with a period inside its limits ends with the period and the
    on-time inside their limits and at least [PWM_OFF_MIN] apart. *)
Theorem calibrateHVG_ends_valid (thresholdOver threshold confNum : Z)
    (r1 r2 r3 r4 : nat -> Z) (d : Render.Display) (h : HV) :
  PWM_TOP_MIN <= pwmTop h <= PWM_TOP_MAX ->
  valid (snd (calibrateHVG thresholdOver threshold confNum r1 r2 r3 r4 (d, h))).
Proof.
  intros Ht. unfold calibrateHVG.
  set (h1 := setPWMOnTime PWM_PULSE_DEFAULT (setThreshold thresholdOver h)).
  assert (Hv1 : valid h1) by (apply setPWMOnTime_valid; exact Ht).
  pose proof (topLoop_snd r1 768 d h1) as E1.
  destruct (topLoop r1 768 (d, h1)) as [d2 h2]. cbn [snd] in E1.
  assert (Hv2 : valid h2)
    by (rewrite E1; apply (regulate_keeps r1 768 h1 Hv1)).
  unfold calibratePass2.
  set (h2' := setPWMOnTime PWM_PULSE_MIN (setThreshold threshold h2)).
  assert (Hv2' : valid h2')
    by (apply setPWMOnTime_valid; apply (valid_top_range h2 Hv2)).
  pose proof (pass2Loop_valid confNum r2 768 d2 h2' [] Hv2') as Hv3.
  destruct (pass2Loop confNum r2 768 (d2, h2', [])) as [[d3 h3] c3].
  cbn [fst snd] in Hv3.
  set (h3' := setPWMOnTime (int16 (pwmOn h3 + 50)) h3).
  assert (Hv3' : valid h3')
    by (apply setPWMOnTime_valid; apply (valid_top_range h3 Hv3)).
  pose proof (pass3Loop_valid confNum r3 768 d3 h3' Hv3') as Hv4.
  destruct (pass3Loop confNum r3 768 (d3, h3')) as [d4 h4]. cbn [snd] in Hv4.
  rewrite topLoop_snd. apply regulate_keeps.
  apply setPWMOnTime_valid. apply (valid_top_range h4 Hv4).
Qed.

Lemma calibrateHVG_ends_valid_witness :
  valid (snd (calibrateHVG 445 433 19 (fun _ => 500) (fun i => Z.of_nat i)
                (fun _ => 0) (fun _ => 420) (Render.powerUp, initial))).
Proof.
  apply calibrateHVG_ends_valid. ground.
Defined.

(** X4. A sensor that never reaches the target (every reading of the
    first, third and fourth loop at or below its threshold, every reading
    of the second below it) makes [calibrateHVG] end with the on-time 171
    and with the period 1536 shorter than it was, or at [PWM_TOP_MIN]. *)
Theorem calibrateHVG_starved (thresholdOver threshold confNum : Z)
    (r1 r2 r3 r4 : nat -> Z) (d : Render.Display) (h : HV) :
  PWM_TOP_MIN <= pwmTop h <= PWM_TOP_MAX ->
  (forall i, (i < 768)%nat -> r1 i <= thresholdOver) ->
  (forall i, (i < 768)%nat -> r2 i < threshold) ->
  (forall i, (i < 768)%nat -> r3 i <= threshold) ->
  (forall i, (i < 768)%nat -> r4 i <= thresholdOver) ->
  let h' := snd (calibrateHVG thresholdOver threshold confNum r1 r2 r3 r4 (d, h)) in
  pwmOn h' = 171
  /\ pwmTop h' = Z.max (pwmTop h - 1536) PWM_TOP_MIN
  /\ rawHVADCThreshold h' = thresholdOver.
Proof.
  intros Ht H1 H2 H3 H4. cbv zeta. unfold calibrateHVG.
  set (h1 := setPWMOnTime PWM_PULSE_DEFAULT (setThreshold thresholdOver h)).
  assert (Hv1 : valid h1) by (apply setPWMOnTime_valid; exact Ht).
  assert (Ho1 : pwmOn h1 = 200).
  { unfold h1. rewrite setPWMOnTime_value; cbn [setThreshold pwmTop];
      unfold in_int16, PWM_PULSE_DEFAULT, PWM_PULSE_MIN, PWM_PULSE_MAX,
        PWM_OFF_MIN, PWM_TOP_MIN, PWM_TOP_MAX in *; lia. }
  pose proof (topLoop_snd r1 768 d h1) as E1.
  destruct (topLoop r1 768 (d, h1)) as [d2 h2]. cbn [snd] in E1.
  destruct (regulate_keeps r1 768 h1 Hv1) as (Hv2 & Ho2 & _).
  pose proof (regulate_low r1 768 h1 Hv1 H1) as Ht2.
  rewrite <- E1 in Hv2, Ho2, Ht2.
  change (pwmTop h1) with (pwmTop h) in Ht2. rewrite Ho1 in Ht2.
  unfold calibratePass2.
  set (h2' := setPWMOnTime PWM_PULSE_MIN (setThreshold threshold h2)).
  assert (Ht2' : pwmTop h2' = pwmTop h2) by reflexivity.
  assert (Ho2' : pwmOn h2' = 50).
  { unfold h2'. rewrite setPWMOnTime_value; cbn [setThreshold pwmTop];
      unfold in_int16, PWM_PULSE_MIN, PWM_PULSE_MAX, PWM_OFF_MIN, PWM_TOP_MIN,
        PWM_TOP_MAX in *; lia. }
  destruct (pass2Loop_spec confNum r2 768 d2 h2')
    as (d3 & h3 & k & -> & Hk1 & Hk2 & Ht3 & Hthr3 & Ho3).
  { rewrite Ht2'.
    unfold PWM_OFF_MIN, PWM_TOP_MIN, PWM_TOP_MAX in *. lia. }
  { rewrite Ho2', Ht2'.
    unfold PWM_PULSE_MIN, PWM_PULSE_MAX, PWM_OFF_MIN, PWM_TOP_MIN, PWM_TOP_MAX in *.
    lia. }
  { exact H2. }
  assert (k = 96%nat) by lia. subst k.
  assert (Ho3' : pwmOn h3 = 146).
  { rewrite Ho3, Ho2', Ht2'.
    unfold PWM_PULSE_MAX, PWM_OFF_MIN, PWM_TOP_MIN, PWM_TOP_MAX in *. lia. }
  rewrite Ht2' in Ht3.
  set (h3' := setPWMOnTime (int16 (pwmOn h3 + 50)) h3).
  assert (Ho4 : pwmOn h3' = 196).
  { unfold h3'. rewrite Ho3'. rewrite setPWMOnTime_value; rewrite Ht3;
      unfold in_int16, PWM_PULSE_MIN, PWM_PULSE_MAX, PWM_OFF_MIN, PWM_TOP_MIN,
        PWM_TOP_MAX in *; [|lia].
    change (int16 (146 + 50)) with 196. lia. }
  pose proof (pass3Loop_idle confNum r3 768 d3 h3') as E4.
  destruct (pass3Loop confNum r3 768 (d3, h3')) as [d4 h4]. cbn [snd] in E4.
  rewrite E4 by (intros i Hi; change (rawHVADCThreshold h3')
                   with (rawHVADCThreshold h3); rewrite Hthr3; now apply H3).
  rewrite Ho3', Ho4. change (Z.quot (int16 (146 + 196)) 2) with 171.
  set (h5 := setThreshold thresholdOver (setPWMOnTime 171 h3')).
  assert (Ht5 : pwmTop h5 = pwmTop h2) by (unfold h5, h3'; cbn; exact Ht3).
  assert (Hv5 : valid h5).
  { apply setPWMOnTime_valid. change (pwmTop h3') with (pwmTop h3).
    rewrite Ht3. apply (valid_top_range h2 Hv2). }
  assert (Ho5 : pwmOn h5 = 171).
  { unfold h5. cbn [setThreshold pwmOn].
    rewrite setPWMOnTime_value; change (pwmTop h3') with (pwmTop h3);
      rewrite Ht3; unfold in_int16, PWM_PULSE_MIN, PWM_PULSE_MAX, PWM_OFF_MIN,
        PWM_TOP_MIN, PWM_TOP_MAX in *; lia. }
  rewrite topLoop_snd.
  destruct (regulate_keeps r4 768 h5 Hv5) as (_ & -> & ->).
  rewrite (regulate_low r4 768 h5 Hv5 H4), Ho5, Ht5, Ht2.
  repeat split; try assumption.
  unfold PWM_OFF_MIN, PWM_TOP_MIN in *. lia.
Qed.

Lemma calibrateHVG_starved_witness :
  pwmOn (snd (calibrateHVG 445 433 19 (fun _ => 0) (fun _ => 0) (fun _ => 0)
                (fun _ => 0) (Render.powerUp, initial))) = 171.
Proof.
  assert (Ht : PWM_TOP_MIN <= pwmTop initial <= PWM_TOP_MAX) by ground.
  assert (H1 : forall i, (i < 768)%nat -> (fun _ : nat => 0) i <= 445)
    by (intros i _; ground).
  assert (H2 : forall i, (i < 768)%nat -> (fun _ : nat => 0) i < 433)
    by (intros i _; ground).
  assert (H3 : forall i, (i < 768)%nat -> (fun _ : nat => 0) i <= 433)
    by (intros i _; ground).
  exact (proj1 (calibrateHVG_starved 445 433 19 (fun _ => 0) (fun _ => 0)
                  (fun _ => 0) (fun _ => 0) Render.powerUp initial Ht H1 H2 H3 H1)).
Defined.

End RegulatorRuns.

(** ** Configuration *)

Section Configuration.
Import Config.

Lemma checked_range (lo hi dflt v : Z) :
  lo <= dflt <= hi -> lo <= checked lo hi dflt v <= hi.
Proof. intros Hd. unfold checked. zcases; cbn; lia. Qed.

Lemma checked_id (lo hi dflt v : Z) :
  lo <= v <= hi -> checked lo hi dflt v = v.
Proof. intros Hv. unfold checked. zcases; cbn; lia. Qed.

Lemma byte_byte (z : Z) : byte (byte z) = byte z.
Proof. unfold byte. apply Z.mod_mod. lia. Qed.

Lemma byteBool_boolByte (b : bool) : byteBool (byte (boolByte b)) = b.
Proof. now destruct b. Qed.

Lemma word_split (v : Z) :
  0 <= v <= 32767 -> word (byte (Z.quot v 256)) (byte (Z.rem v 256)) = v.
Proof.
  intros Hv. unfold word, byte.
  rewrite Z.rem_mod_nonneg, Z.quot_div_nonneg by lia.
  rewrite (Z.mod_small (v / 256)) by (split; [apply Z.div_pos; lia|
    apply Z.div_lt_upper_bound; lia]).
  rewrite Z.mod_mod by lia.
  rewrite Z.mul_comm, <- Z.div_mod by lia.
  apply int16_id. unfold in_int16. lia.
Qed.

Lemma pwm_read_range (a b c d : Z) (h : HVGen.HV) :
  pwmInRange (HVGen.readEEPROMValues a b c d h).
Proof.
  unfold pwmInRange, HVGen.readEEPROMValues. cbn [HVGen.pwmTop HVGen.pwmOn].
  unfold PWM_TOP_MIN, PWM_TOP_MAX, PWM_TOP_DEFAULT, PWM_PULSE_MIN, PWM_PULSE_MAX,
    PWM_PULSE_DEFAULT.
  generalize (int16 (byte a * 256 + byte b)), (int16 (byte c * 256 + byte d)).
  intros on top. zcases; cbn; lia.
Qed.

Lemma byte_eeRead (addr : Z) (e : EEPROM) : byte (eeRead addr e) = eeRead addr e.
Proof. unfold eeRead, byte. apply Z.mod_mod. lia. Qed.

Lemma checked_storedOr (lo hi dflt v : Z) :
  storedOr lo hi dflt v (checked lo hi dflt v).
Proof. unfold storedOr, checked. zcases; cbn; split; intros; lia. Qed.

(** X5. Whatever the EEPROM holds, [readEEPROMValues] gives every
    range-checked setting the stored value when that is inside the range
    it checks and the default when it is not, so that every setting ends
    inside its range; the flags are set when their byte is not zero. The
    two PWM settings are rebuilt from two bytes each and treated the same
    way, and the calibration flag is written, and nothing else, exactly
    when one of them was replaced. *)
Theorem readEEPROMValues_in_range (t : Clock.DateTime) (h : HVGen.HV) (e : EEPROM) :
  let c := fst (fst (fst (readEEPROMValues t h e))) in
  let t' := snd (fst (fst (readEEPROMValues t h e))) in
  let h' := snd (fst (readEEPROMValues t h e)) in
  let e' := snd (readEEPROMValues t h e) in
  let storedOn := word (eeRead EE_PULSE_HI e) (eeRead EE_PULSE_LO e) in
  let storedTop := word (eeRead EE_PWM_TOP_HI e) (eeRead EE_PWM_TOP_LO e) in
  (inRange c /\ pwmInRange h')
  /\ (storedOr FADE_STEPS_MIN FADE_STEPS_MAX FADE_STEPS_DEFAULT
        (eeRead EE_FADE_STEPS e) (fadeSteps c)
      /\ storedOr DATE_FORMAT_MIN DATE_FORMAT_MAX DATE_FORMAT_DEFAULT
           (eeRead EE_DATE_FORMAT e) (dateFormat c)
      /\ storedOr DAY_BLANKING_MIN DAY_BLANKING_MAX DAY_BLANKING_DEFAULT
           (eeRead EE_DAY_BLANKING e) (dayBlanking c)
      /\ storedOr SENSOR_LOW_MIN SENSOR_LOW_MAX SENSOR_LOW_DEFAULT
           (word (eeRead EE_DIM_DARK_HI e) (eeRead EE_DIM_DARK_LO e)) (dimDark c)
      /\ storedOr SCROLL_STEPS_MIN SCROLL_STEPS_MAX SCROLL_STEPS_DEFAULT
           (eeRead EE_SCROLL_STEPS e) (scrollSteps c)
      /\ storedOr SENSOR_HIGH_MIN SENSOR_HIGH_MAX SENSOR_HIGH_DEFAULT
           (word (eeRead EE_DIM_BRIGHT_HI e) (eeRead EE_DIM_BRIGHT_LO e))
           (dimBright c)
      /\ storedOr SENSOR_SMOOTH_READINGS_MIN SENSOR_SMOOTH_READINGS_MAX
           SENSOR_SMOOTH_READINGS_DEFAULT (eeRead EE_DIM_SMOOTH_SPEED e)
           (sensorSmoothCountLDR c)
      /\ storedOr BACKLIGHT_MIN BACKLIGHT_MAX BACKLIGHT_DEFAULT
           (eeRead EE_BACKLIGHT_MODE e) (backlightMode c)
      /\ storedOr COLOUR_CNL_MIN COLOUR_CNL_MAX COLOUR_RED_CNL_DEFAULT
           (eeRead EE_RED_INTENSITY e) (redCnl c)
      /\ storedOr COLOUR_CNL_MIN COLOUR_CNL_MAX COLOUR_GRN_CNL_DEFAULT
           (eeRead EE_GRN_INTENSITY e) (grnCnl c)
      /\ storedOr COLOUR_CNL_MIN COLOUR_CNL_MAX COLOUR_BLU_CNL_DEFAULT
           (eeRead EE_BLU_INTENSITY e) (bluCnl c)
      /\ storedOr HVGEN_TARGET_VOLTAGE_MIN HVGEN_TARGET_VOLTAGE_MAX
           HVGEN_TARGET_VOLTAGE_DEFAULT (eeRead EE_HV_VOLTAGE e)
           (hvTargetVoltage c)
      /\ storedOr 0 HOURS_MAX 0 (eeRead EE_HOUR_BLANK_START e) (blankHourStart c)
      /\ storedOr 0 HOURS_MAX 7 (eeRead EE_HOUR_BLANK_END e) (blankHourEnd c)
      /\ storedOr CYCLE_SPEED_MIN CYCLE_SPEED_MAX CYCLE_SPEED_DEFAULT
           (eeRead EE_CYCLE_SPEED e) (cycleSpeed c))
  /\ (Clock.hourMode t' = negb (eeRead EE_12_24 e =? 0)
      /\ blankLeading c = negb (eeRead EE_BLANK_LEAD_ZERO e =? 0)
      /\ scrollback c = negb (eeRead EE_SCROLLBACK e =? 0)
      /\ suppressACP c = negb (eeRead EE_SUPPRESS_ACP e =? 0))
  /\ (storedOr PWM_PULSE_MIN PWM_PULSE_MAX PWM_PULSE_DEFAULT storedOn
        (HVGen.pwmOn h')
      /\ storedOr PWM_TOP_MIN PWM_TOP_MAX PWM_TOP_DEFAULT storedTop
           (HVGen.pwmTop h'))
  /\ (PWM_PULSE_MIN <= storedOn <= PWM_PULSE_MAX ->
      PWM_TOP_MIN <= storedTop <= PWM_TOP_MAX -> e' = e)
  /\ (~ (PWM_PULSE_MIN <= storedOn <= PWM_PULSE_MAX
         /\ PWM_TOP_MIN <= storedTop <= PWM_TOP_MAX) ->
      forall a, e' a = eeWrite EE_HVG_NEED_CALIB 1 e a).
Proof.
  cbv zeta. unfold readEEPROMValues. cbn [fst snd].
  split; [split|].
  - unfold inRange.
    cbn [fadeSteps dateFormat dayBlanking dimDark scrollSteps dimBright
         sensorSmoothCountLDR backlightMode redCnl grnCnl bluCnl hvTargetVoltage
         blankHourStart blankHourEnd cycleSpeed].
    repeat split; apply checked_range; ground.
  - apply pwm_read_range.
  - split.
    { cbn [fadeSteps dateFormat dayBlanking dimDark scrollSteps dimBright
           sensorSmoothCountLDR backlightMode redCnl grnCnl bluCnl hvTargetVoltage
           blankHourStart blankHourEnd cycleSpeed].
      repeat (split; [apply checked_storedOr|]). apply checked_storedOr. }
    split; [now repeat split|].
    unfold HVGen.readEEPROMValues, storedOr, word.
    cbn [HVGen.pwmOn HVGen.pwmTop].
    rewrite !byte_eeRead.
    generalize (int16 (eeRead EE_PULSE_HI e * 256 + eeRead EE_PULSE_LO e)),
      (int16 (eeRead EE_PWM_TOP_HI e * 256 + eeRead EE_PWM_TOP_LO e)).
    intros on top.
    unfold PWM_PULSE_MIN, PWM_PULSE_MAX, PWM_PULSE_DEFAULT, PWM_TOP_MIN,
      PWM_TOP_MAX, PWM_TOP_DEFAULT, eeWrite.
    rewrite !Z.gtb_ltb.
    destruct (Z.ltb_spec on 50); destruct (Z.ltb_spec 500 on);
      destruct (Z.ltb_spec top 300); destruct (Z.ltb_spec 10000 top);
      cbn [orb]; repeat split; intros; try lia; try reflexivity;
      now destruct (_ =? _).
Qed.

Lemma hv_read_back (h h0 : HVGen.HV) :
  pwmInRange h ->
  HVGen.readEEPROMValues (byte (Z.quot (HVGen.pwmOn h) 256))
    (byte (Z.rem (HVGen.pwmOn h) 256)) (byte (Z.quot (HVGen.pwmTop h) 256))
    (byte (Z.rem (HVGen.pwmTop h) 256)) h0
  = HVGen.mkHV (HVGen.pwmTop h) (HVGen.pwmOn h) (HVGen.rawHVADCThreshold h0)
      (HVGen.ICR1 h0) (HVGen.OCR1A h0).
Proof.
  intros [Ht Ho]. unfold HVGen.readEEPROMValues.
  unfold PWM_TOP_MIN, PWM_TOP_MAX, PWM_PULSE_MIN, PWM_PULSE_MAX in *.
  rewrite !byte_byte.
  pose proof (word_split (HVGen.pwmOn h)) as Eo.
  pose proof (word_split (HVGen.pwmTop h)) as Et.
  unfold word in Eo, Et. rewrite Eo, Et by lia.
  replace ((HVGen.pwmOn h <? 50) || (HVGen.pwmOn h >? 500)) with false
    by (symmetry; zcases; cbn; lia).
  replace ((HVGen.pwmTop h <? 300) || (HVGen.pwmTop h >? 10000)) with false
    by (symmetry; zcases; cbn; lia).
  reflexivity.
Qed.

(** X6. Settings that are inside their ranges survive a save and a read
    unchanged: [readEEPROMValues] after [saveEEPROMValues] returns every
    setting, the hour mode and both PWM settings as they were saved, and
    does not raise the calibration flag. *)
Theorem save_then_read_restores (c : Settings) (t t0 : Clock.DateTime)
    (h h0 : HVGen.HV) (e : EEPROM) :
  inRange c -> pwmInRange h ->
  readEEPROMValues t0 h0 (saveEEPROMValues (c, t, h) e)
  = ((c, Clock.setHourMode (Clock.hourMode t) t0,
      HVGen.mkHV (HVGen.pwmTop h) (HVGen.pwmOn h) (HVGen.rawHVADCThreshold h0)
        (HVGen.ICR1 h0) (HVGen.OCR1A h0)),
     saveEEPROMValues (c, t, h) e).
Proof.
  intros Hc Hh. pose proof Hh as [Ht Ho].
  unfold readEEPROMValues.
  set (e' := saveEEPROMValues (c, t, h) e).
  assert (E1 : eeRead EE_12_24 e' = byte (byte (boolByte (Clock.hourMode t))))
    by reflexivity.
  assert (E2 : eeRead EE_FADE_STEPS e' = byte (byte (fadeSteps c))) by reflexivity.
  assert (E3 : eeRead EE_DATE_FORMAT e' = byte (byte (dateFormat c))) by reflexivity.
  assert (E4 : eeRead EE_DAY_BLANKING e' = byte (byte (dayBlanking c))) by reflexivity.
  assert (E5 : eeRead EE_DIM_DARK_LO e' = byte (byte (Z.rem (dimDark c) 256)))
    by reflexivity.
  assert (E6 : eeRead EE_DIM_DARK_HI e' = byte (byte (Z.quot (dimDark c) 256)))
    by reflexivity.
  assert (E7 : eeRead EE_BLANK_LEAD_ZERO e' = byte (byte (boolByte (blankLeading c))))
    by reflexivity.
  assert (E8 : eeRead EE_SCROLLBACK e' = byte (byte (boolByte (scrollback c))))
    by reflexivity.
  assert (E9 : eeRead EE_SCROLL_STEPS e' = byte (byte (scrollSteps c))) by reflexivity.
  assert (E10 : eeRead EE_DIM_BRIGHT_LO e' = byte (byte (Z.rem (dimBright c) 256)))
    by reflexivity.
  assert (E11 : eeRead EE_DIM_BRIGHT_HI e' = byte (byte (Z.quot (dimBright c) 256)))
    by reflexivity.
  assert (E12 : eeRead EE_DIM_SMOOTH_SPEED e' = byte (byte (sensorSmoothCountLDR c)))
    by reflexivity.
  assert (E13 : eeRead EE_RED_INTENSITY e' = byte (byte (redCnl c))) by reflexivity.
  assert (E14 : eeRead EE_GRN_INTENSITY e' = byte (byte (grnCnl c))) by reflexivity.
  assert (E15 : eeRead EE_BLU_INTENSITY e' = byte (byte (bluCnl c))) by reflexivity.
  assert (E16 : eeRead EE_BACKLIGHT_MODE e' = byte (byte (backlightMode c)))
    by reflexivity.
  assert (E17 : eeRead EE_HV_VOLTAGE e' = byte (byte (hvTargetVoltage c))) by reflexivity.
  assert (E18 : eeRead EE_SUPPRESS_ACP e' = byte (byte (boolByte (suppressACP c))))
    by reflexivity.
  assert (E19 : eeRead EE_HOUR_BLANK_START e' = byte (byte (blankHourStart c)))
    by reflexivity.
  assert (E20 : eeRead EE_HOUR_BLANK_END e' = byte (byte (blankHourEnd c)))
    by reflexivity.
  assert (E21 : eeRead EE_CYCLE_SPEED e' = byte (byte (cycleSpeed c))) by reflexivity.
  assert (E22 : eeRead EE_PULSE_LO e' = byte (byte (Z.rem (HVGen.pwmOn h) 256)))
    by reflexivity.
  assert (E23 : eeRead EE_PULSE_HI e' = byte (byte (Z.quot (HVGen.pwmOn h) 256)))
    by reflexivity.
  assert (E24 : eeRead EE_PWM_TOP_LO e' = byte (byte (Z.rem (HVGen.pwmTop h) 256)))
    by reflexivity.
  assert (E25 : eeRead EE_PWM_TOP_HI e' = byte (byte (Z.quot (HVGen.pwmTop h) 256)))
    by reflexivity.
  rewrite E1, E2, E3, E4, E5, E6, E7, E8, E9, E10, E11, E12, E13, E14, E15, E16,
    E17, E18, E19, E20, E21, E22, E23, E24, E25.
  clearbody e'. clear E1 E2 E3 E4 E5 E6 E7 E8 E9 E10 E11 E12 E13 E14 E15 E16
    E17 E18 E19 E20 E21 E22 E23 E24 E25.
  rewrite !byte_byte.
  rewrite (hv_read_back h h0 Hh), !byteBool_boolByte.
  destruct Hc as (H1 & H2 & H3 & H4 & H5 & H6 & H7 & H8 & H9 & H10 & H11 & H12
                  & H13 & H14 & H15).
  unfold FADE_STEPS_MIN, FADE_STEPS_MAX, DATE_FORMAT_MIN, DATE_FORMAT_MAX,
    DAY_BLANKING_MIN, DAY_BLANKING_MAX, SENSOR_LOW_MIN, SENSOR_LOW_MAX,
    SCROLL_STEPS_MIN, SCROLL_STEPS_MAX, SENSOR_HIGH_MIN, SENSOR_HIGH_MAX,
    SENSOR_SMOOTH_READINGS_MIN, SENSOR_SMOOTH_READINGS_MAX, BACKLIGHT_MIN,
    BACKLIGHT_MAX, COLOUR_CNL_MIN, COLOUR_CNL_MAX, HVGEN_TARGET_VOLTAGE_MIN,
    HVGEN_TARGET_VOLTAGE_MAX, HOURS_MAX, CYCLE_SPEED_MIN, CYCLE_SPEED_MAX,
    PWM_TOP_MIN, PWM_TOP_MAX, PWM_PULSE_MIN, PWM_PULSE_MAX in *.
  rewrite !word_split by lia.
  rewrite !byte_id by lia.
  rewrite !checked_id by lia.
  replace ((HVGen.pwmOn h <? 50) || (HVGen.pwmOn h >? 500)) with false
    by (symmetry; zcases; cbn; lia).
  replace ((HVGen.pwmTop h <? 300) || (HVGen.pwmTop h >? 10000)) with false
    by (symmetry; zcases; cbn; lia).
  destruct c; reflexivity.
Qed.

Lemma save_then_read_restores_witness :
  fst (readEEPROMValues (Clock.mkDateTime 0 0 0 0 0 0 0 0 0 None false 0)
         HVGen.initial
         (saveEEPROMValues
            (defaults, Clock.mkDateTime 0 0 0 0 0 0 0 0 0 None true 0, HVGen.initial)
            (fun _ => 255)))
  = (defaults, Clock.mkDateTime 0 0 0 0 0 0 0 0 0 None true 0, HVGen.initial).
Proof.
  assert (Hc : inRange defaults) by ground.
  assert (Hh : pwmInRange HVGen.initial) by ground.
  exact (f_equal fst
           (save_then_read_restores defaults
              (Clock.mkDateTime 0 0 0 0 0 0 0 0 0 None true 0)
              (Clock.mkDateTime 0 0 0 0 0 0 0 0 0 None false 0)
              HVGen.initial HVGen.initial (fun _ => 255) Hc Hh)).
Defined.

End Configuration.

(** ** Settings menu *)

Section Menu.
Import Config.

Ltac unfold_ranges :=
  unfold FADE_STEPS_MIN, FADE_STEPS_MAX, DATE_FORMAT_MIN, DATE_FORMAT_MAX,
    DAY_BLANKING_MIN, DAY_BLANKING_MAX, SENSOR_LOW_MIN, SENSOR_LOW_MAX,
    SCROLL_STEPS_MIN, SCROLL_STEPS_MAX, SENSOR_HIGH_MIN, SENSOR_HIGH_MAX,
    SENSOR_SMOOTH_READINGS_MIN, SENSOR_SMOOTH_READINGS_MAX, BACKLIGHT_MIN,
    BACKLIGHT_MAX, COLOUR_CNL_MIN, COLOUR_CNL_MAX, HVGEN_TARGET_VOLTAGE_MIN,
    HVGEN_TARGET_VOLTAGE_MAX, HOURS_MAX, CYCLE_SPEED_MIN, CYCLE_SPEED_MAX,
    PWM_TOP_MIN, PWM_TOP_MAX, PWM_PULSE_MIN, PWM_PULSE_MAX, PWM_OFF_MIN in *.

Ltac with_range :=
  unfold inRange; intros; cbn; tauto.

Lemma inRange_withFadeSteps (v : Z) (c : Settings) :
  inRange c -> FADE_STEPS_MIN <= v <= FADE_STEPS_MAX -> inRange (withFadeSteps v c).
Proof. with_range. Qed.

Lemma inRange_withDateFormat (v : Z) (c : Settings) :
  inRange c -> DATE_FORMAT_MIN <= v <= DATE_FORMAT_MAX -> inRange (withDateFormat v c).
Proof. with_range. Qed.

Lemma inRange_withDayBlanking (v : Z) (c : Settings) :
  inRange c -> DAY_BLANKING_MIN <= v <= DAY_BLANKING_MAX -> inRange (withDayBlanking v c).
Proof. with_range. Qed.

Lemma inRange_withScrollSteps (v : Z) (c : Settings) :
  inRange c -> SCROLL_STEPS_MIN <= v <= SCROLL_STEPS_MAX -> inRange (withScrollSteps v c).
Proof. with_range. Qed.

Lemma inRange_withBacklightMode (v : Z) (c : Settings) :
  inRange c -> BACKLIGHT_MIN <= v <= BACKLIGHT_MAX -> inRange (withBacklightMode v c).
Proof. with_range. Qed.

Lemma inRange_withRedCnl (v : Z) (c : Settings) :
  inRange c -> COLOUR_CNL_MIN <= v <= COLOUR_CNL_MAX -> inRange (withRedCnl v c).
Proof. with_range. Qed.

Lemma inRange_withGrnCnl (v : Z) (c : Settings) :
  inRange c -> COLOUR_CNL_MIN <= v <= COLOUR_CNL_MAX -> inRange (withGrnCnl v c).
Proof. with_range. Qed.

Lemma inRange_withBluCnl (v : Z) (c : Settings) :
  inRange c -> COLOUR_CNL_MIN <= v <= COLOUR_CNL_MAX -> inRange (withBluCnl v c).
Proof. with_range. Qed.

Lemma inRange_withHvTargetVoltage (v : Z) (c : Settings) :
  inRange c -> HVGEN_TARGET_VOLTAGE_MIN <= v <= HVGEN_TARGET_VOLTAGE_MAX -> inRange (withHvTargetVoltage v c).
Proof. with_range. Qed.

Lemma inRange_withBlankHourStart (v : Z) (c : Settings) :
  inRange c -> 0 <= v <= HOURS_MAX -> inRange (withBlankHourStart v c).
Proof. with_range. Qed.

Lemma inRange_withBlankHourEnd (v : Z) (c : Settings) :
  inRange c -> 0 <= v <= HOURS_MAX -> inRange (withBlankHourEnd v c).
Proof. with_range. Qed.

Lemma inRange_withCycleSpeed (v : Z) (c : Settings) :
  inRange c -> CYCLE_SPEED_MIN <= v <= CYCLE_SPEED_MAX -> inRange (withCycleSpeed v c).
Proof. with_range. Qed.

Lemma inRange_withBlankLeading (v : bool) (c : Settings) :
  inRange c -> inRange (withBlankLeading v c).
Proof. with_range. Qed.

Lemma inRange_withScrollback (v : bool) (c : Settings) :
  inRange c -> inRange (withScrollback v c).
Proof. with_range. Qed.

Lemma inRange_withSuppressACP (v : bool) (c : Settings) :
  inRange c -> inRange (withSuppressACP v c).
Proof. with_range. Qed.

Lemma wrapAbove_range (lo hi v : Z) :
  lo <= hi -> lo <= v -> lo <= wrapAbove hi lo v <= hi.
Proof. intros H1 H2. unfold wrapAbove. zcases; lia. Qed.

Lemma wrapBelow_range (lo hi v : Z) :
  lo <= hi -> v <= hi -> lo <= wrapBelow lo hi v <= hi.
Proof. intros H1 H2. unfold wrapBelow. zcases; lia. Qed.

Lemma setPWMOnTime_pwmInRange (x : Z) (h : HVGen.HV) :
  pwmInRange h -> pwmInRange (HVGen.setPWMOnTime x h).
Proof.
  intros [Ht Ho]. unfold pwmInRange.
  rewrite setPWMOnTime_value by (unfold in_int16; unfold_ranges; lia).
  destruct (setPWMOnTime_fields x h) as [-> _]. unfold_ranges. lia.
Qed.

Ltac setter_range :=
  lazymatch goal with
  | |- inRange (withBlankLeading _ _) => apply inRange_withBlankLeading
  | |- inRange (withScrollback _ _) => apply inRange_withScrollback
  | |- inRange (withSuppressACP _ _) => apply inRange_withSuppressACP
  | |- inRange (withFadeSteps _ _) => apply inRange_withFadeSteps
  | |- inRange (withDateFormat _ _) => apply inRange_withDateFormat
  | |- inRange (withDayBlanking _ _) => apply inRange_withDayBlanking
  | |- inRange (withScrollSteps _ _) => apply inRange_withScrollSteps
  | |- inRange (withBacklightMode _ _) => apply inRange_withBacklightMode
  | |- inRange (withRedCnl _ _) => apply inRange_withRedCnl
  | |- inRange (withGrnCnl _ _) => apply inRange_withGrnCnl
  | |- inRange (withBluCnl _ _) => apply inRange_withBluCnl
  | |- inRange (withHvTargetVoltage _ _) => apply inRange_withHvTargetVoltage
  | |- inRange (withBlankHourStart _ _) => apply inRange_withBlankHourStart
  | |- inRange (withBlankHourEnd _ _) => apply inRange_withBlankHourEnd
  | |- inRange (withCycleSpeed _ _) => apply inRange_withCycleSpeed
  end.

Ltac mode_tests :=
  repeat match goal with
         | |- context [?a =? ?b] =>
             let v := eval vm_compute in (a =? b) in
             lazymatch v with
             | true => change (a =? b) with true
             | false => change (a =? b) with false
             end
         end;
  cbv iota.

Ltac wrapped :=
  unfold wrapAbove, wrapBelow; unfold_ranges;
  first [ rewrite byte_id by lia | rewrite int16_id by (unfold in_int16; lia) ];
  zcases; try lia; reflexivity.

Lemma pressIn_outside (currentMode : Z) (st : Persisted) :
  currentMode < MODE_12_24 \/ MODE_PULSE_DOWN < currentMode ->
  pressIn currentMode st = st.
Proof.
  intros Hm. unfold pressIn. destruct st as [[c t] h].
  repeat match goal with
         | |- context [currentMode =? ?m] =>
             destruct (Z.eqb_spec currentMode m) as [E|_];
             [exfalso; revert Hm; rewrite E; vm_compute;
              intros [H|H]; discriminate H|]
         end.
  reflexivity.
Qed.

Lemma setPWMOnTime_OCR1A (x : Z) (h : HVGen.HV) :
  HVGen.setPWMOnTime x h
  = HVGen.mkHV (HVGen.pwmTop h) (HVGen.pwmOn (HVGen.setPWMOnTime x h))
      (HVGen.rawHVADCThreshold h) (HVGen.ICR1 h)
      (uint16 (HVGen.pwmOn (HVGen.setPWMOnTime x h))).
Proof. reflexivity. Qed.



End Menu.

(** ** I2C *)

Section I2C.
Import Config.

(** Decide the comparisons between constants. *)
Ltac closed_tests :=
  repeat match goal with
         | |- context [?a =? ?b] =>
             let r := eval vm_compute in (a =? b) in
             lazymatch r with
             | true => change (a =? b) with true
             | false => change (a =? b) with false
             end; cbv iota
         end.

(** X8. An option set over I2C is stored as received, with no range
    check, and is what a following [requestEvent] reports at index
    [operation - 2]; the four boolean options are stored as "the byte
    is 1". No other reported byte changes. *)
Theorem i2c_set_then_get (nowMillis operation v : Z) (rest : list Z)
    (st : Persisted) (e : EEPROM) :
  I2C_SET_OPTION_12_24 <= operation <= I2C_SET_OPTION_CYCLE_SPEED ->
  0 <= v <= 255 ->
  requestEvent (fst (receiveEvent nowMillis (operation :: v :: rest) st e))
  = <[Z.to_nat (operation - 2) :=
        if operation <=? I2C_SET_OPTION_SUPPRESS_ACP
        then boolByte (v =? 1) else v]> (requestEvent st).
Proof.
  intros Hop Hv. destruct st as [[c t] h].
  unfold I2C_SET_OPTION_12_24, I2C_SET_OPTION_CYCLE_SPEED in Hop.
  assert (Ev : byte v = v) by (apply byte_id; lia).
  assert (Hcases : operation = 2 \/ operation = 3 \/ operation = 4
                   \/ operation = 5 \/ operation = 6 \/ operation = 7
                   \/ operation = 8 \/ operation = 9 \/ operation = 10
                   \/ operation = 11 \/ operation = 12 \/ operation = 13
                   \/ operation = 14 \/ operation = 15 \/ operation = 16) by lia.
  assert (Eo : byte operation = operation) by (apply byte_id; lia).
  unfold receiveEvent, wireRead. rewrite Ev, Eo.
  repeat (destruct Hcases as [-> | Hcases]); try subst operation;
    closed_tests; cbn -[byte Z.eqb]; rewrite ?Ev; reflexivity.
Qed.

Lemma i2c_set_then_get_witness :
  requestEvent (fst (receiveEvent 0 [I2C_SET_OPTION_FADE_STEPS; 0]
                       (defaults, Clock.mkDateTime 0 0 0 0 0 0 0 0 0 None false 0,
                        HVGen.initial) (fun _ => 255)))
  !! 8%nat = Some 0.
Proof.
  rewrite (i2c_set_then_get 0 I2C_SET_OPTION_FADE_STEPS 0 []); [reflexivity| |];
    ground.
Defined.

Lemma setHourMode_same (t : Clock.DateTime) :
  Clock.setHourMode (Clock.hourMode t) t = t.
Proof. now destruct t. Qed.

Ltac i2c_branch :=
  cbn [fst snd];
  let Hr := fresh "Hr" in
  intros Hr;
  match goal with
  | Hread : forall c' t' e', _ |- _ => apply Hread; try reflexivity
  end;
  [ match goal with Em : _ = Clock.hourMode _ |- _ => symmetry; exact Em end
  | match goal with Ec : @eq Settings _ ?c |- _ => rewrite <- Ec in * end;
    destruct Hr as (R1 & R2 & R3 & R4 & R5 & R6 & R7 & R8 & R9 & R10 & R11
                    & R12 & R13 & R14 & R15);
    unfold readEEPROMValues, withFadeSteps, withDateFormat, withDayBlanking,
      withBlankLeading, withScrollback, withScrollSteps, withBacklightMode,
      withRedCnl, withGrnCnl, withBluCnl, withHvTargetVoltage, withSuppressACP,
      withBlankHourStart, withBlankHourEnd, withCycleSpeed in *;
    cbn [fst snd fadeSteps dateFormat dayBlanking dimDark blankLeading scrollback
         scrollSteps dimBright sensorSmoothCountLDR backlightMode redCnl grnCnl
         bluCnl hvTargetVoltage suppressACP blankHourStart blankHourEnd
         cycleSpeed] in *;
    f_equal; try reflexivity;
    unfold eeRead, eeWrite; closed_tests;
    rewrite ?byte_byte, ?byteBool_boolByte; try reflexivity;
    unfold FADE_STEPS_MIN, FADE_STEPS_MAX, DATE_FORMAT_MIN, DATE_FORMAT_MAX,
      DAY_BLANKING_MIN, DAY_BLANKING_MAX, SCROLL_STEPS_MIN, SCROLL_STEPS_MAX,
      BACKLIGHT_MIN, BACKLIGHT_MAX, COLOUR_CNL_MIN, COLOUR_CNL_MAX, HOURS_MAX,
      CYCLE_SPEED_MIN, CYCLE_SPEED_MAX in *;
    rewrite ?byte_id by lia; apply checked_id; lia ].

(** X9. If the settings in memory are the ones a restart would read from
    the EEPROM, they still are after any I2C message whose new value is
    inside its range: [receiveEvent] writes the cell that
    [readEEPROMValues] reads for the option it changes. *)
Theorem i2c_keeps_eeprom_in_step (nowMillis : Z) (buf : list Z)
    (st : Persisted) (e : EEPROM) :
  synced st e ->
  inRange (fst (fst (fst (receiveEvent nowMillis buf st e)))) ->
  synced (fst (receiveEvent nowMillis buf st e))
         (snd (receiveEvent nowMillis buf st e)).
Proof.
  destruct st as [[c t] h]. unfold synced. cbn [fst snd].
  intros Hs. unfold readEEPROMValues in Hs. cbn [fst snd] in Hs.
  injection Hs as Ec Et Eh.
  pose proof (f_equal Clock.hourMode Et) as Em.
  cbn [Clock.hourMode Clock.setHourMode] in Em. clear Et.
  assert (Hread : forall c' t' e',
            Clock.hourMode t' = byteBool (eeRead EE_12_24 e') ->
            eeRead EE_PULSE_HI e' = eeRead EE_PULSE_HI e ->
            eeRead EE_PULSE_LO e' = eeRead EE_PULSE_LO e ->
            eeRead EE_PWM_TOP_HI e' = eeRead EE_PWM_TOP_HI e ->
            eeRead EE_PWM_TOP_LO e' = eeRead EE_PWM_TOP_LO e ->
            fst (fst (fst (readEEPROMValues t' h e'))) = c' ->
            fst (readEEPROMValues t' h e') = (c', t', h)).
  { intros c' t' e' Hm H1 H2 H3 H4 Hc'.
    unfold readEEPROMValues in *. cbn [fst snd] in *.
    rewrite H1, H2, H3, H4, Eh, Hc', <- Hm, setHourMode_same. reflexivity. }
  assert (Hc : forall e',
            (forall a, a <> EE_12_24 -> a <> EE_HVG_NEED_CALIB ->
                       eeRead a e' = eeRead a e) ->
            fst (fst (fst (readEEPROMValues t h e'))) = c).
  { intros e' He'. rewrite <- Ec. unfold readEEPROMValues. cbn [fst snd].
    rewrite !He' by discriminate. reflexivity. }
  unfold receiveEvent.
  destruct (wireRead buf) as [operation buf1].
  destruct (wireRead buf1) as [v rest].
  repeat match goal with
         | |- context [operation =? ?m] => destruct (operation =? m)
         end.
  - repeat match goal with
           | |- context [wireRead ?b] => destruct (wireRead b)
           end.
    cbn [fst snd]. intros _. apply Hread; try reflexivity.
    + now rewrite Em.
    + apply Hc. reflexivity.
  - cbn [fst snd]. intros _. apply Hread; try reflexivity.
    + cbn. unfold eeRead, eeWrite. cbn. now rewrite ?byte_byte, byteBool_boolByte.
    + apply Hc. intros a Ha _. unfold eeRead, eeWrite.
      destruct (Z.eqb_spec a EE_12_24); [contradiction|reflexivity].
  - i2c_branch.
  - i2c_branch.
  - i2c_branch.
  - i2c_branch.
  - i2c_branch.
  - i2c_branch.
  - i2c_branch.
  - i2c_branch.
  - i2c_branch.
  - i2c_branch.
  - i2c_branch.
  - i2c_branch.
  - i2c_branch.
  - i2c_branch.
  - cbn [fst snd]. intros _. apply Hread; try reflexivity.
    + now rewrite Em.
    + apply Hc. reflexivity.
Qed.

Lemma i2c_keeps_eeprom_in_step_witness :
  let st := (defaults, Clock.mkDateTime 0 0 0 0 0 0 0 0 0 None false 0,
             HVGen.initial) in
  let e := saveEEPROMValues st (fun _ => 255) in
  synced (fst (receiveEvent 0 [I2C_SET_OPTION_FADE_STEPS; 100] st e))
         (snd (receiveEvent 0 [I2C_SET_OPTION_FADE_STEPS; 100] st e)).
Proof.
  cbv zeta. apply i2c_keeps_eeprom_in_step.
  - vm_compute. reflexivity.
  - ground.
Defined.

End I2C.

(** ** Port pins *)

Section PortPins.
Import Ports.

(** The integers below a bound, listed. *)
Lemma below_cases (k : nat) (n : Z) :
  0 <= n < Z.of_nat k -> In n (map Z.of_nat (seq 0 k)).
Proof.
  intros Hn. apply in_map_iff. exists (Z.to_nat n).
  split; [lia|]. apply in_seq. lia.
Qed.

Ltac below k H :=
  apply (below_cases k) in H; vm_compute in H;
  repeat (destruct H as [<- | H]); [..|destruct H].

Ltac bits :=
  rewrite ?Z.lor_spec, ?Z.land_spec;
  repeat match goal with
         | |- context [Z.testbit ?c ?b] =>
             let r := eval vm_compute in (Z.testbit c b) in
             lazymatch r with
             | true => change (Z.testbit c b) with true
             | false => change (Z.testbit c b) with false
             end
         end;
  rewrite ?andb_true_r, ?andb_false_r, ?orb_false_r, ?orb_true_r.

(** The decoder inputs after [SetSN74141Chip], whatever [PORTB] held. *)
Lemma SetSN74141Chip_input (num1 : Z) (hw : Hw) :
  0 <= num1 < 16 ->
  exists hw',
    SetSN74141Chip num1 hw = Some hw'
    /\ decoderInput hw'
       = (let d := rd decodeDigit (Z.to_nat num1) in if d <? 10 then d else 15)
    /\ (forall b, In b [1; 3; 6; 7] ->
                  Z.testbit (PORTB hw') b = Z.testbit (PORTB hw) b)
    /\ PORTC hw' = PORTC hw /\ PORTD hw' = PORTD hw /\ TCCR1A hw' = TCCR1A hw
    /\ tccrOff hw' = tccrOff hw /\ tccrOn hw' = tccrOn hw.
Proof.
  intros Hn. below 16%nat Hn;
    (eexists; split; [reflexivity|]; split;
     [ unfold decoderInput, bit; cbn [PORTB Z.eqb Pos.eqb]; bits; reflexivity
     | split; [|repeat split];
       intros b Hb; cbn [PORTB Z.eqb Pos.eqb];
       repeat (destruct Hb as [<- | Hb]; [bits; reflexivity|]);
       destruct Hb ]).
Qed.

(** X10. [SetSN74141Chip] presents [decodeDigit[num1]] on the four decoder
    inputs for the digits 0 to 9 and 15 (all inputs high, no cathode) for
    10 to 15; it leaves the other four bits of [PORTB] and the other
    registers as they were. *)
Theorem SetSN74141Chip_decoder_input (num1 : Z) (hw : Hw) :
  0 <= num1 < 16 ->
  exists hw',
    SetSN74141Chip num1 hw = Some hw'
    /\ decoderInput hw'
       = (let d := rd decodeDigit (Z.to_nat num1) in if d <? 10 then d else 15)
    /\ (forall b, In b [1; 3; 6; 7] ->
                  Z.testbit (PORTB hw') b = Z.testbit (PORTB hw) b)
    /\ PORTC hw' = PORTC hw /\ PORTD hw' = PORTD hw /\ TCCR1A hw' = TCCR1A hw.
Proof.
  intros Hn.
  destruct (SetSN74141Chip_input num1 hw Hn)
    as (hw' & E & Hd & Hb & Hc & Hp & Ht & _).
  exists hw'. now repeat split.
Qed.

Lemma SetSN74141Chip_decoder_input_witness :
  exists hw',
    SetSN74141Chip 3 (mkHw 255 0 0 0 0 0) = Some hw' /\ decoderInput hw' = 6.
Proof.
  assert (Hn : 0 <= 3 < 16) by lia.
  destruct (SetSN74141Chip_decoder_input 3 (mkHw 255 0 0 0 0 0) Hn)
    as (hw' & E & Hd & _).
  exists hw'. split; [exact E|]. rewrite Hd. reflexivity.
Defined.

(** X11. Two different digits never select the same cathode: for digits 0
    to 9 the decoder inputs left by [SetSN74141Chip] differ whenever the
    digits do, whatever [PORTB] held before. *)
Theorem digits_select_distinct_cathodes (n1 n2 : Z) (hw1 hw2 a b : Hw) :
  0 <= n1 < 10 -> 0 <= n2 < 10 -> n1 <> n2 ->
  SetSN74141Chip n1 hw1 = Some a -> SetSN74141Chip n2 hw2 = Some b ->
  decoderInput a <> decoderInput b.
Proof.
  intros H1 H2 Hne Ea Eb.
  destruct (SetSN74141Chip_input n1 hw1 ltac:(lia)) as (a' & Ea' & Ha & _).
  destruct (SetSN74141Chip_input n2 hw2 ltac:(lia)) as (b' & Eb' & Hb & _).
  rewrite Ea in Ea'. rewrite Eb in Eb'.
  injection Ea' as <-. injection Eb' as <-. rewrite Ha, Hb.
  clear Ha Hb Ea Eb.
  assert (C1 : n1 = 0 \/ n1 = 1 \/ n1 = 2 \/ n1 = 3 \/ n1 = 4 \/ n1 = 5
               \/ n1 = 6 \/ n1 = 7 \/ n1 = 8 \/ n1 = 9) by lia.
  assert (C2 : n2 = 0 \/ n2 = 1 \/ n2 = 2 \/ n2 = 3 \/ n2 = 4 \/ n2 = 5
               \/ n2 = 6 \/ n2 = 7 \/ n2 = 8 \/ n2 = 9) by lia.
  clear H1 H2. revert Hne.
  repeat (destruct C1 as [-> | C1]); try subst n1;
    repeat (destruct C2 as [-> | C2]); try subst n2;
    intros Hne; first [ now contradiction Hne | vm_compute; discriminate ].
Qed.

Lemma digits_select_distinct_cathodes_witness :
  (decoderInput (mkHw 4 0 0 0 0 0) =? decoderInput (mkHw 202 0 0 0 0 0)) = false.
Proof.
  apply Z.eqb_neq.
  apply (digits_select_distinct_cathodes 0 7 (mkHw 0 0 0 0 0 0)
           (mkHw 255 0 0 0 0 0));
    [lia | lia | lia | reflexivity | reflexivity].
Defined.

(** X12. [digitOff] switches every anode off and stops the generator;
    [digitOn] after it drives the anode of the chosen digit and no other,
    and restarts the generator. *)
Theorem digitOn_after_digitOff (digit value : Z) (hw : Hw) :
  0 <= digit < 6 -> 0 <= value < 16 ->
  (forall j, anode j (digitOff hw) = false)
  /\ TCCR1A (digitOff hw) = tccrOff hw
  /\ exists hw',
       digitOn digit value (digitOff hw) = Some hw'
       /\ (forall j, 0 <= j < 6 -> anode j hw' = (j =? digit))
       /\ TCCR1A hw' = tccrOn hw.
Proof.
  intros Hd Hv.
  assert (Hoff : forall j, anode j (digitOff hw) = false).
  { intros j. unfold anode, digitOff. cbn [PORTC PORTD].
    repeat match goal with
           | |- context [j =? ?k] => destruct (j =? k)
           end; try reflexivity; bits; reflexivity. }
  split; [exact Hoff|]. split; [reflexivity|].
  unfold digitOn.
  set (hw1 := if digit =? 0 then _ else _).
  destruct (SetSN74141Chip_input value hw1 Hv)
    as (hw2 & -> & _ & _ & Hc & Hp & _ & _ & Hon).
  eexists. split; [reflexivity|]. cbn [TCCR1A tccrOn].
  split; [|rewrite Hon; below 6%nat Hd; reflexivity].
  intros j Hj. unfold anode. cbn [PORTC PORTD]. rewrite Hc, Hp.
  below 6%nat Hd; below 6%nat Hj;
    unfold hw1, digitOff; cbn [Z.eqb Pos.eqb PORTC PORTD]; bits; reflexivity.
Qed.

Lemma digitOn_after_digitOff_witness :
  exists hw',
    digitOn 2 7 (digitOff (mkHw 255 255 255 0 1 2)) = Some hw'
    /\ anode 2 hw' = true /\ anode 3 hw' = false.
Proof.
  assert (Hd : 0 <= 2 < 6) by lia.
  assert (Hv : 0 <= 7 < 16) by lia.
  destruct (digitOn_after_digitOff 2 7 (mkHw 255 255 255 0 1 2) Hd Hv)
    as (_ & _ & hw' & E & Ha & _).
  exists hw'. split; [exact E|].
  split; [apply (Ha 2); lia|apply (Ha 3); lia].
Defined.

(** X13. [checkLEDPWM] never writes a value outside 0..255, whatever the
    step; it writes nothing at all for a step of 0 or below. *)
Theorem checkLEDPWM_range (step : Z) :
  in_int16 step ->
  (forall v, checkLEDPWM step = Some v -> 0 <= v <= 255)
  /\ (checkLEDPWM step = None <-> step <= 0).
Proof.
  intros Hs. unfold in_int16 in Hs. unfold checkLEDPWM.
  rewrite !Z.gtb_ltb.
  destruct (Z.ltb_spec 767 step); [split; [intros v [= <-]; lia|split; [discriminate|lia]]|].
  destruct (Z.ltb_spec 512 step).
  { rewrite (int16_id (step - 512)) by (unfold in_int16; lia).
    rewrite int16_id by (unfold in_int16; lia).
    split; [intros v [= <-]; lia|split; [discriminate|lia]]. }
  destruct (Z.ltb_spec 255 step); [split; [intros v [= <-]; lia|split; [discriminate|lia]]|].
  destruct (Z.ltb_spec 0 step); [split; [intros v [= <-]; lia|split; [discriminate|lia]]|].
  split; [discriminate|]. split; [lia|reflexivity].
Qed.

Lemma checkLEDPWM_range_witness : checkLEDPWM 0 = None.
Proof.
  assert (Hs : in_int16 0) by (unfold in_int16; lia).
  apply (proj2 (checkLEDPWM_range 0 Hs)). lia.
Defined.

End PortPins.

(** ** Push button *)

Section PushButton.
Import Btn.

Lemma checkButton_consistent (pinLow : bool) (nowMillis : Z) (b : Button) :
  consistent b -> consistent (checkButton pinLow nowMillis b).
Proof.
  destruct b as [c s w p8 p2 p1 p r8 r2 r1 r].
  unfold consistent, checkButton, releaseFlags, debounceCounter.
  cbn [button1PressedCount button1PressStartMillis buttonWasReleased
       buttonPress8S buttonPress2S buttonPress1S buttonPress
       buttonPressRelease8S buttonPressRelease2S buttonPressRelease1S
       buttonPressRelease].
  intros (Hc & Hr & H8 & H2 & H1 & Hp).
  destruct pinLow.
  - destruct (Z.ltb_spec c 5).
    + cbn [button1PressedCount buttonPress8S buttonPress2S buttonPress1S
           buttonPress buttonPressRelease8S buttonPressRelease2S
           buttonPressRelease1S buttonPressRelease].
      rewrite int16_id by (unfold in_int16; lia).
      repeat split; try assumption; try lia.
      intros Hp'. specialize (Hp Hp'). lia.
    + repeat match goal with
             | |- context [?a >? ?k] => destruct (a >? k)
             end;
        cbn; repeat split; try assumption; try reflexivity; lia.
  - destruct (c =? 5); destruct p8, p2, p1, p; cbn in *;
      repeat split; try assumption; try reflexivity; try lia; discriminate.
Qed.

Lemma fresh_consistent : consistent fresh.
Proof. unfold consistent. cbn. repeat split; try lia; discriminate. Qed.

Lemma reader_consistent (b : Button) :
  consistent b ->
  consistent (snd (isButtonPressedAndReleased b))
  /\ consistent (snd (isButtonPressedReleased1S b))
  /\ consistent (snd (isButtonPressedReleased2S b))
  /\ consistent (snd (isButtonPressedReleased8S b))
  /\ consistent (reset b).
Proof.
  destruct b as [c s w p8 p2 p1 p r8 r2 r1 r].
  unfold consistent, isButtonPressedAndReleased, isButtonPressedReleased1S,
    isButtonPressedReleased2S, isButtonPressedReleased8S, reset, releaseFlags,
    debounceCounter.
  cbn. intros (Hc & Hr & H8 & H2 & H1 & Hp).
  destruct r8, r2, r1, r; cbn in *;
    repeat split; try assumption; try reflexivity; try lia; try discriminate.
Qed.

(** X14. Every operation on a button ([checkButton] with any sample, the
    four clearing readers, [reset]) keeps the debounce count in [0..5], at
    most one release flag up, and the press flags nested and up only
    while the count is at [debounceCounter]; a button as constructed is
    such a state. *)
Theorem button_stays_consistent (pinLow : bool) (nowMillis : Z) (b : Button) :
  consistent fresh
  /\ (consistent b ->
      consistent (checkButton pinLow nowMillis b)
      /\ consistent (snd (isButtonPressedAndReleased b))
      /\ consistent (snd (isButtonPressedReleased1S b))
      /\ consistent (snd (isButtonPressedReleased2S b))
      /\ consistent (snd (isButtonPressedReleased8S b))
      /\ consistent (reset b)).
Proof.
  split; [exact fresh_consistent|]. intros Hb.
  split; [now apply checkButton_consistent|now apply reader_consistent].
Qed.

Lemma button_stays_consistent_witness :
  consistent (checkButton true 100
                (mkButton 5 0 false false false false true false false false true)).
Proof.
  assert (Hb : consistent
                 (mkButton 5 0 false false false false true false false false true)).
  { unfold consistent. cbn. repeat split; try lia; reflexivity. }
  exact (proj1 (proj2 (button_stays_consistent true 100 _) Hb)).
Defined.

Lemma checkButtons_app (l1 l2 : list (bool * Z)) (b : Button) :
  checkButtons (l1 ++ l2) b = checkButtons l2 (checkButtons l1 b).
Proof. unfold checkButtons. apply fold_left_app. Qed.

(** Low samples while the count is below [debounceCounter] only count. *)
Lemma lows_count (times : list Z) (b : Button) :
  0 <= button1PressedCount b ->
  button1PressedCount b + Z.of_nat (length times) < debounceCounter ->
  let b' := checkButtons (lows times) b in
  button1PressedCount b'
  = button1PressedCount b + Z.of_nat (length times)
  /\ releases b' = releases b
  /\ buttonPress8S b' = buttonPress8S b /\ buttonPress2S b' = buttonPress2S b
  /\ buttonPress1S b' = buttonPress1S b /\ buttonPress b' = buttonPress b.
Proof.
  revert b. induction times as [|t times IH]; intros b H0 Hlt.
  - cbn. repeat split; lia.
  - cbn [length lows map checkButtons fold_left fst snd] in *.
    unfold debounceCounter in *.
    set (b1 := checkButton true t b).
    assert (E1 : button1PressedCount b1 = button1PressedCount b + 1
                 /\ releases b1 = releases b
                 /\ buttonPress8S b1 = buttonPress8S b
                 /\ buttonPress2S b1 = buttonPress2S b
                 /\ buttonPress1S b1 = buttonPress1S b
                 /\ buttonPress b1 = buttonPress b).
    { unfold b1, checkButton, debounceCounter.
      destruct (Z.ltb_spec (button1PressedCount b) 5); [|lia].
      cbn. rewrite int16_id by (unfold in_int16; lia). now repeat split. }
    destruct E1 as (Ec & Er & E8 & E2 & E1 & Ep).
    destruct (IH b1) as (Hc & Hr & H8 & H2 & H1 & Hp); [lia|lia|].
    fold (lows times). fold (checkButtons (lows times) b1).
    rewrite Hc, Hr, H8, H2, H1, Hp, Ec, Er, E8, E2, E1, Ep.
    repeat split; lia.
Qed.

(** A high sample leaves the button not pressed. *)
Lemma checkButton_high_idle (t : Z) (b : Button) : idle (checkButton false t b).
Proof.
  unfold idle, checkButton.
  destruct (button1PressedCount b =? debounceCounter);
    [destruct (buttonPress8S b), (buttonPress2S b), (buttonPress1S b),
       (buttonPress b)|]; now repeat split.
Qed.

(** X15. Debouncing: from a button that is not pressed, fewer than five
    consecutive low samples followed by a high one change no release flag
    and leave the count at zero. A run of exactly five low samples raises
    no release flag either, but it clears any release flag that was still
    waiting to be read. *)
Theorem short_press_raises_nothing (times : list Z) (t : Z) (b : Button) :
  idle b ->
  (length times <= 5)%nat ->
  let b' := checkButtons (lows times ++ [(false, t)]) b in
  button1PressedCount b' = 0
  /\ ((length times < 5)%nat -> releases b' = releases b)
  /\ (length times = 5%nat -> releases b' = (false, false, false, false)).
Proof.
  intros (Hc & H8 & H2 & H1 & Hp) Hlen. cbv zeta.
  rewrite checkButtons_app. cbn [checkButtons fold_left fst snd].
  split; [apply checkButton_high_idle|].
  split.
  - intros Hlt.
    destruct (lows_count times b) as (Ec & Er & _);
      [lia|unfold debounceCounter; lia|].
    rewrite <- Er. unfold checkButton at 1. unfold debounceCounter at 1.
    fold (checkButtons (lows times) b). rewrite Ec.
    destruct (Z.eqb_spec (button1PressedCount b + Z.of_nat (length times)) 5);
      [lia|reflexivity].
  - intros H5.
    destruct times as [|t1 times] using rev_ind; [discriminate|].
    clear IHtimes. rewrite length_app in H5. cbn in H5.
    unfold lows. rewrite map_app. fold (lows times). cbn [map].
    fold (checkButtons (lows times ++ [(true, t1)]) b).
    rewrite checkButtons_app. cbn [checkButtons fold_left fst snd].
    fold (checkButtons (lows times) b).
    destruct (lows_count times b) as (Ec & Er & E8 & E2 & E1 & Ep);
      [lia|unfold debounceCounter; lia|].
    set (b0 := checkButtons (lows times) b) in *.
    unfold checkButton at 2. unfold debounceCounter.
    destruct (Z.ltb_spec (button1PressedCount b0) 5); [|lia].
    unfold checkButton, debounceCounter. cbn.
    rewrite int16_id by (unfold in_int16; lia).
    replace (button1PressedCount b0 + 1 =? 5) with true
      by (symmetry; apply Z.eqb_eq; lia).
    rewrite ?E8, ?E2, ?E1, ?Ep, ?H8, ?H2, ?H1, ?Hp. reflexivity.
Qed.

Lemma short_press_raises_nothing_witness :
  releases (checkButtons (lows [10; 20; 30] ++ [(false, 40)]) fresh)
  = releases fresh.
Proof.
  assert (Hi : idle fresh) by (unfold idle; cbn; now repeat split).
  assert (Hl : (length [10; 20; 30] <= 5)%nat) by (cbn; lia).
  apply (proj1 (proj2 (short_press_raises_nothing [10; 20; 30] 40 fresh Hi Hl))).
  cbn. lia.
Defined.

(** Low samples once the count is at [debounceCounter] keep it there and
    keep the recorded start of the press. *)
Lemma lows_held (times : list Z) (b : Button) :
  button1PressedCount b = debounceCounter ->
  button1PressedCount (checkButtons (lows times) b) = debounceCounter
  /\ button1PressStartMillis (checkButtons (lows times) b)
     = button1PressStartMillis b.
Proof.
  revert b. induction times as [|t times IH]; intros b Hc; [now split|].
  cbn [lows map checkButtons fold_left fst snd].
  fold (lows times). fold (checkButtons (lows times) (checkButton true t b)).
  assert (E : button1PressedCount (checkButton true t b) = debounceCounter
              /\ button1PressStartMillis (checkButton true t b)
                 = button1PressStartMillis b).
  { unfold checkButton. rewrite Hc. unfold debounceCounter. cbn [Z.ltb Z.compare Pos.compare Pos.compare_cont].
    repeat match goal with
           | |- context [?a >? ?k] => destruct (a >? k)
           end; cbn; now rewrite ?Hc. }
  destruct E as [E1 E2]. destruct (IH _ E1) as [-> ->]. now rewrite E2.
Qed.

(** X16. A press is timed from the fifth consecutive low sample to the
    last low sample before the release: after at least six low samples
    and a high one, exactly the release flag of that duration is up (more
    than 8 s, more than 2 s, more than 1 s, or shorter), and the button is
    not pressed any more. *)
Theorem press_is_timed_from_fifth_sample (pre mid : list Z) (t5 tk t : Z)
    (b : Button) :
  idle b -> length pre = 4%nat ->
  let b' := checkButtons (lows (pre ++ [t5] ++ mid ++ [tk]) ++ [(false, t)]) b in
  let held := Clock.int32 (tk - t5) in
  releases b'
  = (held >? 8000,
     (held >? 2000) && negb (held >? 8000),
     (held >? 1000) && negb (held >? 2000),
     negb (held >? 1000))
  /\ buttonWasReleased b' = true
  /\ idle b'.
Proof.
  intros (Hc & H8 & H2 & H1 & Hp) Hlen. cbv zeta.
  unfold lows. rewrite !map_app. cbn [map].
  rewrite !checkButtons_app. fold (lows pre). fold (lows mid).
  destruct (lows_count pre b) as (Ec & _);
    [lia|unfold debounceCounter; lia|].
  set (b1 := checkButtons (lows pre) b) in *.
  set (b2 := checkButtons [(true, t5)] b1).
  assert (E2 : button1PressedCount b2 = debounceCounter
               /\ button1PressStartMillis b2 = t5).
  { unfold b2, checkButtons, checkButton, debounceCounter.
    cbn [fold_left fst snd].
    destruct (Z.ltb_spec (button1PressedCount b1) 5); [|lia].
    cbn. rewrite int16_id by (unfold in_int16; lia).
    replace (button1PressedCount b1 + 1 =? 5) with true
      by (symmetry; apply Z.eqb_eq; lia).
    split; [lia|reflexivity]. }
  destruct E2 as [Ec2 Es2].
  destruct (lows_held mid b2 Ec2) as [Ec3 Es3].
  set (b3 := checkButtons (lows mid) b2) in *.
  rewrite Es2 in Es3.
  split; [|split; [|apply checkButton_high_idle]];
    cbn [checkButtons fold_left fst snd];
    unfold checkButton; rewrite Ec3, Es3; unfold debounceCounter;
    cbn [Z.ltb Z.compare Pos.compare Pos.compare_cont];
    generalize (Clock.int32 (tk - t5)); intros held;
    rewrite !Z.gtb_ltb;
    destruct (Z.ltb_spec 8000 held); destruct (Z.ltb_spec 2000 held);
    destruct (Z.ltb_spec 1000 held); try lia; reflexivity.
Qed.

Lemma press_is_timed_from_fifth_sample_witness :
  releases (checkButtons
              (lows ([0; 10; 20; 30] ++ [40] ++ [50; 60] ++ [2500])
               ++ [(false, 2510)]) fresh)
  = (false, true, false, false).
Proof.
  assert (Hi : idle fresh) by (unfold idle; cbn; now repeat split).
  assert (Hl : length [0; 10; 20; 30] = 4%nat) by reflexivity.
  exact (proj1 (press_is_timed_from_fifth_sample [0; 10; 20; 30] [50; 60]
                  40 2500 2510 fresh Hi Hl)).
Defined.

End PushButton.

(** ** Date and time *)

Section DateAndTime.
Import Clock.

Lemma dayTable_lookup (m : Z) :
  1 <= m <= 12 -> exists t, dayTable !! Z.to_nat (m - 1) = Some t /\ 0 <= t <= 6.
Proof.
  intros Hm.
  assert (C : m = 1 \/ m = 2 \/ m = 3 \/ m = 4 \/ m = 5 \/ m = 6 \/ m = 7
              \/ m = 8 \/ m = 9 \/ m = 10 \/ m = 11 \/ m = 12) by lia.
  repeat (destruct C as [-> | C]); try subst m;
    (eexists; split; [reflexivity|lia]).
Qed.

(** X17. From the year 1 on, [dayofweek] gives the same day for a
    two-digit year (as [setSyncTime] calls it) and for that year plus 2000
    (as [setRTC] calls it). For the year 0 the two differ in January and
    February. *)
Theorem dayofweek_two_digit_year (y m d : Z) :
  0 <= y <= 255 -> 1 <= m <= 12 -> 1 <= d <= 31 ->
  (1 <= y -> dayofweek y m d = dayofweek (2000 + y) m d)
  /\ (y = 0 -> m < 3 -> dayofweek y m d <> dayofweek (2000 + y) m d).
Proof.
  intros Hy Hm Hd.
  destruct (dayTable_lookup m Hm) as (t & Et & Ht).
  unfold dayofweek.
  replace ((1 <=? m) && (m <=? 12)) with true
    by (symmetry; apply andb_true_iff; split; apply Z.leb_le; lia).
  rewrite Et. cbn [mbind option_bind].
  set (c := if m <? 3 then 1 else 0).
  assert (Hc : 0 <= c <= 1) by (unfold c; destruct (m <? 3); lia).
  rewrite (int16_id (y - c)), (int16_id (2000 + y - c))
    by (unfold in_int16; lia).
  split.
  - intros H1. f_equal. f_equal. f_equal.
    rewrite !Z.quot_div_nonneg by lia.
    rewrite !int16_id.
    + rewrite !Z.rem_mod_nonneg; try lia.
      * Z.to_euclidean_division_equations. lia.
      * Z.to_euclidean_division_equations. lia.
      * Z.to_euclidean_division_equations. lia.
    + unfold in_int16. Z.to_euclidean_division_equations. lia.
    + unfold in_int16. Z.to_euclidean_division_equations. lia.
  - intros -> Hm3. unfold c.
    replace (m <? 3) with true by (symmetry; apply Z.ltb_lt; lia).
    change (0 - 1) with (-1). change (2000 + 0 - 1) with 1999.
    change (Z.quot (-1) 4) with 0. change (Z.quot (-1) 100) with 0.
    change (Z.quot (-1) 400) with 0.
    change (1999 + Z.quot 1999 4 - Z.quot 1999 100 + Z.quot 1999 400) with 2483.
    rewrite (int16_id (-1 + 0 - 0 + 0 + t + d)),
      (int16_id (2483 + t + d)) by (unfold in_int16; lia).
    rewrite !Z.rem_mod_nonneg by lia.
    rewrite !int16_id
      by (unfold in_int16; Z.to_euclidean_division_equations; lia).
    intros [= E]. revert E. Z.to_euclidean_division_equations. lia.
Qed.

Lemma dayofweek_two_digit_year_witness :
  dayofweek 26 11 3 = dayofweek 2026 11 3.
Proof.
  apply (dayofweek_two_digit_year 26 11 3); lia.
Defined.

Lemma allDates_spec (p : Z -> Z -> Z -> bool) :
  allDates p = true ->
  forall y m d, 1 <= y <= 99 -> validDate (2000 + y) m d -> p y m d = true.
Proof.
  unfold allDates. intros H y m d Hy [Hm Hd].
  assert (Hd31 : d <= 31).
  { unfold daysInMonth in Hd.
    destruct (m =? 2); [destruct (leapYear _)|destruct (_ || _)]; lia. }
  rewrite forallb_forall in H.
  specialize (H (Z.to_nat y)). rewrite in_seq in H.
  specialize (H ltac:(lia)). rewrite forallb_forall in H.
  specialize (H (Z.to_nat m)). rewrite in_seq in H.
  specialize (H ltac:(lia)). rewrite forallb_forall in H.
  specialize (H (Z.to_nat d)). rewrite in_seq in H.
  specialize (H ltac:(lia)).
  rewrite !Z2Nat.id in H by lia.
  replace (validDateb (2000 + y) m d) with true in H; [exact H|].
  symmetry. unfold validDateb.
  repeat (apply andb_true_iff; split); apply Z.leb_le; lia.
Qed.

(** X18. For every date from 1 January 2001 to 31 December 2099,
    [dayofweek] of the two-digit year is the weekday of the calendar:
    1 January 2001 is day 2 (Monday), the result is always one of 1..7,
    and the day after any date has the next weekday (7 is followed
    by 1). *)
Theorem dayofweek_follows_calendar (y m d : Z) :
  1 <= y <= 99 -> validDate (2000 + y) m d ->
  dayofweek 1 1 1 = Some 2
  /\ exists w,
       dayofweek y m d = Some w /\ 1 <= w <= 7
       /\ (let '(y', m', d') := nextDate (2000 + y) m d in
           dayofweek (y' - 2000) m' d' = Some (nextWeekday w)).
Proof.
  intros Hy Hv. split; [reflexivity|].
  assert (Hall : allDates weekdayStep = true) by (vm_compute; reflexivity).
  pose proof (allDates_spec weekdayStep Hall y m d Hy Hv) as H.
  unfold weekdayStep in H.
  destruct (dayofweek y m d) as [w|]; [|discriminate].
  exists w. split; [reflexivity|].
  apply andb_true_iff in H. destruct H as [Hr Hn].
  apply andb_true_iff in Hr. destruct Hr as [H1 H7].
  apply Z.leb_le in H1. apply Z.leb_le in H7. split; [lia|].
  destruct (nextDate (2000 + y) m d) as [[y' m'] d'].
  destruct (dayofweek (y' - 2000) m' d') as [w'|]; [|discriminate].
  apply Z.eqb_eq in Hn. now subst w'.
Qed.

Lemma dayofweek_follows_calendar_witness :
  exists w, dayofweek 24 2 29 = Some w /\ dayofweek 24 3 1 = Some (nextWeekday w).
Proof.
  assert (Hy : 1 <= 24 <= 99) by lia.
  assert (Hv : validDate (2000 + 24) 2 29) by (vm_compute; repeat split; discriminate).
  destruct (dayofweek_follows_calendar 24 2 29 Hy Hv) as (_ & w & E & _ & Hn).
  exists w. split; [exact E|exact Hn].
Defined.

(** X19. [setDelta] adds the whole seconds elapsed since the sync point to
    the synced time of day, modulo one day: for a valid synced time and a
    time stamp not before the sync point, the three delta fields are a
    valid time of day and their second of the day is that of the synced
    time plus the elapsed seconds, modulo 86400. The date is not
    advanced. *)
Theorem setDelta_adds_elapsed_seconds (newMillis : Z) (t : DateTime) :
  validSync t ->
  0 <= int32 (newMillis - millisDate t) ->
  let t' := setDelta newMillis t in
  validDelta t'
  /\ secondOfDay (deltaHours t') (deltaMins t') (deltaSecs t')
     = (secondOfDay (hours t) (mins t) (secs t)
        + int32 (newMillis - millisDate t) / 1000) mod 86400
  /\ years t' = years t /\ months t' = months t /\ days t' = days t.
Proof.
  intros (Hh & Hm & Hs) He. cbv zeta. unfold setDelta.
  set (e := int32 (newMillis - millisDate t)) in *.
  rewrite (Z.quot_div_nonneg e 1000) by lia.
  set (q := e / 1000).
  assert (Hq : 0 <= q) by (apply Z.div_pos; lia).
  rewrite !Z.quot_div_nonneg by (try apply Z.div_pos; lia).
  rewrite !Z.rem_mod_nonneg by (try apply Z.div_pos; lia).
  assert (Hs1 : 0 <= q mod 60 < 60) by (apply Z.mod_pos_bound; lia).
  assert (Hm1 : 0 <= (q / 60) mod 60 < 60) by (apply Z.mod_pos_bound; lia).
  assert (Hh1 : 0 <= (q / 3600) mod 24 < 24) by (apply Z.mod_pos_bound; lia).
  assert (Hrel : q = 86400 * (q / 3600 / 24) + 3600 * ((q / 3600) mod 24)
                     + 60 * ((q / 60) mod 60) + q mod 60).
  { replace (q / 3600) with (q / 60 / 60)
      by (rewrite Z.div_div by lia; reflexivity).
    Z.to_euclidean_division_equations. lia. }
  revert Hrel Hs1 Hm1 Hh1.
  generalize (q mod 60), ((q / 60) mod 60), ((q / 3600) mod 24), (q / 3600 / 24).
  intros s1 m1 h1 dd Hrel Hs1 Hm1 Hh1.
  rewrite (byte_id (secs t + s1)), (byte_id (mins t + m1)),
    (byte_id (hours t + h1)) by lia.
  unfold validDelta, secondOfDay.
  assert (Hdd : 0 <= dd) by lia.
  destruct (Z.gtb_spec (secs t + s1) 59) as [C1|C1]; cbv beta iota zeta.
  - rewrite (byte_id (secs t + s1 - 60)), (byte_id (mins t + m1 + 1)) by lia.
    destruct (Z.gtb_spec (mins t + m1 + 1) 59) as [C2|C2]; cbv beta iota zeta.
    + rewrite (byte_id (mins t + m1 + 1 - 60)), (byte_id (hours t + h1 + 1)) by lia.
      destruct (Z.gtb_spec (hours t + h1 + 1) 23) as [C3|C3];
        rewrite ?(byte_id (hours t + h1 + 1 - 24)) by lia;
        cbn [deltaHours deltaMins deltaSecs years months days];
        (split; [lia|]); (split; [|now repeat split]);
        [ apply (Z.mod_unique_pos _ _ (dd + 1)); lia
        | apply (Z.mod_unique_pos _ _ dd); lia ].
    + destruct (Z.gtb_spec (hours t + h1) 23) as [C3|C3];
        rewrite ?(byte_id (hours t + h1 - 24)) by lia;
        cbn [deltaHours deltaMins deltaSecs years months days];
        (split; [lia|]); (split; [|now repeat split]);
        [ apply (Z.mod_unique_pos _ _ (dd + 1)); lia
        | apply (Z.mod_unique_pos _ _ dd); lia ].
  - destruct (Z.gtb_spec (mins t + m1) 59) as [C2|C2]; cbv beta iota zeta.
    + rewrite (byte_id (mins t + m1 - 60)), (byte_id (hours t + h1 + 1)) by lia.
      destruct (Z.gtb_spec (hours t + h1 + 1) 23) as [C3|C3];
        rewrite ?(byte_id (hours t + h1 + 1 - 24)) by lia;
        cbn [deltaHours deltaMins deltaSecs years months days];
        (split; [lia|]); (split; [|now repeat split]);
        [ apply (Z.mod_unique_pos _ _ (dd + 1)); lia
        | apply (Z.mod_unique_pos _ _ dd); lia ].
    + destruct (Z.gtb_spec (hours t + h1) 23) as [C3|C3];
        rewrite ?(byte_id (hours t + h1 - 24)) by lia;
        cbn [deltaHours deltaMins deltaSecs years months days];
        (split; [lia|]); (split; [|now repeat split]);
        [ apply (Z.mod_unique_pos _ _ (dd + 1)); lia
        | apply (Z.mod_unique_pos _ _ dd); lia ].
Qed.

Lemma setDelta_adds_elapsed_seconds_witness :
  let t' := setDelta 61000 (mkDateTime 23 59 30 0 0 0 15 10 1 None false 0) in
  secondOfDay (deltaHours t') (deltaMins t') (deltaSecs t') = 31.
Proof.
  assert (Hv : validSync (mkDateTime 23 59 30 0 0 0 15 10 1 None false 0))
    by (unfold validSync; cbn; lia).
  assert (He : 0 <= int32 (61000
                 - millisDate (mkDateTime 23 59 30 0 0 0 15 10 1 None false 0)))
    by (vm_compute; discriminate).
  exact (proj1 (proj2 (setDelta_adds_elapsed_seconds 61000 _ Hv He))).
Defined.

Lemma int32_self (z : Z) : int32 (z - int32 z) = 0.
Proof.
  unfold int32.
  replace (z - ((z + 2147483648) mod 4294967296 - 2147483648) + 2147483648)
    with (4294967296 * ((z + 2147483648) / 4294967296) + 2147483648)
    by (pose proof (Z.div_mod (z + 2147483648) 4294967296); lia).
  rewrite Z.add_comm, Z.mul_comm, Z.mod_add by lia. reflexivity.
Qed.

(** X20. Without a clock chip the periodic re-sync
    ([updateInternalTimeDelta]) stores the displayed hour, not the 24-hour
    one: reading the time right after it gives the same minutes and
    seconds and, as 24-hour hour, the hour [getHours] showed. In 24-hour
    mode the time is unchanged; in 12-hour mode an hour after 12 comes
    back 12 lower and midnight comes back as 12. *)
Theorem resync_stores_displayed_hour (currentMillis : Z) (t : DateTime) :
  validDelta t ->
  let t' := getTimeInt currentMillis (updateInternalTimeDelta currentMillis t) in
  getHours24 t' = getHours t /\ getMins t' = getMins t /\ getSecs t' = getSecs t
  /\ (hourMode t = false -> getHours24 t' = getHours24 t)
  /\ (hourMode t = true -> 12 < getHours24 t -> getHours24 t' = getHours24 t - 12)
  /\ (hourMode t = true -> getHours24 t = 0 -> getHours24 t' = 12).
Proof.
  intros (Hh & Hm & Hs). cbv zeta.
  assert (Hg : 0 <= getHours t < 24
               /\ (hourMode t = false -> getHours t = deltaHours t)
               /\ (hourMode t = true -> 12 < deltaHours t ->
                   getHours t = deltaHours t - 12)
               /\ (hourMode t = true -> deltaHours t = 0 -> getHours t = 12)).
  { unfold getHours, getHoursByMode. destruct (hourMode t).
    - destruct (Z.eqb_spec (deltaHours t) 0).
      + repeat split; try lia; try discriminate.
      + destruct (Z.gtb_spec (deltaHours t) 12).
        * rewrite byte_id by lia. repeat split; try lia; discriminate.
        * repeat split; try lia; discriminate.
    - repeat split; try lia; discriminate. }
  destruct Hg as (Hr & H24 & H12 & H0).
  assert (E : getHours24 (getTimeInt currentMillis
                            (updateInternalTimeDelta currentMillis t))
              = getHours t
              /\ getMins (getTimeInt currentMillis
                            (updateInternalTimeDelta currentMillis t))
                 = getMins t
              /\ getSecs (getTimeInt currentMillis
                            (updateInternalTimeDelta currentMillis t))
                 = getSecs t).
  { unfold getTimeInt, updateInternalTimeDelta, setSyncTime, setDelta,
      getHours24, getMins, getSecs.
    cbn [hours mins secs millisDate deltaHours deltaMins deltaSecs].
    rewrite int32_self.
    change (Z.quot 0 1000) with 0. change (Z.rem 0 60) with 0.
    change (Z.quot 0 60) with 0. change (Z.quot 0 3600) with 0.
    change (Z.rem 0 24) with 0. rewrite !Z.add_0_r.
    assert (Eb : forall z, byte (byte z) = byte z)
      by (intros z; unfold byte; apply Z.mod_mod; lia).
    rewrite !Eb.
    rewrite (byte_id (deltaSecs t)), (byte_id (deltaMins t)),
      (byte_id (getHours t)) by lia.
    destruct (Z.gtb_spec (deltaSecs t) 59); [lia|].
    cbv beta iota zeta.
    destruct (Z.gtb_spec (deltaMins t) 59); [lia|].
    cbv beta iota zeta.
    destruct (Z.gtb_spec (getHours t) 23); [lia|].
    cbn. now repeat split. }
  destruct E as (E1 & E2 & E3). rewrite E1, E2, E3.
  unfold getHours24. repeat split; auto.
Qed.

Lemma resync_stores_displayed_hour_witness :
  getHours24
    (getTimeInt 60001
       (updateInternalTimeDelta 60001
          (mkDateTime 12 34 56 15 35 56 15 10 1 (Some 5) true 0)))
  = 3.
Proof.
  assert (Hv : validDelta (mkDateTime 12 34 56 15 35 56 15 10 1 (Some 5) true 0))
    by (unfold validDelta; cbn; lia).
  exact (proj1 (resync_stores_displayed_hour 60001 _ Hv)).
Defined.

(** X21. For start, end and current hour in 0..23, [getHoursBlanked] is
    true exactly on the hours from the start up to, not including, the
    end, counted around midnight: never when start and end are equal. *)
Theorem getHoursBlanked_window (blankHourStart blankHourEnd : Z) (t : DateTime) :
  0 <= blankHourStart < 24 -> 0 <= blankHourEnd < 24 ->
  0 <= getHours24 t < 24 ->
  getHoursBlanked blankHourStart blankHourEnd t = true
  <-> (getHours24 t - blankHourStart) mod 24
      < (blankHourEnd - blankHourStart) mod 24.
Proof.
  intros Hs He Hh. unfold getHoursBlanked.
  generalize dependent (getHours24 t). intros h Hh.
  rewrite !Z.geb_leb.
  destruct (Z.gtb_spec blankHourStart blankHourEnd).
  - rewrite orb_true_iff, Z.leb_le, Z.ltb_lt.
    Z.to_euclidean_division_equations. lia.
  - destruct (Z.ltb_spec blankHourStart blankHourEnd).
    + rewrite andb_true_iff, Z.leb_le, Z.ltb_lt.
      Z.to_euclidean_division_equations. lia.
    + assert (blankHourStart = blankHourEnd) by lia. subst.
      rewrite Z.sub_diag. change (0 mod 24) with 0.
      split; [discriminate|].
      pose proof (Z.mod_pos_bound (h - blankHourEnd) 24). lia.
Qed.

Lemma getHoursBlanked_window_witness :
  getHoursBlanked 22 7 (mkDateTime 0 0 0 23 0 0 15 10 1 (Some 5) false 0) = true.
Proof.
  apply (getHoursBlanked_window 22 7); cbn; try lia. reflexivity.
Defined.

(** X22. The three time-setting steps keep a valid time of day valid and
    wrap without carrying: [incSecs] and [incMins] count modulo 60,
    [incHours] modulo 24, none changes another field except that
    [incMins] sets the seconds to zero. *)
Theorem time_setting_wraps (nowMillis : Z) (t : DateTime) :
  validDelta t ->
  (validSync (incSecs nowMillis t)
   /\ secs (incSecs nowMillis t) = (getSecs t + 1) mod 60
   /\ mins (incSecs nowMillis t) = getMins t
   /\ hours (incSecs nowMillis t) = getHours24 t)
  /\ (validSync (incMins nowMillis t)
      /\ secs (incMins nowMillis t) = 0
      /\ mins (incMins nowMillis t) = (getMins t + 1) mod 60
      /\ hours (incMins nowMillis t) = getHours24 t)
  /\ (validSync (incHours nowMillis t)
      /\ secs (incHours nowMillis t) = getSecs t
      /\ mins (incHours nowMillis t) = getMins t
      /\ hours (incHours nowMillis t) = (getHours24 t + 1) mod 24).
Proof.
  intros (Hh & Hm & Hs).
  unfold validSync, incSecs, incMins, incHours, setSyncTime, incSecsValue,
    incMinsValue, incHoursValue, getSecs, getMins, getHours24, SECS_MAX,
    MINS_MAX, HOURS_MAX.
  cbn [hours mins secs].
  rewrite (byte_id (deltaSecs t + 1)), (byte_id (deltaMins t + 1)),
    (byte_id (deltaHours t + 1)) by lia.
  rewrite !Z.geb_leb.
  destruct (Z.leb_spec 60 (deltaSecs t + 1));
    destruct (Z.leb_spec 60 (deltaMins t + 1));
    destruct (Z.leb_spec 24 (deltaHours t + 1));
    rewrite ?byte_id by lia;
    repeat split; try lia;
    first [ rewrite Z.mod_small by lia; lia
          | match goal with
            | |- 0 = (?x + 1) mod ?k =>
                replace (x + 1) with k by lia; symmetry; apply Z.mod_same; lia
            end ].
Qed.

Lemma time_setting_wraps_witness :
  hours (incHours 0 (mkDateTime 0 0 0 23 59 59 15 10 1 (Some 5) false 0)) = 0.
Proof.
  assert (Hv : validDelta (mkDateTime 0 0 0 23 59 59 15 10 1 (Some 5) false 0))
    by (unfold validDelta; cbn; lia).
  exact (proj2 (proj2 (proj2 (proj2 (proj2 (time_setting_wraps 0 _ Hv)))))).
Defined.

End DateAndTime.

(** ** Number loaders *)

Section Loaders.
Import Render Presets.

Lemma six_elements (a : list Z) :
  length a = 6%nat -> exists a0 a1 a2 a3 a4 a5, a = [a0; a1; a2; a3; a4; a5].
Proof.
  intros H.
  destruct a as [|a0 [|a1 [|a2 [|a3 [|a4 [|a5 [|a6 a]]]]]]]; try discriminate.
  now exists a0, a1, a2, a3, a4, a5.
Qed.

Lemma units_digit (v : Z) : 0 <= v -> 0 <= Z.rem v 10 <= 9.
Proof. intros Hv. rewrite Z.rem_mod_nonneg by lia. pose proof (Z.mod_pos_bound v 10). lia. Qed.

Lemma byte_digit (v : Z) : 0 <= v -> byte (Z.rem v 10) = v mod 10.
Proof.
  intros Hv. pose proof (units_digit v Hv).
  rewrite byte_id by lia. apply Z.rem_mod_nonneg; lia.
Qed.

Lemma byte_tens (v : Z) : 0 <= v <= 99 -> byte (Z.quot v 10) = v / 10.
Proof.
  intros Hv. rewrite Z.quot_div_nonneg by lia.
  apply byte_id. Z.to_euclidean_division_equations. lia.
Qed.

(** X23. [loadNumberArrayConfInt] with non-negative arguments stores six
    decimal digits that read as the last four digits of the value
    followed by the last two of the option number. With an option number
    from -9 to -1 (as in the calibration at start-up, where [currentMode]
    is still [MODE_TIME]) the last element stored is 256 plus that number,
    which is no index of [decodeDigit]. *)
Theorem loadNumberArrayConfInt_shows (confValue confNum : Z) (s : Display) :
  length (NumberArray s) = 6%nat ->
  0 <= confValue <= 32767 -> in_int16 confNum ->
  let a := NumberArray (loadNumberArrayConfInt confValue confNum s) in
  (0 <= confNum ->
   Forall (fun d => 0 <= d <= 9) a
   /\ shown a = (confValue mod 10000) * 100 + confNum mod 100)
  /\ (-9 <= confNum < 0 ->
      rd a 5 = 256 + confNum
      /\ forall hw, Ports.SetSN74141Chip (rd a 5) hw = None).
Proof.
  intros Hlen Hv Hn. cbv zeta.
  destruct (six_elements _ Hlen) as (a0 & a1 & a2 & a3 & a4 & a5 & Ea).
  unfold loadNumberArrayConfInt. rewrite Ea.
  cbn [set_number NumberArray]. cbn [insert list_insert].
  split.
  - intros Hn0.
    rewrite !Z.quot_div_nonneg by lia.
    rewrite !byte_digit by (try apply Z.div_pos; lia).
    split.
    + repeat constructor;
        match goal with
        | |- context [?x mod 10] => pose proof (Z.mod_pos_bound x 10); lia
        end.
    + unfold shown. cbn [fold_left].
      Z.to_euclidean_division_equations. lia.
  - intros Hneg. unfold rd. cbn [lookup list_lookup default from_option id].
    unfold id.
    assert (E : byte (Z.rem confNum 10) = 256 + confNum).
    { replace (Z.rem confNum 10) with confNum
        by (symmetry; apply Z.rem_small_iff; lia).
      unfold byte. Z.to_euclidean_division_equations. lia. }
    rewrite E. split; [reflexivity|].
    intros hw. unfold Ports.SetSN74141Chip.
    replace (256 + confNum <? 16) with false
      by (symmetry; apply Z.ltb_ge; lia).
    destruct (0 <=? 256 + confNum); reflexivity.
Qed.

Lemma loadNumberArrayConfInt_shows_witness :
  shown (NumberArray (loadNumberArrayConfInt 146 19 powerUp)) = 14619.
Proof.
  assert (Hlen : length (NumberArray powerUp) = 6%nat) by reflexivity.
  assert (Hv : 0 <= 146 <= 32767) by lia.
  assert (Hn : in_int16 19) by (unfold in_int16; lia).
  assert (Hn0 : 0 <= 19) by lia.
  exact (proj2 (proj1 (loadNumberArrayConfInt_shows 146 19 powerUp Hlen Hv Hn) Hn0)).
Defined.

(** X24. [loadNumberArrayTime] stores six decimal digits that read as the
    displayed hour, the minute and the second, two digits each. *)
Theorem loadNumberArrayTime_shows (t : Clock.DateTime) (s : Display) :
  length (NumberArray s) = 6%nat -> Clock.validDelta t ->
  let a := NumberArray (Clock.loadNumberArrayTime t s) in
  Forall (fun d => 0 <= d <= 9) a
  /\ shown a = Clock.getHours t * 10000 + Clock.getMins t * 100 + Clock.getSecs t.
Proof.
  intros Hlen (Hh & Hm & Hs). cbv zeta.
  destruct (six_elements _ Hlen) as (a0 & a1 & a2 & a3 & a4 & a5 & Ea).
  assert (Hg : 0 <= Clock.getHours t <= 23).
  { unfold Clock.getHours, Clock.getHoursByMode.
    destruct (Clock.hourMode t); [|lia].
    destruct (Z.eqb_spec (Clock.deltaHours t) 0); [lia|].
    destruct (Z.gtb_spec (Clock.deltaHours t) 12); [|lia].
    rewrite byte_id by lia. lia. }
  unfold Clock.loadNumberArrayTime. rewrite Ea.
  cbn [set_number NumberArray]. cbn [insert list_insert].
  unfold Clock.getMins, Clock.getSecs in *.
  rewrite !byte_digit, !byte_tens by lia.
  split.
  - repeat constructor; Z.to_euclidean_division_equations; lia.
  - unfold shown. cbn [fold_left]. Z.to_euclidean_division_equations. lia.
Qed.

Lemma loadNumberArrayTime_shows_witness :
  shown (NumberArray
           (Clock.loadNumberArrayTime
              (Clock.mkDateTime 0 0 0 23 59 7 15 10 1 (Some 5) false 0) powerUp))
  = 235907.
Proof.
  assert (Hlen : length (NumberArray powerUp) = 6%nat) by reflexivity.
  assert (Hv : Clock.validDelta
                 (Clock.mkDateTime 0 0 0 23 59 7 15 10 1 (Some 5) false 0))
    by (unfold Clock.validDelta; cbn; lia).
  exact (proj2 (loadNumberArrayTime_shows _ powerUp Hlen Hv)).
Defined.

(** X25. [loadNumberArrayDate] stores the year, month and day as two
    decimal digits each, in the order of the date format: year-month-day
    for format 0, month-day-year for 1, day-month-year for 2. Any other
    format leaves the digits as they were. *)
Theorem loadNumberArrayDate_shows (dateFormat : Z) (t : Clock.DateTime)
    (s : Display) :
  length (NumberArray s) = 6%nat ->
  0 <= Clock.years t <= 99 -> 0 <= Clock.months t <= 99 ->
  0 <= Clock.days t <= 99 ->
  let a := NumberArray (Clock.loadNumberArrayDate dateFormat t s) in
  (dateFormat = DATE_FORMAT_YYMMDD ->
   shown a = Clock.years t * 10000 + Clock.months t * 100 + Clock.days t)
  /\ (dateFormat = DATE_FORMAT_MMDDYY ->
      shown a = Clock.months t * 10000 + Clock.days t * 100 + Clock.years t)
  /\ (dateFormat = DATE_FORMAT_DDMMYY ->
      shown a = Clock.days t * 10000 + Clock.months t * 100 + Clock.years t)
  /\ (0 <= dateFormat <= 2 -> Forall (fun d => 0 <= d <= 9) a)
  /\ (2 < dateFormat -> a = NumberArray s).
Proof.
  intros Hlen Hy Hm Hd. cbv zeta.
  destruct (six_elements _ Hlen) as (a0 & a1 & a2 & a3 & a4 & a5 & Ea).
  unfold Clock.loadNumberArrayDate, Clock.loadTwo, DATE_FORMAT_YYMMDD,
    DATE_FORMAT_MMDDYY, DATE_FORMAT_DDMMYY.
  rewrite Ea.
  rewrite !byte_digit, !byte_tens by lia.
  destruct (Z.eqb_spec dateFormat 0) as [->|N0];
    [|destruct (Z.eqb_spec dateFormat 1) as [->|N1];
      [|destruct (Z.eqb_spec dateFormat 2) as [->|N2]]];
    cbn [set_number NumberArray]; cbn [insert list_insert];
    (split; [intros E; try discriminate E; try lia;
             unfold shown; cbn [fold_left];
             Z.to_euclidean_division_equations; lia|]);
    (split; [intros E; try discriminate E; try lia;
             unfold shown; cbn [fold_left];
             Z.to_euclidean_division_equations; lia|]);
    (split; [intros E; try discriminate E; try lia;
             unfold shown; cbn [fold_left];
             Z.to_euclidean_division_equations; lia|]);
    (split; [intros E; try lia;
             repeat constructor; Z.to_euclidean_division_equations; lia
            |intros E; try lia; try (rewrite Ea; reflexivity)]).
Qed.

Lemma loadNumberArrayDate_shows_witness :
  shown (NumberArray
           (Clock.loadNumberArrayDate DATE_FORMAT_DDMMYY
              (Clock.mkDateTime 0 0 0 0 0 0 26 11 3 (Some 3) false 0) powerUp))
  = 31126.
Proof.
  assert (Hlen : length (NumberArray powerUp) = 6%nat) by reflexivity.
  pose proof (loadNumberArrayDate_shows DATE_FORMAT_DDMMYY
                (Clock.mkDateTime 0 0 0 0 0 0 26 11 3 (Some 3) false 0) powerUp
                Hlen ltac:(cbn; lia) ltac:(cbn; lia) ltac:(cbn; lia))
    as (_ & _ & H & _).
  exact (H eq_refl).
Defined.

End Loaders.

(** ** Renderer and presets across the main loop *)

Section MainLoop.
Import Render Presets.

Lemma Forall_rd (P : Z -> Prop) (a : list Z) (i : nat) :
  Forall P a -> (i < length a)%nat -> P (rd a i).
Proof.
  intros Ha Hi. unfold rd.
  destruct (lookup_lt_is_Some_2 a i Hi) as [x Ex]. rewrite Ex. cbn.
  eapply Forall_lookup_1; eauto.
Qed.

Lemma rd_Forall (P : Z -> Prop) (a : list Z) :
  (forall i, (i < length a)%nat -> P (rd a i)) -> Forall P a.
Proof.
  intros H. apply Forall_lookup_2. intros i x Ex.
  specialize (H i (lookup_lt_Some a i x Ex)). unfold rd in H.
  now rewrite Ex in H.
Qed.

Lemma rd_ext (a b : list Z) :
  length a = length b -> (forall i, (i < length a)%nat -> rd a i = rd b i) ->
  a = b.
Proof.
  intros Hl H. apply list_eq_same_length with (length a); auto.
  intros i x y Hi Ex Ey. specialize (H i Hi). unfold rd in H.
  rewrite Ex, Ey in H. exact H.
Qed.

(** What [outputDisplay] leaves alone. *)
Lemma outputDisplay_keeps (s : Display) :
  NumberArray (outputDisplay s) = NumberArray s
  /\ displayType (outputDisplay s) = displayType s
  /\ blanked (outputDisplay s) = blanked s
  /\ scrollback (outputDisplay s) = scrollback s
  /\ fadeSteps (outputDisplay s) = fadeSteps s
  /\ fadeStep (outputDisplay s) = fadeStep s
  /\ digitOffCount (outputDisplay s) = digitOffCount s
  /\ scrollSteps (outputDisplay s) = scrollSteps s.
Proof.
  unfold outputDisplay. rewrite outputDisplayFull_eq. cbn [fst].
  pose proof (atHead_settings s 6) as H.
  revert H. generalize (fst (atHead s 6)). intros s' H.
  unfold settings in H. injection H as H1 H2 H3 H4 H5 H6 H7 H8 _ _.
  unfold blinkUpdate. destruct (_ =? BLINK_COUNT_MAX); cbn; now repeat split.
Qed.

Lemma setUnless_type (i : nat) (test v : Z) (s : Display) :
  displayType (setUnless i test v s) = displayType s
  \/ displayType (setUnless i test v s) = <[i := v]> (displayType s).
Proof. unfold setUnless. destruct (negb _); [right|left]; reflexivity. Qed.

Lemma setUnless_keeps (i : nat) (test v : Z) (s : Display) :
  NumberArray (setUnless i test v s) = NumberArray s
  /\ currNumberArray (setUnless i test v s) = currNumberArray s
  /\ fadeState (setUnless i test v s) = fadeState s
  /\ length (displayType (setUnless i test v s)) = length (displayType s).
Proof.
  unfold setUnless. destruct (negb _); cbn; repeat split.
  apply length_insert.
Qed.

Lemma setUnless_noScroll (i : nat) (test v : Z) (s : Display) :
  v <> SCROLL -> noScroll s -> noScroll (setUnless i test v s).
Proof.
  intros Hv Hs. unfold noScroll.
  destruct (setUnless_type i test v s) as [-> | ->]; [exact Hs|].
  now apply Forall_insert.
Qed.

Lemma setUnless_steady (i : nat) (test v : Z) (s : Display) :
  v <> SCROLL -> steady s -> steady (setUnless i test v s).
Proof.
  intros Hv ((L1 & L2 & L3 & L4) & Hn & Hd & Hc).
  destruct (setUnless_keeps i test v s) as (E1 & E2 & E3 & E4).
  unfold steady, wf. rewrite E1, E2, E3, E4.
  repeat split; try assumption. now apply setUnless_noScroll.
Qed.

Ltac steady_preset :=
  repeat first [ assumption | apply setUnless_steady; [discriminate|] ].

Lemma runPreset_steady (p : Preset) (s : Display) :
  steady s -> steady (runPreset p s).
Proof.
  intros Hs.
  destruct p; cbn [runPreset];
    unfold allFade, allNormal, allBlanked, highlight0and1, highlight2and3,
      highlight4and5, displayConfig, displayConfig2, displayConfig3,
      highlightYearsDateFormat, highlightMonthsDateFormat,
      highlightDaysDateFormat, applyBlanking, preset,
      highlight0and1, highlight2and3, highlight4and5, preset;
    repeat match goal with
           | |- context [if ?c then _ else _] => destruct c
           end;
    try assumption; steady_preset.
Qed.

Lemma nextSlot_decimal (s : Display) (v : Slot) :
  mode v <> SCROLL -> 0 <= target v <= 9 -> 0 <= current v <= 9 ->
  0 <= current (nextSlot s v) <= 9.
Proof.
  intros Hm Ht Hc. unfold nextSlot, coreStep. cbv zeta.
  destruct (Z.eqb_spec (coreType s v) SCROLL) as [E|E].
  - assert (Hov : coreOverride s v = true).
    { unfold coreType in E. destruct (coreOverride s v); [reflexivity|].
      destruct (blanked s); [discriminate|contradiction]. }
    apply coreOverride_true in Hov. destruct Hov as (H0 & _ & Hne).
    unfold scrollCore. cbv zeta.
    destruct (negb _); [|exact Hc].
    destruct (_ =? 1); [|destruct (_ >? 1); exact Hc].
    cbn [fst current]. rewrite byte_id by lia. lia.
  - destruct (coreType s v =? FADE).
    + unfold fadeCore. cbv zeta.
      destruct (_ =? 1); [exact Ht|]. destruct (_ >? 1); exact Hc.
    + exact Ht.
Qed.

Lemma outputDisplay_steady (s : Display) : steady s -> steady (outputDisplay s).
Proof.
  intros (Hw & Hn & Hd & Hc).
  destruct (outputDisplay_keeps s) as (E1 & E2 & _).
  pose proof (outputDisplay_wf s Hw) as Hw'.
  split; [exact Hw'|]. split; [unfold noScroll; now rewrite E2|].
  split; [now rewrite E1|].
  apply rd_Forall. intros i Hi.
  destruct Hw' as (_ & L2 & _). rewrite L2 in Hi.
  pose proof (outputDisplay_slot s i Hw Hi) as Hslot.
  apply (f_equal current) in Hslot. cbn [slotAt current] in Hslot.
  rewrite Hslot. destruct Hw as (W1 & W2 & W3 & W4).
  apply nextSlot_decimal; cbn [slotAt mode target current].
  - apply (Forall_rd _ _ _ Hn). lia.
  - apply (Forall_rd _ _ _ Hd). lia.
  - apply (Forall_rd _ _ _ Hc). lia.
Qed.

Lemma runOps_steady (ops : list LoopOp) (s : Display) :
  steady s -> Forall loadsDecimal ops -> steady (runOps ops s).
Proof.
  revert s. induction ops as [|op ops IH]; intros s Hs Hl; [exact Hs|].
  apply Forall_cons in Hl. destruct Hl as [Hop Hl].
  cbn [runOps fold_left]. apply IH; [|exact Hl].
  destruct op as [p|digits|b|dim|f n b|]; cbn [runOp].
  - now apply runPreset_steady.
  - destruct Hop as [Hlen Hdec].
    destruct Hs as ((L1 & L2 & L3 & L4) & Hn & Hd & Hc).
    repeat split; assumption.
  - exact Hs.
  - exact Hs.
  - exact Hs.
  - now apply outputDisplay_steady.
Qed.

(** X26. No slot is ever configured as [SCROLL]: from a display without a
    [SCROLL] slot (such as the one at power-up), no sequence of presets,
    digit loads, setting changes and calls of [outputDisplay] produces
    one. Scrolling
    happens through the scrollback override only. *)
Theorem no_slot_is_configured_scroll (ops : list LoopOp) (s : Display) :
  noScroll s -> noScroll powerUp /\ noScroll (runOps ops s).
Proof.
  intros Hs. split; [repeat constructor; discriminate|].
  revert s Hs. induction ops as [|op ops IH]; intros s Hs; [exact Hs|].
  cbn [runOps fold_left]. apply IH.
  destruct op as [p|digits|b|dim|f n b|]; cbn [runOp]; try exact Hs.
  - destruct p; cbn [runPreset];
      unfold allFade, allNormal, allBlanked, highlight0and1, highlight2and3,
        highlight4and5, displayConfig, displayConfig2, displayConfig3,
        highlightYearsDateFormat, highlightMonthsDateFormat,
        highlightDaysDateFormat, applyBlanking, preset,
        highlight0and1, highlight2and3, highlight4and5, preset;
      repeat match goal with
             | |- context [if ?c then _ else _] => destruct c
             end;
      try assumption;
      repeat first [ assumption | apply setUnless_noScroll; [discriminate|] ].
  - unfold noScroll. now destruct (outputDisplay_keeps s) as (_ & -> & _).
Qed.

Lemma no_slot_is_configured_scroll_witness :
  noScroll (runOps [OpPreset PDisplayConfig; OpLoad [1; 2; 3; 4; 5; 6]; OpRender;
                    OpPreset (PApplyBlanking true); OpBlanked true; OpRender]
                   powerUp).
Proof.
  assert (Hs : noScroll powerUp) by (repeat constructor; discriminate).
  exact (proj2 (no_slot_is_configured_scroll _ powerUp Hs)).
Defined.

(** X27. The digits shown stay decimal: from a display with six-element
    arrays, decimal digits and no slot configured as [SCROLL], any
    sequence of presets, loads of six decimal digits, changes of the
    blanking flag, the dimming or the step settings, and calls of
    [outputDisplay] leaves decimal digits in [NumberArray] and in
    [currNumberArray], so that every value handed to [SetSN74141Chip] is
    an index of [decodeDigit]. *)
Theorem shown_digits_stay_decimal (ops : list LoopOp) (s : Display) :
  wf s -> noScroll s -> decimal (NumberArray s) -> decimal (currNumberArray s) ->
  Forall loadsDecimal ops ->
  let s' := runOps ops s in
  wf s' /\ decimal (NumberArray s') /\ decimal (currNumberArray s')
  /\ forall i hw, (i < 6)%nat ->
       is_Some (Ports.SetSN74141Chip (rd (currNumberArray s') i) hw)
       /\ is_Some (Ports.SetSN74141Chip (rd (NumberArray s') i) hw).
Proof.
  intros Hw Hn Hd Hc Hl. cbv zeta.
  assert (Hs : steady s) by (unfold steady; tauto).
  destruct (runOps_steady ops s Hs Hl) as (Hw' & _ & Hd' & Hc').
  split; [exact Hw'|]. split; [exact Hd'|]. split; [exact Hc'|].
  intros i hw Hi. destruct Hw' as (L1 & L2 & _).
  assert (Hrc : 0 <= rd (currNumberArray (runOps ops s)) i <= 9)
    by (apply (Forall_rd _ _ i Hc'); lia).
  assert (Hrn : 0 <= rd (NumberArray (runOps ops s)) i <= 9)
    by (apply (Forall_rd _ _ i Hd'); lia).
  destruct (SetSN74141Chip_input (rd (currNumberArray (runOps ops s)) i) hw)
    as (hw1 & -> & _); [lia|].
  destruct (SetSN74141Chip_input (rd (NumberArray (runOps ops s)) i) hw)
    as (hw2 & -> & _); [lia|].
  split; eexists; reflexivity.
Qed.

Lemma shown_digits_stay_decimal_witness :
  decimal (currNumberArray
             (runOps [OpLoad [0; 9; 0; 9; 0; 9]; OpRender; OpDimming 100;
                      OpRender; OpRender] normal5to0)).
Proof.
  assert (Hw : wf normal5to0) by (repeat split).
  assert (Hn : noScroll normal5to0) by (repeat constructor; discriminate).
  assert (Hd : decimal (NumberArray normal5to0)) by (repeat constructor; lia).
  assert (Hc : decimal (currNumberArray normal5to0)) by (repeat constructor; lia).
  assert (Hl : Forall loadsDecimal
                 [OpLoad [0; 9; 0; 9; 0; 9]; OpRender; OpDimming 100; OpRender;
                  OpRender]).
  { repeat constructor; lia. }
  exact (proj1 (proj2 (proj2 (shown_digits_stay_decimal _ normal5to0
                                Hw Hn Hd Hc Hl)))).
Defined.

End MainLoop.

(** ** Renderer: what a call leaves alone *)

Section Stability.
Import Render.

(** X28. [outputDisplay] writes nothing but the shown digits, the fade
    counters and the blink counter and phase: the target digits, the
    configured modes, the blanking flag and every setting are as before,
    and arrays of six elements stay arrays of six elements. *)
Theorem outputDisplay_writes_progress_only (s : Display) :
  NumberArray (outputDisplay s) = NumberArray s
  /\ displayType (outputDisplay s) = displayType s
  /\ blanked (outputDisplay s) = blanked s
  /\ scrollback (outputDisplay s) = scrollback s
  /\ fadeSteps (outputDisplay s) = fadeSteps s
  /\ fadeStep (outputDisplay s) = fadeStep s
  /\ digitOffCount (outputDisplay s) = digitOffCount s
  /\ scrollSteps (outputDisplay s) = scrollSteps s
  /\ (wf s -> wf (outputDisplay s)).
Proof.
  destruct (outputDisplay_keeps s) as (H1 & H2 & H3 & H4 & H5 & H6 & H7 & H8).
  repeat split; try assumption; now apply outputDisplay_wf.
Qed.

Lemma nextSlot_settled (s : Display) (v : Slot) :
  current v = target v -> fstate v = 0 -> nextSlot s v = v.
Proof.
  intros Hc Hf. destruct v as [t c m f]. cbn in Hc, Hf. subst c f.
  unfold nextSlot, coreStep, coreType, coreOverride. cbn [target current mode fstate].
  rewrite Z.eqb_refl. cbn [negb andb].
  destruct (blanked s).
  - reflexivity.
  - destruct (Z.eqb_spec m SCROLL) as [->|Hs].
    + unfold scrollCore. cbn. now rewrite Z.eqb_refl.
    + destruct (Z.eqb_spec m FADE) as [->|Hf]; [|reflexivity].
      unfold fadeCore. cbn. now rewrite Z.eqb_refl.
Qed.

(** X29. A display that already shows its target digits and has no fade
    or scroll in progress is left as it is by [outputDisplay], but for the
    blink counter: the call equals [blinkUpdate]. *)
Theorem settled_display_is_stable (s : Display) :
  wf s ->
  (forall i, (i < 6)%nat ->
     rd (currNumberArray s) i = rd (NumberArray s) i /\ rd (fadeState s) i = 0) ->
  outputDisplay s = blinkUpdate s.
Proof.
  intros Hw Hset. unfold outputDisplay. rewrite outputDisplayFull_eq. cbn [fst].
  f_equal.
  destruct (atHead_spec s 6 Hw ltac:(lia)) as (Hw6 & Hs6 & Hlt & _).
  assert (Hslot : forall j, (j < 6)%nat -> slotAt (fst (atHead s 6)) j = slotAt s j).
  { intros j Hj. rewrite (Hlt j Hj). destruct (Hset j Hj) as [Hc Hf].
    now apply nextSlot_settled. }
  revert Hw6 Hs6 Hslot. generalize (fst (atHead s 6)). intros s' Hw' Hs' Hslot.
  destruct Hw as (L1 & L2 & L3 & L4). destruct Hw' as (L1' & L2' & L3' & L4').
  assert (Ec : currNumberArray s' = currNumberArray s).
  { apply rd_ext; [congruence|]. intros i Hi. rewrite L2' in Hi.
    exact (f_equal current (Hslot i Hi)). }
  assert (Ef : fadeState s' = fadeState s).
  { apply rd_ext; [congruence|]. intros i Hi. rewrite L4' in Hi.
    exact (f_equal fstate (Hslot i Hi)). }
  destruct s, s'. unfold settings in Hs'. cbn in *.
  injection Hs' as -> -> -> -> -> -> -> -> -> ->. now subst.
Qed.

Lemma settled_display_is_stable_witness :
  outputDisplay powerUp = blinkUpdate powerUp.
Proof.
  apply settled_display_is_stable; [repeat split|].
  intros i Hi.
  destruct i as [|[|[|[|[|[|i]]]]]]; [split; reflexivity..|lia].
Defined.

(** X30. A blanked slot is never switched on: when the blanking flag is
    set, or the slot is configured [BLANKED], the on-step the timer loop
    of that slot uses is [DIGIT_DISPLAY_NEVER], which no timer value
    equals, so the loop sends no [digitOn]. *)
Theorem blanked_slot_stays_dark (s : Display) (i : nat) :
  wf s -> (i < 6)%nat -> resolveType s i = BLANKED ->
  exists loc,
    timings s !! i = Some loc
    /\ digitOnTime loc = Some DIGIT_DISPLAY_NEVER
    /\ forall s' sigs, timerLoop i s' loc = Some sigs ->
         forall d v, ~ In (SigDigitOn d v) sigs.
Proof.
  intros Hw Hi Hb. eexists. split; [apply (timings_at s i Hw Hi)|].
  set (loc := snd (coreStep s (slotAt s i) (snd (atHead s i)))).
  assert (Hon : digitOnTime loc = Some DIGIT_DISPLAY_NEVER).
  { unfold loc. destruct (coreStep_on_off s (slotAt s i) (snd (atHead s i)))
      as [-> _].
    replace (if blanked s then BLANKED else mode (slotAt s i)) with BLANKED
      by (unfold resolveType in Hb; cbn [slotAt mode]; now rewrite Hb).
    reflexivity. }
  split; [exact Hon|].
  intros s' sigs Hrun d v Hin. unfold timerLoop in Hrun. rewrite Hon in Hrun.
  destruct (digitOffTime loc) as [off|]; [|discriminate].
  destruct (digitSwitchTime loc) as [sw|]; [|discriminate].
  revert Hrun. generalize (seq 0 (Z.to_nat DIGIT_ANTI_GHOST)). intros l Hrun.
  apply (inj Some) in Hrun. subst sigs. apply in_flat_map in Hin.
  destruct Hin as (t & _ & Hin). unfold timerTick in Hin.
  replace (Z.of_nat t =? DIGIT_DISPLAY_NEVER) with false in Hin
    by (symmetry; apply Z.eqb_neq; unfold DIGIT_DISPLAY_NEVER; lia).
  cbn [app] in Hin. apply in_app_or in Hin.
  destruct Hin as [Hin|Hin];
    [destruct (_ =? sw)|destruct (_ =? off)]; cbn in Hin;
    try contradiction; destruct Hin as [Hin|[]]; discriminate.
Qed.

Lemma blanked_slot_stays_dark_witness :
  exists loc,
    timings (Presets.set_blanked true fade3to7) !! 0%nat = Some loc
    /\ digitOnTime loc = Some DIGIT_DISPLAY_NEVER.
Proof.
  assert (Hw : wf (Presets.set_blanked true fade3to7)) by (repeat split).
  assert (Hi : (0 < 6)%nat) by lia.
  destruct (blanked_slot_stays_dark (Presets.set_blanked true fade3to7) 0 Hw Hi
              eq_refl) as (loc & E & Hon & _).
  exists loc. split; [exact E|exact Hon].
Defined.

End Stability.
